(** * SeMoRecepts: the data-access layer and its authorization contract

    A shallow embedding of the recipe application's model layer
    (src/models: Recipe, Favorite, User), of the SQLite schema it runs
    on (src/db.js), of the authentication middleware
    (src/middleware/auth.js), of the routers and of the controllers
    that sit on top of them.

    Conventions.
    - An account id is an integer ([Z]), a text is a [string] (a
      sequence of bytes, as SQLite stores it), [ingredients] and
      [steps] are lists of strings. Where a controller hands a
      property of the JSON body to a model unchecked, as it does with
      [servings] in an update and with [password], the value is a
      [js_value]: a number or a string.
    - A JavaScript value that may be [undefined]/[null] is an [option];
      the operator [x || d] is written out per type ([or_null],
      [or_value], [or_array]) with JavaScript's notion of falsy.
    - A thrown exception is the [Throw] constructor of [result]; a
      statement that throws leaves the database as it was.
    - The sources of nondeterminism of the model layer, the clock
      ([unixepoch()]), [randomUUID()] and bcrypt's salt, are explicit
      arguments.

    The first part of the file holds the definitions, the second part
    the lemmas and theorems about them. *)

From Stdlib Require Import List String Ascii ZArith NArith Bool Lia.
From Stdlib Require Import Permutation Sorted.
Import ListNotations.

Local Open Scope string_scope.
Local Open Scope Z_scope.

(* ================================================================= *)
(** ** Exceptions *)

(** The result codes of better-sqlite3's [SqliteError] that the schema
    and the statements can produce, the [SyntaxError] of [JSON.parse],
    and the [Error] that bcrypt throws when its data is not a
    string. *)
Inductive exn : Type :=
| SQLITE_CONSTRAINT_UNIQUE
| SQLITE_CONSTRAINT_PRIMARYKEY
| SQLITE_CONSTRAINT_FOREIGNKEY
| SQLITE_CONSTRAINT_NOTNULL
| SQLITE_CONSTRAINT_DATATYPE
| SQLITE_ERROR
| SQLITE_BUSY
| SyntaxError
| Error.

Inductive result (A : Type) : Type :=
| Ok (a : A)
| Throw (e : exn).
Arguments Ok {A} a.
Arguments Throw {A} e.

Definition bind {A B} (r : result A) (k : A -> result B) : result B :=
  match r with
  | Ok a => k a
  | Throw e => Throw e
  end.

Notation "'let!' x ':=' r 'in' k" := (bind r (fun x => k))
  (at level 10, x pattern, r at level 100, k at level 200).

Fixpoint mapM {A B} (f : A -> result B) (l : list A) : result (list B) :=
  match l with
  | [] => Ok []
  | a :: l' =>
      let! b := f a in
      let! bs := mapM f l' in
      Ok (b :: bs)
  end.

(* ================================================================= *)
(** ** JavaScript's [||] on the value shapes the model layer receives *)

(** A property of a JSON body that the code takes for a number or for
    a text without checking which: it is a number or a string. A
    number is an integer, or a number that is not one (2.5, say),
    whose value plays no part in what follows. *)
Inductive js_value : Type :=
| JNumber (n : Z)
| JNonInteger
| JString (s : string).

Module JS.

Definition is_empty (s : string) : bool :=
  match s with EmptyString => true | String _ _ => false end.

(** [s || null] for a string-or-undefined: the empty string is falsy. *)
Definition or_null (v : option string) : option string :=
  match v with
  | Some s => if is_empty s then None else Some s
  | None => None
  end.

(** The number 0 and the empty string are falsy; every other number
    and every other string, the string of the digit 0 included, is
    truthy. *)
Definition truthy (v : js_value) : bool :=
  match v with
  | JNumber n => negb (n =? 0)
  | JNonInteger => true
  | JString s => negb (is_empty s)
  end.

(** [v || d] for a number-or-string-or-undefined. *)
Definition or_value (v : option js_value) (d : js_value) : js_value :=
  match v with
  | Some x => if truthy x then x else d
  | None => d
  end.

(** [a || []] for an array-or-undefined: every array is truthy. *)
Definition or_array (v : option (list string)) : list string :=
  match v with
  | Some a => a
  | None => []
  end.

(** [b ? 1 : 0] for a boolean-or-undefined. *)
Definition to_flag (v : option bool) : Z :=
  match v with
  | Some true => 1
  | _ => 0
  end.

(** [!s] for a string-or-undefined. *)
Definition falsy_string (v : option string) : bool :=
  match v with
  | Some s => is_empty s
  | None => true
  end.

(** [Boolean(n)] for a number-or-null. *)
Definition Boolean (v : option Z) : bool :=
  match v with
  | Some n => negb (n =? 0)
  | None => false
  end.

(** [!n] for a number-or-undefined. *)
Definition falsy_number (v : option Z) : bool :=
  match v with
  | Some n => n =? 0
  | None => true
  end.

(** The canonical form of a byte under the [i] flag of a regular
    expression: the 26 ASCII letters lose their case. *)
Definition canonical (c : ascii) : ascii :=
  let n := N_of_ascii c in
  if ((65 <=? n) && (n <=? 90))%N then ascii_of_N (n + 32) else c.

Fixpoint canonicalize (s : string) : string :=
  match s with
  | EmptyString => EmptyString
  | String c s' => String (canonical c) (canonicalize s')
  end.

End JS.

(* ================================================================= *)
(** ** [JSON.stringify] and [JSON.parse] on arrays of strings

    The model layer stores [ingredients] and [steps] as
    [JSON.stringify(array)] and reads them back with [JSON.parse].
    Both are modelled on the only shape the layer uses them at: an
    array of strings. [stringify] follows ECMAScript's
    QuoteJSONString; [parse] is a one-pass recogniser that accepts
    insignificant white space and every escape of the JSON grammar
    (a [\u] escape of a surrogate half has no byte encoding of its own
    and is rejected). *)

Module JSON.

Definition dquote : ascii := "034"%char.
Definition backslash : ascii := "092"%char.

Definition hex_digit (n : N) : ascii :=
  if (n <? 10)%N then ascii_of_N (48 + n) else ascii_of_N (87 + n).

Definition hex_value (c : ascii) : option N :=
  let n := N_of_ascii c in
  if ((48 <=? n) && (n <=? 57))%N then Some (n - 48)%N
  else if ((97 <=? n) && (n <=? 102))%N then Some (n - 87)%N
  else if ((65 <=? n) && (n <=? 70))%N then Some (n - 55)%N
  else None.

Definition str1 (c : ascii) : string := String c EmptyString.
Definition str2 (c d : ascii) : string := String c (str1 d).

(** QuoteJSONString, one code unit at a time. *)
Definition escape_char (c : ascii) : string :=
  let n := N_of_ascii c in
  if (n =? 8)%N then str2 backslash "b"
  else if (n =? 9)%N then str2 backslash "t"
  else if (n =? 10)%N then str2 backslash "n"
  else if (n =? 12)%N then str2 backslash "f"
  else if (n =? 13)%N then str2 backslash "r"
  else if (n =? 34)%N then str2 backslash dquote
  else if (n =? 92)%N then str2 backslash backslash
  else if (n <? 32)%N then
    String backslash (String "u" (String "0" (String "0"
      (str2 (hex_digit (n / 16)) (hex_digit (n mod 16))))))
  else str1 c.

Fixpoint escape (s : string) : string :=
  match s with
  | EmptyString => EmptyString
  | String c s' => escape_char c ++ escape s'
  end.

Definition quote (s : string) : string :=
  String dquote (escape s ++ str1 dquote).

Fixpoint join (l : list string) : string :=
  match l with
  | [] => EmptyString
  | [x] => quote x
  | x :: l' => quote x ++ String "," (join l')
  end.

(** [JSON.stringify(l)] for an array of strings [l]. *)
Definition stringify (l : list string) : string :=
  String "[" (join l ++ str1 "]").

Definition is_ws (c : ascii) : bool :=
  let n := N_of_ascii c in
  ((n =? 32) || (n =? 9) || (n =? 10) || (n =? 13))%N.

(** The single-character escapes of the JSON grammar. *)
Definition unescape (e : ascii) : option ascii :=
  let n := N_of_ascii e in
  if (n =? 34)%N then Some dquote
  else if (n =? 92)%N then Some backslash
  else if (n =? 47)%N then Some "/"%char
  else if (n =? 98)%N then Some (ascii_of_N 8)
  else if (n =? 102)%N then Some (ascii_of_N 12)
  else if (n =? 110)%N then Some (ascii_of_N 10)
  else if (n =? 114)%N then Some (ascii_of_N 13)
  else if (n =? 116)%N then Some (ascii_of_N 9)
  else None.

(** The bytes of the code unit [v] of a [\u] escape. *)
Definition utf8 (v : N) : option string :=
  if (v <? 128)%N then Some (str1 (ascii_of_N v))
  else if (v <? 2048)%N then
    Some (str2 (ascii_of_N (192 + v / 64)) (ascii_of_N (128 + v mod 64)))
  else if ((55296 <=? v) && (v <=? 57343))%N then None
  else Some (String (ascii_of_N (224 + v / 4096))
               (str2 (ascii_of_N (128 + (v / 64) mod 64))
                     (ascii_of_N (128 + v mod 64)))).

Definition hex4 (a b c d : ascii) : option string :=
  match hex_value a, hex_value b, hex_value c, hex_value d with
  | Some x, Some y, Some z, Some w => utf8 (((x * 16 + y) * 16 + z) * 16 + w)
  | _, _, _, _ => None
  end.

Inductive pstate : Type :=
| PStart                (* before the opening bracket *)
| PFirst                (* after the opening bracket *)
| PElem                 (* after a comma *)
| PStr (acc : string)   (* inside a string literal *)
| PSep                  (* after a string literal *)
| PEnd.                 (* after the closing bracket *)

Fixpoint run (st : pstate) (items : list string) (s : string)
  : option (list string) :=
  match s with
  | EmptyString =>
      match st with PEnd => Some items | _ => None end
  | String c rest =>
      match st with
      | PStart =>
          if is_ws c then run PStart items rest
          else if (c =? "[")%char then run PFirst items rest
          else None
      | PFirst =>
          if is_ws c then run PFirst items rest
          else if (c =? dquote)%char then run (PStr EmptyString) items rest
          else if (c =? "]")%char then run PEnd items rest
          else None
      | PElem =>
          if is_ws c then run PElem items rest
          else if (c =? dquote)%char then run (PStr EmptyString) items rest
          else None
      | PSep =>
          if is_ws c then run PSep items rest
          else if (c =? ",")%char then run PElem items rest
          else if (c =? "]")%char then run PEnd items rest
          else None
      | PEnd =>
          if is_ws c then run PEnd items rest else None
      | PStr acc =>
          if (c =? dquote)%char then run PSep (items ++ [acc]) rest
          else if (c =? backslash)%char then
            match rest with
            | EmptyString => None
            | String e rest1 =>
                match unescape e with
                | Some d => run (PStr (acc ++ str1 d)) items rest1
                | None =>
                    if (e =? "u")%char then
                      match rest1 with
                      | String h1 (String h2 (String h3 (String h4 rest2))) =>
                          match hex4 h1 h2 h3 h4 with
                          | Some d => run (PStr (acc ++ d)) items rest2
                          | None => None
                          end
                      | _ => None
                      end
                    else None
                end
            end
          else if (N_of_ascii c <? 32)%N then None
          else run (PStr (acc ++ str1 c)) items rest
      end
  end.

(** [JSON.parse(s)], expecting an array of strings; [None] stands for
    the [SyntaxError] it throws. *)
Definition parse (s : string) : option (list string) :=
  run PStart [] s.

End JSON.

(** What follows the first element of a non-empty array. *)
Definition join_tail (l : list string) : string :=
  match l with
  | [] => EmptyString
  | _ :: _ => String "," (JSON.join l)
  end.


(* ================================================================= *)
(** ** SQLite: [LIKE], STRICT columns and [ORDER BY ... DESC] *)

Module SQL.

(** [sqlite3Tolower] on a byte: it folds the 26 ASCII capitals and
    nothing else. *)
Definition tolower (c : ascii) : ascii :=
  let n := N_of_ascii c in
  if ((65 <=? n) && (n <=? 90))%N then ascii_of_N (n + 32) else c.

(** [f] holds of [t] or of what is left of [t] once bytes are dropped
    from its front. *)
Fixpoint any_suffix (f : string -> bool) (t : string) : bool :=
  f t
  || match t with
     | EmptyString => false
     | String _ t' => any_suffix f t'
     end.

(** *** [LIKE]

    [patternCompare] walks pattern and text one character at a time,
    each read by [sqlite3Utf8Read], and stops at the first zero
    byte. *)

(** [sqlite3Utf8Trans1], on a lead byte (192 and above). *)
Definition sqlite3Utf8Trans1 (b : N) : N :=
  (if b <? 224 then b - 192
   else if b <? 240 then b - 224
   else if b <? 248 then b - 240
   else if b <? 252 then b - 248
   else if b <? 254 then b - 252
   else 0)%N.

(** The end of [sqlite3Utf8Read] for a character that started with a
    lead byte: an overlong form, a surrogate and the two
    non-characters are read as U+FFFD. *)
Definition replaced (c : N) : N :=
  (if (c <? 128) || (N.land c 4294965248 =? 55296)
      || (N.land c 4294967294 =? 65534)
   then 65533 else c)%N.

Definition flush (pending : option N) (l : list N) : list N :=
  match pending with
  | Some c => replaced c :: l
  | None => l
  end.

(** The characters of a text as [sqlite3Utf8Read] yields them, up to
    the first zero byte: a byte below 192 is a character of its own,
    a lead byte takes every continuation byte (128 to 191) that
    follows it, in 32-bit arithmetic. [pending] is the character
    being accumulated. *)
Fixpoint characters_from (pending : option N) (s : string) : list N :=
  match s with
  | EmptyString => flush pending []
  | String b rest =>
      let n := N_of_ascii b in
      match pending with
      | Some c =>
          if ((128 <=? n) && (n <? 192))%N
          then characters_from
                 (Some ((c * 64 + N.land n 63) mod 4294967296)%N) rest
          else
            flush pending
              (if (n =? 0)%N then []
               else if (n <? 192)%N then n :: characters_from None rest
               else characters_from (Some (sqlite3Utf8Trans1 n)) rest)
      | None =>
          if (n =? 0)%N then []
          else if (n <? 192)%N then n :: characters_from None rest
          else characters_from (Some (sqlite3Utf8Trans1 n)) rest
      end
  end.

Definition characters (s : string) : list N := characters_from None s.

(** [sqlite3Tolower] on a character below 128. *)
Definition lower (c : N) : N :=
  (if (65 <=? c) && (c <=? 90) then c + 32 else c)%N.

(** [f] holds of [t] or of what is left of [t] once characters are
    dropped from its front. *)
Fixpoint any_tail (f : list N -> bool) (t : list N) : bool :=
  f t
  || match t with
     | [] => false
     | _ :: t' => any_tail f t'
     end.

(** [%] (37) matches any run of characters, [_] (95) exactly one
    character, every other character itself, and a character below
    128 also its other ASCII case. *)
Fixpoint like_characters (pattern text : list N) : bool :=
  match pattern with
  | [] => match text with [] => true | _ :: _ => false end
  | c :: pattern' =>
      if (c =? 37)%N then any_tail (like_characters pattern') text
      else
        match text with
        | [] => false
        | d :: text' =>
            ((c =? d)%N
             || ((c <? 128)%N && (d <? 128)%N && (lower c =? lower d)%N)
             || (c =? 95)%N)
            && like_characters pattern' text'
        end
  end.

(** [text LIKE pattern] with no ESCAPE clause. *)
Definition like (pattern text : string) : bool :=
  like_characters (characters pattern) (characters text).

(** SQLITE_MAX_LIKE_PATTERN_LENGTH: the [LIKE] function raises
    [LIKE or GLOB pattern too complex] for a longer pattern, each
    time it is invoked on a row. *)
Definition LIKE_PATTERN_LENGTH : Z := 50000.

Definition too_complex (pattern : string) : bool :=
  LIKE_PATTERN_LENGTH <? Z.of_nat (String.length pattern).

(** *** A value bound to an INTEGER column of a STRICT table

    better-sqlite3 binds a JavaScript number as a double and a string
    as a text. The column takes a double that is an integer strictly
    between -2^63 and 2^63, and a text that reads as such a number;
    anything else is the error [SQLITE_CONSTRAINT_DATATYPE]. *)

Definition integer_of_number (n : Z) : option Z :=
  if (- 2 ^ 63 <? n) && (n <? 2 ^ 63) then Some n else None.

(** [sqlite3Isspace] and [sqlite3Isdigit]. *)
Definition is_space (c : ascii) : bool :=
  let n := N_of_ascii c in
  ((n =? 32) || ((9 <=? n) && (n <=? 13)))%N.

Definition digit (c : ascii) : option Z :=
  let n := N_of_ascii c in
  if ((48 <=? n) && (n <=? 57))%N then Some (Z.of_N n - 48) else None.

(** What [sqlite3AtoF] reads from a text: an integer literal, or a
    literal with a fraction or an exponent, kept as [m * 10 ^ x]. *)
Inductive numeral : Type :=
| Whole (n : Z)
| Scaled (m x : Z).

Definition signed (negative : bool) (m : Z) : Z :=
  if negative then - m else m.

(** The states of the recogniser: white space, a sign, digits, a
    point and digits, [e] or [E] with a sign and digits, white
    space. At least one digit is required before the exponent, and
    at least one in it; the exponent stops growing at 10000. *)
Inductive numeral_state : Type :=
| NStart
| NSigned (negative : bool)
| NWhole (negative : bool) (m : Z)
| NFraction (negative : bool) (m k : Z) (some_digit : bool)
| NExponent (negative : bool) (m k : Z)
| NExponentSigned (negative : bool) (m k : Z) (down : bool)
| NExponentDigits (negative : bool) (m k : Z) (down : bool) (e : Z)
| NTrailing (v : numeral).

Definition at_end (st : numeral_state) : option numeral :=
  match st with
  | NWhole negative m => Some (Whole (signed negative m))
  | NFraction negative m k true => Some (Scaled (signed negative m) (- k))
  | NExponentDigits negative m k down e =>
      Some (Scaled (signed negative m) (signed down e - k))
  | NTrailing v => Some v
  | _ => None
  end.

Definition is_e (c : ascii) : bool := ((c =? "e") || (c =? "E"))%char.

Fixpoint sqlite3AtoF (st : numeral_state) (s : string) : option numeral :=
  match s with
  | EmptyString => at_end st
  | String c rest =>
      match st with
      | NStart =>
          if is_space c then sqlite3AtoF NStart rest
          else if (c =? "-")%char then sqlite3AtoF (NSigned true) rest
          else if (c =? "+")%char then sqlite3AtoF (NSigned false) rest
          else if (c =? ".")%char
               then sqlite3AtoF (NFraction false 0 0 false) rest
          else match digit c with
               | Some d => sqlite3AtoF (NWhole false d) rest
               | None => None
               end
      | NSigned negative =>
          if (c =? ".")%char
          then sqlite3AtoF (NFraction negative 0 0 false) rest
          else match digit c with
               | Some d => sqlite3AtoF (NWhole negative d) rest
               | None => None
               end
      | NWhole negative m =>
          match digit c with
          | Some d => sqlite3AtoF (NWhole negative (m * 10 + d)) rest
          | None =>
              if (c =? ".")%char
              then sqlite3AtoF (NFraction negative m 0 true) rest
              else if is_e c then sqlite3AtoF (NExponent negative m 0) rest
              else if is_space c
                   then sqlite3AtoF (NTrailing (Whole (signed negative m)))
                                    rest
              else None
          end
      | NFraction negative m k some_digit =>
          match digit c with
          | Some d =>
              sqlite3AtoF (NFraction negative (m * 10 + d) (k + 1) true) rest
          | None =>
              if negb some_digit then None
              else if is_e c then sqlite3AtoF (NExponent negative m k) rest
              else if is_space c
                   then sqlite3AtoF
                          (NTrailing (Scaled (signed negative m) (- k))) rest
              else None
          end
      | NExponent negative m k =>
          if (c =? "-")%char
          then sqlite3AtoF (NExponentSigned negative m k true) rest
          else if (c =? "+")%char
               then sqlite3AtoF (NExponentSigned negative m k false) rest
          else match digit c with
               | Some d =>
                   sqlite3AtoF (NExponentDigits negative m k false d) rest
               | None => None
               end
      | NExponentSigned negative m k down =>
          match digit c with
          | Some d => sqlite3AtoF (NExponentDigits negative m k down d) rest
          | None => None
          end
      | NExponentDigits negative m k down e =>
          match digit c with
          | Some d =>
              sqlite3AtoF
                (NExponentDigits negative m k down
                   (if e <? 10000 then e * 10 + d else 10000)) rest
          | None =>
              if is_space c
              then sqlite3AtoF
                     (NTrailing (Scaled (signed negative m)
                                        (signed down e - k))) rest
              else None
          end
      | NTrailing v =>
          if is_space c then sqlite3AtoF (NTrailing v) rest else None
      end
  end.

(** The integer a text is stored as: an integer literal that fits 64
    bits, or a literal whose decimal value is an integer strictly
    between -2^63 and 2^63 (the rounding of a decimal fraction to a
    double is left out: the text is read at its decimal value). *)
Definition integer_of_text (s : string) : option Z :=
  match sqlite3AtoF NStart s with
  | Some (Whole n) =>
      if (- 2 ^ 63 <=? n) && (n <? 2 ^ 63) then Some n else None
  | Some (Scaled m x) =>
      if 0 <=? x then integer_of_number (m * 10 ^ x)
      else if m mod 10 ^ (- x) =? 0 then integer_of_number (m / 10 ^ (- x))
      else None
  | None => None
  end.

Definition integer_column (v : js_value) : option Z :=
  match v with
  | JNumber n => integer_of_number n
  | JNonInteger => None
  | JString s => integer_of_text s
  end.

(** *** [ORDER BY ... DESC] *)

Section OrderBy.
Context {A : Type} (key : A -> Z).

(** Rows with equal keys keep the order of the table (SQLite
    leaves the order of ties open). *)
Fixpoint insert_desc (x : A) (l : list A) : list A :=
  match l with
  | [] => [x]
  | y :: l' =>
      if key y <=? key x then x :: l else y :: insert_desc x l'
  end.

Definition order_by_desc (l : list A) : list A :=
  fold_right insert_desc [] l.
End OrderBy.

End SQL.

(* ================================================================= *)
(** ** The schema (src/db.js, [InitializeDatabase]) *)

(** [users]: [email] is UNIQUE, [id] is INTEGER PRIMARY KEY
    AUTOINCREMENT. *)
Record user_row : Type := mk_user_row {
  u_id : Z;
  u_name : string;
  u_email : string;
  u_password_hash : string;
  u_created_at : Z;
  u_updated_at : Z
}.

(** [recipes]: [id] is the TEXT PRIMARY KEY; [user_id], [title],
    [ingredients], [steps] and the two timestamps are NOT NULL; the
    other columns are nullable. *)
Record recipe_row : Type := mk_recipe_row {
  r_id : string;
  r_user_id : Z;
  r_title : string;
  r_time : option string;
  r_servings : option Z;
  r_category : option string;
  r_source_url : option string;
  r_image_url : option string;
  r_image_path : option string;
  r_ingredients : string;
  r_steps : string;
  r_notes : option string;
  r_is_scraped : option Z;
  r_created_at : Z;
  r_updated_at : Z
}.

(** [favorites]: UNIQUE(user_id, recipe_id), both columns foreign keys
    with ON DELETE CASCADE. *)
Record favorite_row : Type := mk_favorite_row {
  f_id : Z;
  f_user_id : Z;
  f_recipe_id : string;
  f_created_at : Z
}.

(** The database: the three tables in rowid order and the two
    AUTOINCREMENT counters of [sqlite_sequence]. *)
Record Store : Type := mk_store {
  users : list user_row;
  recipes : list recipe_row;
  favorites : list favorite_row;
  seq_users : Z;
  seq_favorites : Z
}.

Definition empty_store : Store :=
  {| users := []; recipes := []; favorites := [];
     seq_users := 0; seq_favorites := 0 |}.

Definition set_recipes (db : Store) (rs : list recipe_row) : Store :=
  {| users := users db; recipes := rs; favorites := favorites db;
     seq_users := seq_users db; seq_favorites := seq_favorites db |}.

Definition set_favorites (db : Store) (fs : list favorite_row) : Store :=
  {| users := users db; recipes := recipes db; favorites := fs;
     seq_users := seq_users db; seq_favorites := seq_favorites db |}.

Definition has_user (db : Store) (userId : Z) : bool :=
  existsb (fun u => u_id u =? userId) (users db).

Definition has_recipe (db : Store) (id : string) : bool :=
  existsb (fun r => (r_id r =? id)%string) (recipes db).

(** [WHERE id = ? AND user_id = ?] on [recipes]. *)
Definition owned_by (id : string) (userId : Z) (r : recipe_row) : bool :=
  (r_id r =? id)%string && (r_user_id r =? userId).

(** [WHERE user_id = ? AND recipe_id = ?] on [favorites]. *)
Definition is_pair (userId : Z) (recipeId : string) (f : favorite_row) : bool :=
  (f_user_id f =? userId) && (f_recipe_id f =? recipeId)%string.

(** The number of rows a statement changed, [result.changes]. *)
Definition changes {A} (p : A -> bool) (l : list A) : Z :=
  Z.of_nat (List.length (filter p l)).

(* ================================================================= *)
(** ** The statements the models prepare *)

(** [INSERT INTO recipes (...) VALUES (?, ... ?)], the thirteen bound
    values in the order of the statement, then the clock. NOT NULL is
    checked first, then the type of the STRICT column [servings],
    then the primary key, then the foreign key. *)
Definition INSERT_recipes (db : Store)
    (id : string) (userId : Z) (title : option string)
    (time : option string) (servings : js_value) (category : option string)
    (source_url image_url image_path : option string)
    (ingredients steps : string) (notes : option string)
    (is_scraped : Z) (unixepoch : Z) : result Store :=
  match title with
  | None => Throw SQLITE_CONSTRAINT_NOTNULL
  | Some t =>
      match SQL.integer_column servings with
      | None => Throw SQLITE_CONSTRAINT_DATATYPE
      | Some n =>
          if has_recipe db id then Throw SQLITE_CONSTRAINT_PRIMARYKEY
          else if negb (has_user db userId)
               then Throw SQLITE_CONSTRAINT_FOREIGNKEY
          else
            Ok (set_recipes db
                  (recipes db ++
                   [{| r_id := id; r_user_id := userId; r_title := t;
                       r_time := time; r_servings := Some n;
                       r_category := category; r_source_url := source_url;
                       r_image_url := image_url; r_image_path := image_path;
                       r_ingredients := ingredients; r_steps := steps;
                       r_notes := notes; r_is_scraped := Some is_scraped;
                       r_created_at := unixepoch;
                       r_updated_at := unixepoch |}]))
      end
  end.

(** The SET clause of the UPDATE, on one row. *)
Definition set_columns (t : string) (time : option string) (servings : Z)
    (category source_url image_url image_path : option string)
    (ingredients steps : string) (notes : option string) (unixepoch : Z)
    (r : recipe_row) : recipe_row :=
  {| r_id := r_id r; r_user_id := r_user_id r; r_title := t;
     r_time := time; r_servings := Some servings;
     r_category := category; r_source_url := source_url;
     r_image_url := image_url; r_image_path := image_path;
     r_ingredients := ingredients; r_steps := steps;
     r_notes := notes; r_is_scraped := r_is_scraped r;
     r_created_at := r_created_at r;
     r_updated_at := unixepoch |}.

(** [UPDATE recipes SET ... WHERE id = ? AND user_id = ?]: the number
    of rows changed and the new database. The NOT NULL constraint on
    [title] and the type of [servings] are only checked when a row is
    written. *)
Definition UPDATE_recipes (db : Store)
    (title : option string) (time : option string) (servings : js_value)
    (category source_url image_url image_path : option string)
    (ingredients steps : string) (notes : option string)
    (id : string) (userId : Z) (unixepoch : Z) : result (Z * Store) :=
  let n := changes (owned_by id userId) (recipes db) in
  if n =? 0 then Ok (0, db)
  else
    match title with
    | None => Throw SQLITE_CONSTRAINT_NOTNULL
    | Some t =>
        match SQL.integer_column servings with
        | None => Throw SQLITE_CONSTRAINT_DATATYPE
        | Some s =>
            Ok (n, set_recipes db
                     (map (fun r =>
                             if owned_by id userId r
                             then set_columns t time s category source_url
                                    image_url image_path ingredients steps
                                    notes unixepoch r
                             else r)
                          (recipes db)))
        end
    end.

(** [DELETE FROM recipes WHERE id = ? AND user_id = ?], with the
    cascade into [favorites]. *)
Definition DELETE_recipes (db : Store) (id : string) (userId : Z)
  : Z * Store :=
  let n := changes (owned_by id userId) (recipes db) in
  if n =? 0 then (0, db)
  else
    (n, {| users := users db;
           recipes := filter (fun r => negb (owned_by id userId r)) (recipes db);
           favorites :=
             filter (fun f => negb (f_recipe_id f =? id)%string) (favorites db);
           seq_users := seq_users db;
           seq_favorites := seq_favorites db |}).

(** [INSERT INTO favorites (user_id, recipe_id) VALUES (?, ?)]. The
    unique index is checked when the row is written, the foreign keys
    when the statement ends. *)
Definition INSERT_favorites (db : Store) (userId : Z) (recipeId : string)
    (unixepoch : Z) : result Store :=
  if existsb (is_pair userId recipeId) (favorites db)
  then Throw SQLITE_CONSTRAINT_UNIQUE
  else if negb (has_user db userId && has_recipe db recipeId)
  then Throw SQLITE_CONSTRAINT_FOREIGNKEY
  else
    Ok {| users := users db; recipes := recipes db;
          favorites := (favorites db ++
            [{| f_id := seq_favorites db + 1; f_user_id := userId;
                f_recipe_id := recipeId; f_created_at := unixepoch |}])%list;
          seq_users := seq_users db;
          seq_favorites := seq_favorites db + 1 |}.

(** [DELETE FROM favorites WHERE user_id = ? AND recipe_id = ?]. *)
Definition DELETE_favorites (db : Store) (userId : Z) (recipeId : string)
  : Z * Store :=
  (changes (is_pair userId recipeId) (favorites db),
   set_favorites db
     (filter (fun f => negb (is_pair userId recipeId f)) (favorites db))).

(** [INSERT INTO users (name, email, password_hash) VALUES (?, ?, ?)]:
    [lastInsertRowid] and the new database. *)
Definition INSERT_users (db : Store) (name email password_hash : string)
    (unixepoch : Z) : result (Z * Store) :=
  if existsb (fun u => (u_email u =? email)%string) (users db)
  then Throw SQLITE_CONSTRAINT_UNIQUE
  else
    let id := seq_users db + 1 in
    Ok (id, {| users := (users db ++
                 [{| u_id := id; u_name := name; u_email := email;
                     u_password_hash := password_hash;
                     u_created_at := unixepoch;
                     u_updated_at := unixepoch |}])%list;
               recipes := recipes db; favorites := favorites db;
               seq_users := id; seq_favorites := seq_favorites db |}).

(** [UPDATE users SET updated_at = unixepoch() WHERE id = ?]. *)
Definition UPDATE_users_activity (db : Store) (id : Z) (unixepoch : Z)
  : Store :=
  {| users := map (fun u =>
                     if u_id u =? id
                     then {| u_id := u_id u; u_name := u_name u;
                             u_email := u_email u;
                             u_password_hash := u_password_hash u;
                             u_created_at := u_created_at u;
                             u_updated_at := unixepoch |}
                     else u)
                  (users db);
     recipes := recipes db; favorites := favorites db;
     seq_users := seq_users db; seq_favorites := seq_favorites db |}.

(* ================================================================= *)
(** ** The models (src/models) *)

(** The [recipeData] object the controllers hand to the Recipe model.
    Every property may be missing. *)
Record RecipeData : Type := mk_recipe_data {
  d_title : option string;
  d_time : option string;
  d_servings : option js_value;
  d_category : option string;
  d_source_url : option string;
  d_image_url : option string;
  d_image_path : option string;
  d_ingredients : option (list string);
  d_steps : option (list string);
  d_notes : option string;
  d_is_scraped : option bool
}.

(** A recipe as the model returns it: the row, with [ingredients] and
    [steps] parsed and [is_scraped] turned into a boolean. *)
Record recipe : Type := mk_recipe {
  o_id : string;
  o_user_id : Z;
  o_title : string;
  o_time : option string;
  o_servings : option Z;
  o_category : option string;
  o_source_url : option string;
  o_image_url : option string;
  o_image_path : option string;
  o_ingredients : list string;
  o_steps : list string;
  o_notes : option string;
  o_is_scraped : bool;
  o_created_at : Z;
  o_updated_at : Z
}.

Definition JSON_parse (s : string) : result (list string) :=
  match JSON.parse s with
  | Some l => Ok l
  | None => Throw SyntaxError
  end.

(** [{ ...r, ingredients: JSON.parse(r.ingredients),
       steps: JSON.parse(r.steps), is_scraped: Boolean(r.is_scraped) }] *)
Definition hydrate (r : recipe_row) : result recipe :=
  let! ingredients := JSON_parse (r_ingredients r) in
  let! steps := JSON_parse (r_steps r) in
  Ok {| o_id := r_id r; o_user_id := r_user_id r; o_title := r_title r;
        o_time := r_time r; o_servings := r_servings r;
        o_category := r_category r; o_source_url := r_source_url r;
        o_image_url := r_image_url r; o_image_path := r_image_path r;
        o_ingredients := ingredients; o_steps := steps;
        o_notes := r_notes r; o_is_scraped := JS.Boolean (r_is_scraped r);
        o_created_at := r_created_at r; o_updated_at := r_updated_at r |}.

Module Recipe.

(** [uuid] is the value [randomUUID()] returns, [unixepoch] the clock
    of the column defaults. *)
Definition create (db : Store) (uuid : string) (unixepoch : Z)
    (userId : Z) (recipeData : RecipeData) : result (string * Store) :=
  let id := uuid in
  let! db' :=
    INSERT_recipes db
      id
      userId
      (d_title recipeData)
      (JS.or_null (d_time recipeData))
      (JS.or_value (d_servings recipeData) (JNumber 2))
      (JS.or_null (d_category recipeData))
      (JS.or_null (d_source_url recipeData))
      (JS.or_null (d_image_url recipeData))
      (JS.or_null (d_image_path recipeData))
      (JSON.stringify (JS.or_array (d_ingredients recipeData)))
      (JSON.stringify (JS.or_array (d_steps recipeData)))
      (JS.or_null (d_notes recipeData))
      (JS.to_flag (d_is_scraped recipeData))
      unixepoch in
  Ok (id, db').

Definition findByUserId (db : Store) (userId : Z) : result (list recipe) :=
  let recipes :=
    SQL.order_by_desc r_created_at
      (filter (fun r => r_user_id r =? userId) (recipes db)) in
  mapM hydrate recipes.

Definition findById (db : Store) (id : string) (userId : Z)
  : result (option recipe) :=
  match find (owned_by id userId) (recipes db) with
  | None => Ok None
  | Some row => let! r := hydrate row in Ok (Some r)
  end.

Definition update (db : Store) (unixepoch : Z) (id : string) (userId : Z)
    (recipeData : RecipeData) : result (bool * Store) :=
  let! (n, db') :=
    UPDATE_recipes db
      (d_title recipeData)
      (JS.or_null (d_time recipeData))
      (JS.or_value (d_servings recipeData) (JNumber 2))
      (JS.or_null (d_category recipeData))
      (JS.or_null (d_source_url recipeData))
      (JS.or_null (d_image_url recipeData))
      (JS.or_null (d_image_path recipeData))
      (JSON.stringify (JS.or_array (d_ingredients recipeData)))
      (JSON.stringify (JS.or_array (d_steps recipeData)))
      (JS.or_null (d_notes recipeData))
      id
      userId
      unixepoch in
  Ok (0 <? n, db').

Definition delete (db : Store) (id : string) (userId : Z)
  : result (bool * Store) :=
  let (n, db') := DELETE_recipes db id userId in
  Ok (0 <? n, db').

(** [LIKE] is evaluated on the rows of the account, and throws on the
    first one when the pattern is too long. *)
Definition search (db : Store) (userId : Z) (query : string)
  : result (list recipe) :=
  let pattern := (String "%" query ++ String "%" EmptyString)%string in
  if SQL.too_complex pattern
     && existsb (fun r => r_user_id r =? userId) (recipes db)
  then Throw SQLITE_ERROR
  else
    let recipes :=
      SQL.order_by_desc r_created_at
        (filter (fun r => (r_user_id r =? userId)
                          && SQL.like pattern (r_title r))
                (recipes db)) in
    mapM hydrate recipes.

Definition findByCategory (db : Store) (userId : Z) (category : string)
  : result (list recipe) :=
  let recipes :=
    SQL.order_by_desc r_created_at
      (filter (fun r => (r_user_id r =? userId)
                        && match r_category r with
                           | Some c => (c =? category)%string
                           | None => false
                           end)
              (recipes db)) in
  mapM hydrate recipes.

End Recipe.

Module Favorite.

(** The [try]/[catch] of [add]: only the unique-constraint code is
    turned into [false]; any other error is thrown again. *)
Definition catch_unique (db : Store) (r : result Store)
  : result (bool * Store) :=
  match r with
  | Ok db' => Ok (true, db')
  | Throw SQLITE_CONSTRAINT_UNIQUE => Ok (false, db)
  | Throw error => Throw error
  end.

Definition add (db : Store) (unixepoch : Z) (userId : Z)
    (recipeId : string) : result (bool * Store) :=
  catch_unique db (INSERT_favorites db userId recipeId unixepoch).

Definition remove (db : Store) (userId : Z) (recipeId : string)
  : result (bool * Store) :=
  let (n, db') := DELETE_favorites db userId recipeId in
  Ok (0 <? n, db').

Definition isFavorited (db : Store) (userId : Z) (recipeId : string)
  : bool :=
  match find (is_pair userId recipeId) (favorites db) with
  | Some _ => true
  | None => false
  end.

Definition getFavoriteIds (db : Store) (userId : Z) : list string :=
  let rows :=
    SQL.order_by_desc f_created_at
      (filter (fun f => f_user_id f =? userId) (favorites db)) in
  map f_recipe_id rows.

Definition getFavoriteRecipes (db : Store) (userId : Z)
  : result (list recipe) :=
  let joined :=
    flat_map (fun f =>
                filter (fun r => (r_id r =? f_recipe_id f)%string)
                       (recipes db))
             (SQL.order_by_desc f_created_at
                (filter (fun f => f_user_id f =? userId) (favorites db))) in
  mapM hydrate joined.

End Favorite.

(** bcrypt is a library: what its two entry points compute on a
    string is a parameter of the User model ([salt] is the random salt
    [hashSync] draws). Both throw when the data they are given is not
    a string. *)
Module User.
Section Bcrypt.
Variable hashSync : string -> string -> string.
Variable compareSync : string -> string -> bool.

Definition hashSync_of (data : js_value) (salt : string)
  : result string :=
  match data with
  | JString s => Ok (hashSync s salt)
  | _ => Throw Error
  end.

Definition compareSync_of (data : js_value) (hash : string)
  : result bool :=
  match data with
  | JString s => Ok (compareSync s hash)
  | _ => Throw Error
  end.

Definition create (db : Store) (salt : string) (unixepoch : Z)
    (name email : string) (password : js_value) : result (Z * Store) :=
  let! passwordHash := hashSync_of password salt in
  INSERT_users db name email passwordHash unixepoch.

Definition verifyPassword (user : user_row) (password : js_value)
  : result bool :=
  compareSync_of password (u_password_hash user).
End Bcrypt.

Definition findByEmail (db : Store) (email : string) : option user_row :=
  find (fun u => (u_email u =? email)%string) (users db).

Definition findById (db : Store) (id : Z) : option user_row :=
  find (fun u => u_id u =? id) (users db).

Definition updateActivity (db : Store) (unixepoch : Z) (id : Z) : Store :=
  UPDATE_users_activity db id unixepoch.

End User.

(* ================================================================= *)
(** ** HTTP: requests, responses, sessions *)

Inductive verb : Type := GET | POST | PUT | DELETE.

(** [req.body]: the JSON properties the controllers read. No
    validation chain fixes the type of [password], and none of
    [updateRecipe] looks at [servings]. *)
Record body : Type := mk_body {
  b_name : option string;
  b_email : option string;
  b_password : option js_value;
  b_recipeId : option string;
  b_title : option string;
  b_time : option string;
  b_servings : option js_value;
  b_category : option string;
  b_source_url : option string;
  b_image_url : option string;
  b_image_path : option string;
  b_ingredients : option (list string);
  b_steps : option (list string);
  b_notes : option string;
  b_is_scraped : option bool
}.

(** A request as a router sees it: [path] is the list of segments
    below the router's mount point, [query_q] is [req.query.q], and
    [req_body] the object that [express.json()] has put in
    [req.body] (a request is taken to carry one, be it the empty
    object). *)
Record request : Type := mk_request {
  method : verb;
  path : list string;
  query_q : option string;
  req_body : body
}.

(** [req.session]. *)
Record session_data : Type := mk_session {
  userId : option Z;
  email : option string;
  name : option string
}.

Definition no_session : session_data :=
  {| userId := None; email := None; name := None |}.

(** The JSON objects the controllers send. *)
Inductive payload : Type :=
| JError (error : string) (message : option string)
| JValidation (errors : list string)
| JRecipes (recipes : list recipe)
| JRecipe (r : recipe)
| JCreated (message : string) (recipeId : string)
| JMessage (message : string)
| JFavorited (favorited : bool) (message : string)
| JFavoriteIds (favoriteIds : list string)
| JUser (message : option string) (id : Z) (name email : string).

Record response : Type := mk_response {
  status : Z;
  json : payload
}.

(** What a request draws from its environment: the clock, and the
    outcomes of [randomUUID()] and of bcrypt's salt generation. *)
Record env : Type := mk_env {
  unixepoch : Z;
  randomUUID : string;
  genSalt : string
}.

(** The static methods of the models, as the log of a request names
    them. *)
Inductive model_op : Type :=
| Recipe_create | Recipe_findByUserId | Recipe_findById | Recipe_update
| Recipe_delete | Recipe_search
| Favorite_add | Favorite_remove | Favorite_isFavorited
| Favorite_getFavoriteIds | Favorite_getFavoriteRecipes
| User_create | User_findByEmail | User_findById | User_verifyPassword
| User_updateActivity.

(** The server between two requests of one client: the database, the
    client's session, and the log of the model operations invoked so
    far. *)
Record world : Type := mk_world {
  db : Store;
  session : session_data;
  calls : list model_op
}.

(** A computation of a controller: it may throw, and it always leaves
    a world behind. *)
Definition C (A : Type) : Type := world -> result A * world.

Definition ret {A} (a : A) : C A := fun w => (Ok a, w).

Definition bindC {A B} (c : C A) (k : A -> C B) : C B :=
  fun w =>
    match c w with
    | (Ok a, w') => k a w'
    | (Throw e, w') => (Throw e, w')
    end.

Notation "x <- c ;; k" := (bindC c (fun x => k))
  (at level 61, c at next level, right associativity).

(** A model method that may write the database. *)
Definition call {A} (op : model_op) (f : Store -> result (A * Store)) : C A :=
  fun w =>
    let log := (calls w ++ [op])%list in
    match f (db w) with
    | Ok (a, db') => (Ok a, {| db := db'; session := session w; calls := log |})
    | Throw e => (Throw e, {| db := db w; session := session w; calls := log |})
    end.

(** A model method that only reads it. *)
Definition read {A} (op : model_op) (f : Store -> result A) : C A :=
  call op (fun db => let! a := f db in Ok (a, db)).

Definition set_session (s : session_data) : C unit :=
  fun w => (Ok tt, {| db := db w; session := s; calls := calls w |}).

(** What Express runs for a request: it ends in a response. *)
Definition handler : Type := world -> response * world.

Definition send (st : Z) (j : payload) : handler :=
  fun w => ({| status := st; json := j |}, w).

(** [try { c } catch (error) { res.status(500).json(...) }] *)
Definition try_catch (c : C response) (on_error : response) : handler :=
  fun w =>
    match c w with
    | (Ok r, w') => (r, w')
    | (Throw _, w') => (on_error, w')
    end.

Definition res (st : Z) (j : payload) : C response :=
  ret {| status := st; json := j |}.

Definition error500 (error message : string) : response :=
  {| status := 500; json := JError error (Some message) |}.

(* ================================================================= *)
(** ** The authentication middleware (src/middleware/auth.js) *)

Definition authentication_required : response :=
  {| status := 401;
     json := JError "Authentication required"
               (Some "You must be logged in to access this resource") |}.

(** [requireAuth(req, res, next)]. [next] is the rest of the router's
    stack; it receives the [req.session.userId] the check has just
    found truthy. *)
Definition requireAuth (next : Z -> handler) : handler :=
  fun w =>
    if JS.falsy_number (userId (session w))
    then (authentication_required, w)
    else
      match userId (session w) with
      | Some uid => next uid w
      | None => (authentication_required, w)
      end.

(** [optionalAuth(req, res, next)]: it only calls [next]. *)
Definition optionalAuth (next : handler) : handler := next.

(** Express matches the segments of a path against those of a route
    without regard to case (the [case sensitive routing] setting is
    off). *)
Definition is_route (seg route : string) : bool :=
  (JS.canonicalize seg =? JS.canonicalize route)%string.

(** The 404 handler of the application, where a request ends up that
    no route of a router matched. *)
Definition not_found : handler :=
  send 404 (JError "Not found" (Some "The requested resource was not found")).

(* ================================================================= *)
(** ** The controllers (src/controllers) *)

(** express-validator and bcrypt are libraries. What a validation
    chain makes of a request body is a parameter: either the list of
    its error messages or the sanitised fields the controller reads. *)
Inductive validation (A : Type) : Type :=
| Invalid (errors : list string)
| Valid (a : A).
Arguments Invalid {A} errors.
Arguments Valid {A} a.

Class Platform : Type := {
  bcrypt_hashSync : string -> string -> string;
  bcrypt_compareSync : string -> string -> bool;
  registerChain : body -> validation (string * string * js_value);
  loginChain : body -> validation (string * js_value);
  createRecipeChain : body -> validation body;
  updateRecipeChain : body -> validation body
}.

Definition validation_failed (errors : list string) : handler :=
  send 400 (JValidation errors).

Section Controllers.
Context `{Platform}.

(** *** recipeController.js

    This is the controller the router imports. The repository holds a
    second copy of it that applies the [||] defaults itself before it
    calls the model, which applies them in any case; the two differ
    in their validation chains, which are parameters here. *)

Definition getAllRecipes (userId : Z) : handler :=
  try_catch
    (recipes <- read Recipe_findByUserId
                  (fun db => Recipe.findByUserId db userId) ;;
     res 200 (JRecipes recipes))
    (error500 "Failed to fetch recipes"
              "An error occurred while fetching recipes").

Definition getRecipeById (id : string) (userId : Z) : handler :=
  try_catch
    (recipe <- read Recipe_findById
                 (fun db => Recipe.findById db id userId) ;;
     match recipe with
     | None =>
         res 404 (JError "Recipe not found"
           (Some "Recipe does not exist or you don't have permission to view it"))
     | Some r => res 200 (JRecipe r)
     end)
    (error500 "Failed to fetch recipe"
              "An error occurred while fetching the recipe").

Definition createRecipe (e : env) (req : request) (userId : Z) : handler :=
  match createRecipeChain (req_body req) with
  | Invalid errors => validation_failed errors
  | Valid b =>
      try_catch
        (let recipeData :=
           {| d_title := b_title b;
              d_time := b_time b;
              d_servings := b_servings b;
              d_category := b_category b;
              d_source_url := b_source_url b;
              d_image_url := b_image_url b;
              d_image_path := b_image_path b;
              d_ingredients := b_ingredients b;
              d_steps := b_steps b;
              d_notes := b_notes b;
              d_is_scraped :=
                Some match b_is_scraped b with
                     | Some v => v
                     | None => false
                     end |} in
         recipeId <- call Recipe_create
                       (fun db => Recipe.create db (randomUUID e)
                                    (unixepoch e) userId recipeData) ;;
         res 201 (JCreated "Recipe created successfully" recipeId))
        (error500 "Failed to create recipe"
                  "An error occurred while creating the recipe")
  end.

Definition updateRecipe (e : env) (id : string) (req : request)
    (userId : Z) : handler :=
  match updateRecipeChain (req_body req) with
  | Invalid errors => validation_failed errors
  | Valid b =>
      try_catch
        (let recipeData :=
           {| d_title := b_title b;
              d_time := b_time b;
              d_servings := b_servings b;
              d_category := b_category b;
              d_source_url := b_source_url b;
              d_image_url := b_image_url b;
              d_image_path := b_image_path b;
              d_ingredients := b_ingredients b;
              d_steps := b_steps b;
              d_notes := b_notes b;
              d_is_scraped := None |} in
         updated <- call Recipe_update
                      (fun db => Recipe.update db (unixepoch e) id userId
                                   recipeData) ;;
         if negb updated then
           res 404 (JError "Recipe not found"
             (Some "Recipe does not exist or you don't have permission to update it"))
         else res 200 (JMessage "Recipe updated successfully"))
        (error500 "Failed to update recipe"
                  "An error occurred while updating the recipe")
  end.

Definition deleteRecipe (id : string) (userId : Z) : handler :=
  try_catch
    (deleted <- call Recipe_delete
                  (fun db => Recipe.delete db id userId) ;;
     if negb deleted then
       res 404 (JError "Recipe not found"
         (Some "Recipe does not exist or you don't have permission to delete it"))
     else res 200 (JMessage "Recipe deleted successfully"))
    (error500 "Failed to delete recipe"
              "An error occurred while deleting the recipe").

Definition searchRecipes (req : request) (userId : Z) : handler :=
  try_catch
    (let query := match JS.or_null (query_q req) with
                  | Some q => q
                  | None => EmptyString
                  end in
     recipes <- read Recipe_search
                  (fun db => Recipe.search db userId query) ;;
     res 200 (JRecipes recipes))
    (error500 "Failed to search recipes"
              "An error occurred while searching recipes").

(** *** favoriteController.js *)

Definition toggleFavorite (e : env) (req : request) (userId : Z) : handler :=
  try_catch
    (match b_recipeId (req_body req) with
     | None => res 400 (JError "Recipe ID is required" None)
     | Some recipeId =>
         if JS.is_empty recipeId
         then res 400 (JError "Recipe ID is required" None)
         else
           isFavorited <- read Favorite_isFavorited
                            (fun db => Ok (Favorite.isFavorited db userId
                                             recipeId)) ;;
           if (isFavorited : bool) then
             _ <- call Favorite_remove
                    (fun db => Favorite.remove db userId recipeId) ;;
             res 200 (JFavorited false "Recipe removed from favorites")
           else
             _ <- call Favorite_add
                    (fun db => Favorite.add db (unixepoch e) userId
                                 recipeId) ;;
             res 200 (JFavorited true "Recipe added to favorites")
     end)
    (error500 "Failed to toggle favorite"
              "An error occurred while updating favorites").

Definition getFavorites (userId : Z) : handler :=
  try_catch
    (favoriteIds <- read Favorite_getFavoriteIds
                      (fun db => Ok (Favorite.getFavoriteIds db userId)) ;;
     res 200 (JFavoriteIds favoriteIds))
    (error500 "Failed to fetch favorites"
              "An error occurred while fetching favorites").

Definition getFavoriteRecipes (userId : Z) : handler :=
  try_catch
    (recipes <- read Favorite_getFavoriteRecipes
                  (fun db => Favorite.getFavoriteRecipes db userId) ;;
     res 200 (JRecipes recipes))
    (error500 "Failed to fetch favorite recipes"
              "An error occurred while fetching favorite recipes").

(** *** authController.js *)

Definition invalid_credentials : response :=
  {| status := 401;
     json := JError "Invalid credentials"
               (Some "Incorrect email or password") |}.

Definition register (e : env) (req : request) : handler :=
  match registerChain (req_body req) with
  | Invalid errors => validation_failed errors
  | Valid (name, email, password) =>
      try_catch
        (existingUser <- read User_findByEmail
                           (fun db => Ok (User.findByEmail db email)) ;;
         match existingUser with
         | Some _ =>
             res 400 (JError "Email already exists"
                        (Some "An account with this email already exists"))
         | None =>
             userId <- call User_create
                         (fun db => User.create bcrypt_hashSync db
                                      (genSalt e) (unixepoch e)
                                      name email password) ;;
             _ <- set_session {| userId := Some userId;
                                 email := Some email;
                                 name := Some name |} ;;
             res 200 (JUser (Some "Account created successfully")
                            userId name email)
         end)
        (error500 "Registration failed"
                  "An error occurred during registration")
  end.

Definition login (e : env) (req : request) : handler :=
  match loginChain (req_body req) with
  | Invalid errors => validation_failed errors
  | Valid (email, password) =>
      try_catch
        (user <- read User_findByEmail
                   (fun db => Ok (User.findByEmail db email)) ;;
         match user with
         | None => ret invalid_credentials
         | Some u =>
             matches <- read User_verifyPassword
                          (fun _ => User.verifyPassword
                                      bcrypt_compareSync u password) ;;
             if negb matches then ret invalid_credentials
             else
               _ <- call User_updateActivity
                      (fun db => Ok (tt, User.updateActivity db
                                           (unixepoch e) (u_id u))) ;;
               _ <- set_session {| userId := Some (u_id u);
                                   email := Some (u_email u);
                                   name := Some (u_name u) |} ;;
               res 200 (JUser (Some "Login successful")
                              (u_id u) (u_name u) (u_email u))
         end)
        (error500 "Login failed" "An error occurred during login")
  end.

(** [req.session.destroy] on the default in-memory store does not
    fail. *)
Definition logout : handler :=
  fun w =>
    ({| status := 200; json := JMessage "Logout successful" |},
     {| db := db w; session := no_session; calls := calls w |}).

Definition getCurrentUser : handler :=
  fun w =>
    if JS.falsy_number (userId (session w)) then
      send 401 (JError "Not authenticated" (Some "No active session")) w
    else
      match userId (session w) with
      | None =>
          send 401 (JError "Not authenticated" (Some "No active session")) w
      | Some uid =>
          try_catch
            (user <- read User_findById
                       (fun db => Ok (User.findById db uid)) ;;
             match user with
             | None =>
                 res 404 (JError "User not found"
                            (Some "Session user no longer exists"))
             | Some u =>
                 res 200 (JUser None (u_id u) (u_name u) (u_email u))
             end)
            (error500 "Internal server error"
                      "An unexpected error occurred") w
      end.

(* =============================================================== *)
(** ** The routers (routes/recipes.js, routes/favorites.js,
       routes/auth.js) and their mount points *)

(** [router.use(requireAuth)], then the six routes in their order. *)
Definition recipeRoutes (e : env) (req : request) : handler :=
  requireAuth (fun userId =>
    match method req, path req with
    | GET, [] => getAllRecipes userId
    | GET, [seg] =>
        if is_route seg "search" then searchRecipes req userId
        else getRecipeById seg userId
    | POST, [] => createRecipe e req userId
    | PUT, [id] => updateRecipe e id req userId
    | DELETE, [id] => deleteRecipe id userId
    | _, _ => not_found
    end).

(** [router.use(requireAuth)], then the three routes. *)
Definition favoriteRoutes (e : env) (req : request) : handler :=
  requireAuth (fun userId =>
    match method req, path req with
    | POST, [seg] =>
        if is_route seg "toggle" then toggleFavorite e req userId
        else not_found
    | GET, [] => getFavorites userId
    | GET, [seg] =>
        if is_route seg "recipes" then getFavoriteRecipes userId
        else not_found
    | _, _ => not_found
    end).

Definition authRoutes (e : env) (req : request) : handler :=
  match method req, path req with
  | POST, [seg] =>
      if is_route seg "register" then register e req
      else if is_route seg "login" then login e req
      else if is_route seg "logout" then logout
      else not_found
  | GET, [seg] =>
      if is_route seg "me" then requireAuth (fun _ => getCurrentUser)
      else not_found
  | _, _ => not_found
  end.

Definition below (req : request) (rest : list string) : request :=
  {| method := method req; path := rest; query_q := query_q req;
     req_body := req_body req |}.

(** The API of the application: [app.use("/api/auth", authRoutes)],
    [app.use("/api/recipes", recipeRoutes)],
    [app.use("/api/favorites", favoriteRoutes)] and the 404 handler.
    The pages rendered from templates are not part of the model. *)
Definition api (e : env) (req : request) : handler :=
  match path req with
  | a :: m :: rest =>
      if is_route a "api" then
        if is_route m "auth" then authRoutes e (below req rest)
        else if is_route m "recipes" then recipeRoutes e (below req rest)
        else if is_route m "favorites"
             then favoriteRoutes e (below req rest)
        else not_found
      else not_found
  | _ => not_found
  end.

End Controllers.

(* ================================================================= *)
(** ** The vocabulary of the specification *)

(** [text] starts with [q], up to ASCII case. *)
Fixpoint prefix_nocase (q text : string) : bool :=
  match q, text with
  | EmptyString, _ => true
  | String _ _, EmptyString => false
  | String c q', String d text' =>
      (SQL.tolower c =? SQL.tolower d)%char && prefix_nocase q' text'
  end.

(** [text] contains [q] as a substring, up to ASCII case: the filter
    the client applies with [title.toLowerCase().includes(q)]. *)
Definition contains_nocase (q text : string) : bool :=
  SQL.any_suffix (prefix_nocase q) text.

(** [q] has none of the two characters [LIKE] gives a meaning to. *)
Fixpoint no_wildcard (q : string) : bool :=
  match q with
  | EmptyString => true
  | String c q' =>
      negb (c =? "%")%char && negb (c =? "_")%char && no_wildcard q'
  end.

(** Every byte of [s] is an ASCII character other than NUL, so that
    [s] has one character for each byte. *)
Fixpoint ascii_text (s : string) : bool :=
  match s with
  | EmptyString => true
  | String c s' =>
      ((0 <? N_of_ascii c) && (N_of_ascii c <? 128))%N && ascii_text s'
  end.

(** The bytes of [s], as numbers. *)
Fixpoint codes (s : string) : list N :=
  match s with
  | EmptyString => []
  | String c s' => N_of_ascii c :: codes s'
  end.

(** Newest first. *)
Definition newest_first (l : list recipe) : Prop :=
  StronglySorted (fun a b => o_created_at b <= o_created_at a) l.

Definition not_empty (v : option string) : bool :=
  match v with
  | Some s => negb (JS.is_empty s)
  | None => true
  end.

(** No optional text of the row is the empty string. *)
Definition no_empty_text (r : recipe_row) : bool :=
  not_empty (r_time r) && not_empty (r_category r)
  && not_empty (r_source_url r) && not_empty (r_image_url r)
  && not_empty (r_image_path r) && not_empty (r_notes r).


(** The constraints the schema declares. *)
Record integrity (db : Store) : Prop := mk_integrity {
  pk_recipes : NoDup (map r_id (recipes db));
  fk_recipes : forall r, In r (recipes db) -> has_user db (r_user_id r) = true;
  uq_favorites :
    NoDup (map (fun f => (f_user_id f, f_recipe_id f)) (favorites db));
  fk_favorites :
    forall f, In f (favorites db) ->
      has_user db (f_user_id f) = true /\ has_recipe db (f_recipe_id f) = true;
  uq_users : NoDup (map u_email (users db));
  seq_users_nonneg : 0 <= seq_users db;
  pk_users : forall u, In u (users db) -> 0 < u_id u <= seq_users db;
  pk_users_nodup : NoDup (map u_id (users db))
}.

(** What the Recipe model guarantees of the rows it writes. *)
Record written_by_model (db : Store) : Prop := mk_written {
  rows_json :
    forall r, In r (recipes db) ->
      exists i s, r_ingredients r = JSON.stringify i
                  /\ r_steps r = JSON.stringify s;
  rows_defaulted :
    forall r, In r (recipes db) ->
      no_empty_text r = true /\ r_servings r <> None
}.

(** One successful call of a model method that writes. [User.create]
    is taken with whatever hash bcrypt returns. *)
Inductive step (db : Store) : Store -> Prop :=
| step_User_create name email hash now id db' :
    INSERT_users db name email hash now = Ok (id, db') -> step db db'
| step_User_updateActivity now id :
    step db (User.updateActivity db now id)
| step_Recipe_create uuid now userId d id db' :
    Recipe.create db uuid now userId d = Ok (id, db') -> step db db'
| step_Recipe_update now id userId d b db' :
    Recipe.update db now id userId d = Ok (b, db') -> step db db'
| step_Recipe_delete id userId b db' :
    Recipe.delete db id userId = Ok (b, db') -> step db db'
| step_Favorite_add now userId recipeId b db' :
    Favorite.add db now userId recipeId = Ok (b, db') -> step db db'
| step_Favorite_remove userId recipeId b db' :
    Favorite.remove db userId recipeId = Ok (b, db') -> step db db'.

(** The databases the application can build from the empty one. *)
Inductive reachable : Store -> Prop :=
| reachable_empty : reachable empty_store
| reachable_step db db' : reachable db -> step db db' -> reachable db'.

(** A value that is not a string. *)
Definition not_a_string (v : js_value) : Prop :=
  match v with
  | JString _ => False
  | _ => True
  end.

(** [servings] is absent or a number. *)
Definition number_or_absent (v : option js_value) : Prop :=
  match v with
  | Some (JString _) => False
  | _ => True
  end.

(** One successful call of a model method that writes, where the
    servings handed to the Recipe model is a number when there is
    one. *)
Inductive step_with_numbers (db : Store) : Store -> Prop :=
| numbers_User_create name email hash now id db' :
    INSERT_users db name email hash now = Ok (id, db') ->
    step_with_numbers db db'
| numbers_User_updateActivity now id :
    step_with_numbers db (User.updateActivity db now id)
| numbers_Recipe_create uuid now userId d id db' :
    number_or_absent (d_servings d) ->
    Recipe.create db uuid now userId d = Ok (id, db') ->
    step_with_numbers db db'
| numbers_Recipe_update now id userId d b db' :
    number_or_absent (d_servings d) ->
    Recipe.update db now id userId d = Ok (b, db') ->
    step_with_numbers db db'
| numbers_Recipe_delete id userId b db' :
    Recipe.delete db id userId = Ok (b, db') -> step_with_numbers db db'
| numbers_Favorite_add now userId recipeId b db' :
    Favorite.add db now userId recipeId = Ok (b, db') ->
    step_with_numbers db db'
| numbers_Favorite_remove userId recipeId b db' :
    Favorite.remove db userId recipeId = Ok (b, db') ->
    step_with_numbers db db'.

(** The databases the application builds as long as every servings it
    is given is a number. *)
Inductive reachable_with_numbers : Store -> Prop :=
| numbers_empty : reachable_with_numbers empty_store
| numbers_step db db' :
    reachable_with_numbers db -> step_with_numbers db db' ->
    reachable_with_numbers db'.

(** The falsy values of a servings: none, the number 0 and the empty
    text. The falsy values of an optional text: none and the empty
    text. *)
Definition falsy_servings (v : option js_value) : Prop :=
  v = None \/ v = Some (JNumber 0) \/ v = Some (JString EmptyString).











(* ================================================================= *)
(** ** A small database to evaluate the code on *)

Definition ann : user_row :=
  {| u_id := 1; u_name := "Ann"; u_email := "ann@x.com";
     u_password_hash := "$2b$10$ann"; u_created_at := 100;
     u_updated_at := 100 |}.

Definition bob : user_row :=
  {| u_id := 2; u_name := "Bob"; u_email := "bob@x.com";
     u_password_hash := "$2b$10$bob"; u_created_at := 101;
     u_updated_at := 101 |}.

Definition soup_data : RecipeData :=
  {| d_title := Some "Soup"; d_time := None; d_servings := None;
     d_category := None; d_source_url := None; d_image_url := None;
     d_image_path := None; d_ingredients := Some ["water"; "salt"];
     d_steps := Some ["boil"]; d_notes := None; d_is_scraped := None |}.

Definition soup_row : recipe_row :=
  {| r_id := "r-soup"; r_user_id := 1; r_title := "Soup";
     r_time := None; r_servings := Some 2; r_category := None;
     r_source_url := None; r_image_url := None; r_image_path := None;
     r_ingredients := JSON.stringify ["water"; "salt"];
     r_steps := JSON.stringify ["boil"];
     r_notes := None; r_is_scraped := Some 0;
     r_created_at := 110; r_updated_at := 110 |}.

Definition soup : recipe :=
  {| o_id := "r-soup"; o_user_id := 1; o_title := "Soup";
     o_time := None; o_servings := Some 2; o_category := None;
     o_source_url := None; o_image_url := None; o_image_path := None;
     o_ingredients := ["water"; "salt"]; o_steps := ["boil"];
     o_notes := None; o_is_scraped := false;
     o_created_at := 110; o_updated_at := 110 |}.

(** Ann and Bob have registered; Ann has created one recipe. *)
Definition kitchen : Store :=
  {| users := [ann; bob]; recipes := [soup_row]; favorites := [];
     seq_users := 2; seq_favorites := 0 |}.

(** A request body with every property missing. *)
Definition empty_body : body :=
  {| b_name := None; b_email := None; b_password := None;
     b_recipeId := None; b_title := None; b_time := None;
     b_servings := None; b_category := None; b_source_url := None;
     b_image_url := None; b_image_path := None; b_ingredients := None;
     b_steps := None; b_notes := None; b_is_scraped := None |}.

(** An update that supplies falsy values: servings 0 and empty texts. *)
Definition falsy_data : RecipeData :=
  {| d_title := Some "Broth"; d_time := Some EmptyString;
     d_servings := Some (JNumber 0); d_category := Some EmptyString;
     d_source_url := None; d_image_url := None; d_image_path := None;
     d_ingredients := Some ["water"]; d_steps := None;
     d_notes := Some EmptyString; d_is_scraped := None |}.

(** The same database before Ann's recipe. *)
Definition registered : Store :=
  {| users := [ann; bob]; recipes := []; favorites := [];
     seq_users := 2; seq_favorites := 0 |}.

(** Ann's row after [update] with [falsy_data] at time 200. *)
Definition broth_row : recipe_row :=
  {| r_id := "r-soup"; r_user_id := 1; r_title := "Broth";
     r_time := None; r_servings := Some 2; r_category := None;
     r_source_url := None; r_image_url := None; r_image_path := None;
     r_ingredients := JSON.stringify ["water"];
     r_steps := JSON.stringify [];
     r_notes := None; r_is_scraped := Some 0;
     r_created_at := 110; r_updated_at := 200 |}.

Definition broth_kitchen : Store := set_recipes kitchen [broth_row].

(** The row Bob's [create] with [falsy_data] inserts at time 130, and
    the database with both recipes. *)
Definition bobs_row : recipe_row :=
  {| r_id := "r-broth"; r_user_id := 2; r_title := "Broth";
     r_time := None; r_servings := Some 2; r_category := None;
     r_source_url := None; r_image_url := None; r_image_path := None;
     r_ingredients := JSON.stringify ["water"];
     r_steps := JSON.stringify [];
     r_notes := None; r_is_scraped := Some 0;
     r_created_at := 130; r_updated_at := 130 |}.

Definition two_recipes : Store := set_recipes kitchen [soup_row; bobs_row].

(** Bob has put Ann's recipe among his favorites. *)
Definition kitchen_with_favorite : Store :=
  set_favorites kitchen
    [{| f_id := 1; f_user_id := 2; f_recipe_id := "r-soup";
        f_created_at := 120 |}].

(** [isInt({ min: 1, max: 100 })] on a text: digits without a leading
    zero, after an optional sign, that read as a number from 1 to
    100. *)
Fixpoint digits_value (acc : Z) (s : string) : option Z :=
  match s with
  | EmptyString => Some acc
  | String c rest =>
      match SQL.digit c with
      | Some d => digits_value (acc * 10 + d) rest
      | None => None
      end
  end.

Definition is_servings_text (s : string) : bool :=
  let unsigned :=
    match s with
    | String "+" rest => rest
    | _ => s
    end in
  match unsigned with
  | EmptyString => false
  | String "0" _ => false
  | String _ _ =>
      match digits_value 0 unsigned with
      | Some n => (1 <=? n) && (n <=? 100)
      | None => false
      end
  end.

Definition is_servings (v : option js_value) : bool :=
  match v with
  | None => true
  | Some (JNumber n) => (1 <=? n) && (n <=? 100)
  | Some JNonInteger => false
  | Some (JString s) => is_servings_text s
  end.

(** Stand-ins for bcrypt and for the validation chains, to evaluate
    the controllers on: a hash is the salt followed by the password.
    The chains of [createRecipe] and [updateRecipe] ask for a title
    that is not empty and for the two arrays; the one of
    [createRecipe] also wants a servings, when there is one, from 1
    to 100, and the one of [updateRecipe] does not look at it. As
    [notEmpty()] does, the chain of [login] lets every password
    through but the empty string. *)
Definition sample_platform : Platform :=
  {| bcrypt_hashSync := fun password salt => (salt ++ password)%string;
     bcrypt_compareSync := fun password hash =>
       (hash =? "$2b$10$" ++ password)%string;
     registerChain := fun b =>
       match b_name b, b_email b, b_password b with
       | Some n, Some e, Some p => Valid (n, e, p)
       | _, _, _ => Invalid ["Name is required"]
       end;
     loginChain := fun b =>
       match b_email b, b_password b with
       | Some e, Some (JString EmptyString) =>
           Invalid ["Password is required"]
       | Some e, Some p => Valid (e, p)
       | _, _ => Invalid ["Valid email is required"]
       end;
     createRecipeChain := fun b =>
       match b_title b, b_ingredients b, b_steps b with
       | Some (String _ _), Some _, Some _ =>
           if is_servings (b_servings b) then Valid b
           else Invalid ["Servings must be between 1 and 100"]
       | Some (String _ _), None, _ =>
           Invalid ["Ingredients must be an array"]
       | Some (String _ _), Some _, None =>
           Invalid ["Steps must be an array"]
       | _, _, _ => Invalid ["Title is required"]
       end;
     updateRecipeChain := fun b =>
       match b_title b, b_ingredients b, b_steps b with
       | Some (String _ _), Some _, Some _ => Valid b
       | Some (String _ _), None, _ =>
           Invalid ["Ingredients must be an array"]
       | Some (String _ _), Some _, None =>
           Invalid ["Steps must be an array"]
       | _, _, _ => Invalid ["Title is required"]
       end |}.

Definition sample_env : env :=
  {| unixepoch := 120; randomUUID := "r-new"; genSalt := "$2b$10$" |}.

(** A visitor who has not logged in, and Bob logged in. *)
Definition visitor : world :=
  {| db := kitchen; session := no_session; calls := [] |}.

Definition bob_logged_in : world :=
  {| db := kitchen;
     session := {| userId := Some 2; email := Some "bob@x.com";
                   name := Some "Bob" |};
     calls := [] |}.

Definition credentials_of (e : string) (p : js_value) : request :=
  {| method := POST; path := ["login"]; query_q := None;
     req_body :=
       {| b_name := None; b_email := Some e; b_password := Some p;
          b_recipeId := None; b_title := None; b_time := None;
          b_servings := None; b_category := None; b_source_url := None;
          b_image_url := None; b_image_path := None;
          b_ingredients := None; b_steps := None; b_notes := None;
          b_is_scraped := None |} |}.

Definition credentials (e p : string) : request :=
  {| method := POST; path := ["login"]; query_q := None;
     req_body :=
       {| b_name := None; b_email := Some e; b_password := Some (JString p);
          b_recipeId := None; b_title := None; b_time := None;
          b_servings := None; b_category := None; b_source_url := None;
          b_image_url := None; b_image_path := None;
          b_ingredients := None; b_steps := None; b_notes := None;
          b_is_scraped := None |} |}.

Definition toggle_soup : request :=
  {| method := POST; path := ["toggle"]; query_q := None;
     req_body :=
       {| b_name := None; b_email := None; b_password := None;
          b_recipeId := Some "r-soup"; b_title := None; b_time := None;
          b_servings := None; b_category := None; b_source_url := None;
          b_image_url := None; b_image_path := None;
          b_ingredients := None; b_steps := None; b_notes := None;
          b_is_scraped := None |} |}.

Definition delete_soup : request :=
  {| method := DELETE; path := ["r-soup"]; query_q := None;
     req_body := empty_body |}.

(* ================================================================= *)
(** ** The pages of the application (app.js) *)

(** What a page route answers with: a redirect, a rendered template
    with its locals ([user], [title], and [recipe] on the cook page),
    a plain text, or a JSON object. *)
Inductive page : Type :=
| Redirect (location : string)
| Render (view : string) (user : option (Z * option string * option string))
         (title : string) (recipe : option recipe)
| Send (status : Z) (text : string)
| Json (r : response).

Definition page_handler : Type := world -> page * world.

(** The separator of the page titles, byte for byte as the source
    file has it. *)
Definition title_separator : string :=
  string_of_list_ascii
    (map ascii_of_nat [195; 162; 226; 130; 172; 226; 128; 156]%nat).

Definition page_title (s : string) : string :=
  ("SeMoRecepts " ++ title_separator ++ " " ++ s)%string.

(** [{ id: req.session.userId, name: req.session.name,
       email: req.session.email }] *)
Definition session_user (uid : Z) (w : world)
  : option (Z * option string * option string) :=
  Some (uid, name (session w), email (session w)).

(** [app.get("/")] *)
Definition get_root : page_handler :=
  fun w =>
    if JS.falsy_number (userId (session w))
    then (Redirect "/login", w)
    else (Redirect "/recipes", w).

(** [app.get("/login")] *)
Definition get_login : page_handler :=
  fun w =>
    if JS.falsy_number (userId (session w))
    then (Render "auth" None (page_title "Aanmelden") None, w)
    else (Redirect "/recipes", w).

(** [app.get("/recipes")] *)
Definition get_recipes : page_handler :=
  fun w =>
    if JS.falsy_number (userId (session w)) then (Redirect "/login", w)
    else
      match userId (session w) with
      | None => (Redirect "/login", w)
      | Some uid =>
          (Render "recipes" (session_user uid w)
                  (page_title "Mijn recepten") None, w)
      end.

(** The error-handling middleware of the application. *)
Definition internal_server_error : response :=
  error500 "Internal server error" "An unexpected error occurred".

(** [app.get("/recipes/:id/cook")]. The route has no [try]: what
    [Recipe.findById] throws ends in the error-handling middleware. *)
Definition get_recipes_cook (id : string) : page_handler :=
  fun w =>
    if JS.falsy_number (userId (session w)) then (Redirect "/login", w)
    else
      match userId (session w) with
      | None => (Redirect "/login", w)
      | Some uid =>
          match read Recipe_findById
                     (fun db => Recipe.findById db id uid) w with
          | (Throw _, w') => (Json internal_server_error, w')
          | (Ok None, w') => (Send 404 "Recipe not found", w')
          | (Ok (Some recipe), w') =>
              (Render "cook" (session_user uid w)
                      (page_title (o_title recipe)) (Some recipe), w')
          end
      end.

(** The four page routes, then the 404 handler. *)
Definition pages (req : request) : page_handler :=
  match method req, path req with
  | GET, [] => get_root
  | GET, [a] =>
      if is_route a "login" then get_login
      else if is_route a "recipes" then get_recipes
      else fun w => let (r, w') := not_found w in (Json r, w')
  | GET, [a; id; c] =>
      if is_route a "recipes" && is_route c "cook" then get_recipes_cook id
      else fun w => let (r, w') := not_found w in (Json r, w')
  | _, _ => fun w => let (r, w') := not_found w in (Json r, w')
  end.

(** The routes of the application in the order [app.js] mounts them:
    the three routers under [/api], the pages, the 404 handler.
    Serving the files of [public/] is outside the model. *)
Definition app `{Platform} (e : env) (req : request) : page_handler :=
  match path req with
  | a :: _ =>
      if is_route a "api"
      then fun w => let (r, w') := api e req w in (Json r, w')
      else pages req
  | [] => pages req
  end.

(* ================================================================= *)
(** ** More of the vocabulary *)

(** The columns of a user that [updateActivity] does not write. *)
Definition touch (now : Z) (u : user_row) : user_row :=
  {| u_id := u_id u; u_name := u_name u; u_email := u_email u;
     u_password_hash := u_password_hash u;
     u_created_at := u_created_at u; u_updated_at := now |}.

(** Bob has put Ann's recipe among his favorites at time 120: the
    database after his [Favorite.add]. *)
Definition kitchen_favorited : Store :=
  {| users := [ann; bob]; recipes := [soup_row];
     favorites := [{| f_id := 1; f_user_id := 2; f_recipe_id := "r-soup";
                      f_created_at := 120 |}];
     seq_users := 2; seq_favorites := 1 |}.

(** Ann and Bob logged in on that database. *)
Definition ann_logged_in : world :=
  {| db := kitchen_favorited;
     session := {| userId := Some 1; email := Some "ann@x.com";
                   name := Some "Ann" |};
     calls := [] |}.

Definition bob_with_favorite : world :=
  {| db := kitchen_favorited;
     session := {| userId := Some 2; email := Some "bob@x.com";
                   name := Some "Bob" |};
     calls := [] |}.

(** The methods of the User model. *)
Definition is_user_op (op : model_op) : bool :=
  match op with
  | User_create | User_findByEmail | User_findById | User_verifyPassword
  | User_updateActivity => true
  | _ => false
  end.

Definition registration (n e p : string) : request :=
  {| method := POST; path := ["register"]; query_q := None;
     req_body :=
       {| b_name := Some n; b_email := Some e;
          b_password := Some (JString p);
          b_recipeId := None; b_title := None; b_time := None;
          b_servings := None; b_category := None; b_source_url := None;
          b_image_url := None; b_image_path := None;
          b_ingredients := None; b_steps := None; b_notes := None;
          b_is_scraped := None |} |}.

Definition toggle_of (rid : string) : request :=
  {| method := POST; path := ["toggle"]; query_q := None;
     req_body :=
       {| b_name := None; b_email := None; b_password := None;
          b_recipeId := Some rid; b_title := None; b_time := None;
          b_servings := None; b_category := None; b_source_url := None;
          b_image_url := None; b_image_path := None;
          b_ingredients := None; b_steps := None; b_notes := None;
          b_is_scraped := None |} |}.

Definition plain_get (segments : list string) : request :=
  {| method := GET; path := segments; query_q := None;
     req_body := empty_body |}.

(** From [w] to [w'] only methods of the User model were invoked, and
    no recipe and no favorite was written. *)
Definition only_user_ops (w w' : world) : Prop :=
  exists l,
    calls w' = (calls w ++ l)%list
    /\ forallb is_user_op l = true
    /\ recipes (db w') = recipes (db w)
    /\ favorites (db w') = favorites (db w).

(** Cas registers at time 105 on the database of Ann and Bob. *)
Definition cas : user_row :=
  {| u_id := 3; u_name := "Cas"; u_email := "cas@x.com";
     u_password_hash := "$2b$10$pw"; u_created_at := 105;
     u_updated_at := 105 |}.

Definition three_users : Store :=
  {| users := [ann; bob; cas]; recipes := []; favorites := [];
     seq_users := 3; seq_favorites := 0 |}.

(** A PUT with a title in its body. *)
Definition put_broth : request :=
  {| method := PUT; path := ["r-soup"]; query_q := None;
     req_body :=
       {| b_name := None; b_email := None; b_password := None;
          b_recipeId := None; b_title := Some "Broth"; b_time := None;
          b_servings := None; b_category := None; b_source_url := None;
          b_image_url := None; b_image_path := None;
          b_ingredients := Some ["water"]; b_steps := Some ["boil"];
          b_notes := None; b_is_scraped := None |} |}.

Definition empty_request : request :=
  {| method := POST; path := []; query_q := None; req_body := empty_body |}.

(* ================================================================= *)
(** ** More data to evaluate the code on *)

(** Data with a value for every optional property. *)
Definition stew_data : RecipeData :=
  {| d_title := Some "Stew"; d_time := Some "45 min";
     d_servings := Some (JNumber 4); d_category := Some "Stoofpot";
     d_source_url := Some "https://x.com/stew";
     d_image_url := Some "https://x.com/stew.jpg";
     d_image_path := Some "/uploads/stew.jpg";
     d_ingredients := Some ["beef"; "onion"];
     d_steps := Some ["brown"; "simmer"];
     d_notes := Some "Serve hot"; d_is_scraped := None |}.









(** Three more recipes, created at times 140, 150 and 160: Ann's stew
    in the category Stoofpot, her hash in the category stoofpot, and
    Bob's stew in the category Stoofpot. *)
Definition hash_data : RecipeData :=
  {| d_title := Some "Hash"; d_time := None; d_servings := None;
     d_category := Some "stoofpot"; d_source_url := None;
     d_image_url := None; d_image_path := None;
     d_ingredients := Some ["potato"]; d_steps := Some ["fry"];
     d_notes := None; d_is_scraped := None |}.

Definition created_stew_row (id : string) (user now : Z) : recipe_row :=
  {| r_id := id; r_user_id := user; r_title := "Stew";
     r_time := Some "45 min"; r_servings := Some 4;
     r_category := Some "Stoofpot";
     r_source_url := Some "https://x.com/stew";
     r_image_url := Some "https://x.com/stew.jpg";
     r_image_path := Some "/uploads/stew.jpg";
     r_ingredients := JSON.stringify ["beef"; "onion"];
     r_steps := JSON.stringify ["brown"; "simmer"];
     r_notes := Some "Serve hot"; r_is_scraped := Some 0;
     r_created_at := now; r_updated_at := now |}.

Definition hash_row : recipe_row :=
  {| r_id := "r-hash"; r_user_id := 1; r_title := "Hash";
     r_time := None; r_servings := Some 2;
     r_category := Some "stoofpot";
     r_source_url := None; r_image_url := None; r_image_path := None;
     r_ingredients := JSON.stringify ["potato"];
     r_steps := JSON.stringify ["fry"];
     r_notes := None; r_is_scraped := Some 0;
     r_created_at := 150; r_updated_at := 150 |}.

Definition pantry : Store :=
  set_recipes kitchen
    [soup_row; created_stew_row "r-stew" 1 140; hash_row;
     created_stew_row "r-bob" 2 160].

(** Ann's stew as the model returns it. *)
Definition anns_stew : recipe :=
  {| o_id := "r-stew"; o_user_id := 1; o_title := "Stew";
     o_time := Some "45 min"; o_servings := Some 4;
     o_category := Some "Stoofpot";
     o_source_url := Some "https://x.com/stew";
     o_image_url := Some "https://x.com/stew.jpg";
     o_image_path := Some "/uploads/stew.jpg";
     o_ingredients := ["beef"; "onion"]; o_steps := ["brown"; "simmer"];
     o_notes := Some "Serve hot"; o_is_scraped := false;
     o_created_at := 140; o_updated_at := 140 |}.



(* ################################################################# *)
(** * Lemmas and theorems *)

(* ================================================================= *)
(** ** The JSON round trip *)

Lemma append_assoc (a b c : string) : ((a ++ b) ++ c = a ++ (b ++ c))%string.
Proof.
  induction a as [|x a IH]; simpl; [reflexivity | now rewrite IH].
Qed.

Lemma append_nil_r (a : string) : (a ++ EmptyString = a)%string.
Proof.
  induction a as [|x a IH]; simpl; [reflexivity | now rewrite IH].
Qed.

Lemma run_escape_char (c : ascii) (acc : string) (items : list string)
      (rest : string) :
  JSON.run (JSON.PStr acc) items (JSON.escape_char c ++ rest)
  = JSON.run (JSON.PStr (acc ++ JSON.str1 c)) items rest.
Proof.
  destruct c as [[] [] [] [] [] [] [] []]; reflexivity.
Qed.

Lemma run_escape (s : string) :
  forall acc items rest,
    JSON.run (JSON.PStr acc) items (JSON.escape s ++ rest)
    = JSON.run (JSON.PStr (acc ++ s)) items rest.
Proof.
  induction s as [|c s IH]; intros acc items rest.
  - simpl. now rewrite append_nil_r.
  - simpl JSON.escape. rewrite append_assoc, run_escape_char, IH.
    now rewrite append_assoc.
Qed.

Lemma run_quote (s : string) (items : list string) (rest : string) :
  JSON.run (JSON.PStr EmptyString) items
           (JSON.escape s ++ String JSON.dquote rest)
  = JSON.run JSON.PSep (items ++ [s]) rest.
Proof.
  rewrite run_escape. reflexivity.
Qed.

Lemma join_cons (x : string) (l : list string) :
  JSON.join (x :: l) = (JSON.quote x ++ join_tail l)%string.
Proof.
  destruct l; simpl; [now rewrite append_nil_r | reflexivity].
Qed.

Lemma run_join_tail (l : list string) :
  forall items rest,
    JSON.run JSON.PSep items (join_tail l ++ String "]" rest)
    = JSON.run JSON.PEnd (items ++ l) rest.
Proof.
  induction l as [|y l IH]; intros items rest.
  - simpl. now rewrite app_nil_r.
  - unfold join_tail. rewrite join_cons. unfold JSON.quote.
    simpl. rewrite !append_assoc. simpl.
    rewrite run_quote, IH, <- app_assoc. reflexivity.
Qed.

Lemma parse_stringify (l : list string) :
  JSON.parse (JSON.stringify l) = Some l.
Proof.
  destruct l as [|x l].
  - reflexivity.
  - unfold JSON.parse, JSON.stringify. rewrite join_cons.
    unfold JSON.quote. simpl. rewrite !append_assoc. simpl.
    rewrite run_quote.
    exact (run_join_tail l [x] EmptyString).
Qed.

(* ================================================================= *)
(** ** Lists and keys *)

Lemma find_none_iff {A} (p : A -> bool) (l : list A) :
  find p l = None <-> (forall x, In x l -> p x = false).
Proof.
  split.
  - intros H x Hx. exact (find_none p l H x Hx).
  - induction l as [|a l IH]; intros H; simpl; [reflexivity|].
    rewrite (H a (or_introl eq_refl)). apply IH.
    intros x Hx. apply H. now right.
Qed.

Lemma filter_nil_iff {A} (p : A -> bool) (l : list A) :
  filter p l = [] <-> (forall x, In x l -> p x = false).
Proof.
  induction l as [|a l IH]; simpl.
  - split; [intros _ x [] | reflexivity].
  - destruct (p a) eqn:Ha.
    + split; [discriminate|].
      intros H. specialize (H a (or_introl eq_refl)). congruence.
    + rewrite IH. split.
      * intros H x [<-|Hx]; [assumption | now apply H].
      * intros H x Hx. apply H. now right.
Qed.

Lemma changes_zero {A} (p : A -> bool) (l : list A) :
  (forall x, In x l -> p x = false) -> changes p l = 0.
Proof.
  intros H. unfold changes.
  now rewrite (proj2 (filter_nil_iff p l) H).
Qed.

Lemma changes_pos {A} (p : A -> bool) (l : list A) (x : A) :
  In x l -> p x = true -> 0 < changes p l.
Proof.
  intros Hx Hp. unfold changes.
  assert (Hin : In x (filter p l)) by (apply filter_In; now split).
  destruct (filter p l); [destruct Hin | simpl; lia].
Qed.

Lemma filter_all {A} (p : A -> bool) (l : list A) :
  (forall x, In x l -> p x = true) -> filter p l = l.
Proof.
  induction l as [|a l IH]; intros H; simpl; [reflexivity|].
  rewrite (H a (or_introl eq_refl)). f_equal. apply IH.
  intros x Hx. apply H. now right.
Qed.

Lemma existsb_false_iff {A} (p : A -> bool) (l : list A) :
  existsb p l = false <-> (forall x, In x l -> p x = false).
Proof.
  induction l as [|a l IH]; simpl.
  - split; [intros _ x [] | reflexivity].
  - rewrite orb_false_iff, IH. split.
    + intros [Ha H] x [<-|Hx]; [assumption | now apply H].
    + intros H. split; [apply H; now left|].
      intros x Hx. apply H. now right.
Qed.

(** A key column identifies the row. *)
Lemma key_identifies {A K} (key : A -> K) (l : list A) :
  NoDup (map key l) ->
  forall x y, In x l -> In y l -> key x = key y -> x = y.
Proof.
  induction l as [|a l IH]; intros Hnd x y Hx Hy Hk; [destruct Hx|].
  simpl in Hnd. inversion Hnd as [|? ? Hnotin Hnd']; subst.
  destruct Hx as [<-|Hx], Hy as [<-|Hy].
  - reflexivity.
  - exfalso. apply Hnotin. rewrite Hk. now apply in_map.
  - exfalso. apply Hnotin. rewrite <- Hk. now apply in_map.
  - now apply IH.
Qed.

Lemma owned_by_true (id : string) (userId : Z) (r : recipe_row) :
  owned_by id userId r = true <-> r_id r = id /\ r_user_id r = userId.
Proof.
  unfold owned_by. rewrite andb_true_iff, String.eqb_eq, Z.eqb_eq.
  reflexivity.
Qed.

Lemma has_recipe_false (db : Store) (id : string) :
  has_recipe db id = false <-> (forall r, In r (recipes db) -> r_id r <> id).
Proof.
  unfold has_recipe. rewrite existsb_false_iff. split.
  - intros H r Hr. apply String.eqb_neq. now apply H.
  - intros H r Hr. apply String.eqb_neq. now apply H.
Qed.

(** Under the primary key, a recipe of one account is matched by no
    [WHERE id = ? AND user_id = ?] of another. *)
Lemma foreign_recipe_unmatched (db : Store) (r : recipe_row) (B : Z) :
  NoDup (map r_id (recipes db)) ->
  In r (recipes db) -> B <> r_user_id r ->
  forall r', In r' (recipes db) -> owned_by (r_id r) B r' = false.
Proof.
  intros Hpk Hr HB r' Hr'.
  destruct (owned_by (r_id r) B r') eqn:E; [|reflexivity].
  apply owned_by_true in E. destruct E as [Hid Hu].
  assert (r' = r) by (eapply key_identifies; eauto).
  subst r'. congruence.
Qed.

Lemma unknown_id_unmatched (db : Store) (id : string) (B : Z) :
  has_recipe db id = false ->
  forall r', In r' (recipes db) -> owned_by id B r' = false.
Proof.
  intros H r' Hr'.
  destruct (owned_by id B r') eqn:E; [|reflexivity].
  apply owned_by_true in E. destruct E as [Hid _].
  exfalso. exact (proj1 (has_recipe_false db id) H r' Hr' Hid).
Qed.

(* ================================================================= *)
(** ** Ownership: reading, updating, deleting *)

Lemma findById_unmatched (db : Store) (id : string) (B : Z) :
  (forall r, In r (recipes db) -> owned_by id B r = false) ->
  Recipe.findById db id B = Ok None.
Proof.
  intros H. unfold Recipe.findById.
  now rewrite (proj2 (find_none_iff _ _) H).
Qed.

Lemma update_unmatched (db : Store) (now : Z) (id : string) (B : Z)
      (d : RecipeData) :
  (forall r, In r (recipes db) -> owned_by id B r = false) ->
  Recipe.update db now id B d = Ok (false, db).
Proof.
  intros H. unfold Recipe.update, UPDATE_recipes.
  rewrite (changes_zero _ _ H). reflexivity.
Qed.

Lemma delete_unmatched (db : Store) (id : string) (B : Z) :
  (forall r, In r (recipes db) -> owned_by id B r = false) ->
  Recipe.delete db id B = Ok (false, db).
Proof.
  intros H. unfold Recipe.delete, DELETE_recipes.
  rewrite (changes_zero _ _ H). reflexivity.
Qed.

Lemma getRecipeById_absent (id : string) (B : Z) (w : world) :
  Recipe.findById (db w) id B = Ok None ->
  getRecipeById id B w
  = ({| status := 404;
        json := JError "Recipe not found"
          (Some "Recipe does not exist or you don't have permission to view it") |},
     {| db := db w; session := session w;
        calls := calls w ++ [Recipe_findById] |}).
Proof.
  intros H. unfold getRecipeById, try_catch, bindC, read, call, res, ret.
  rewrite H. reflexivity.
Qed.

(** C1. A recipe of account A is absent for every other account B:
    [findById] of its id with B's account returns [undefined], which
    is exactly what it returns for an id that no recipe has; and the
    controller on top of it answers both requests alike. *)
Theorem findById_other_account_absent
    (w : world) (r : recipe_row) (B : Z) (unknown : string) :
  integrity (db w) ->
  In r (recipes (db w)) ->
  B <> r_user_id r ->
  has_recipe (db w) unknown = false ->
  Recipe.findById (db w) (r_id r) B = Ok None
  /\ Recipe.findById (db w) unknown B = Ok None
  /\ Recipe.findById (db w) (r_id r) B = Recipe.findById (db w) unknown B
  /\ getRecipeById (r_id r) B w = getRecipeById unknown B w.
Proof.
  intros Hint Hr HB Hunknown.
  assert (H1 : Recipe.findById (db w) (r_id r) B = Ok None).
  { apply findById_unmatched.
    apply foreign_recipe_unmatched; auto using pk_recipes. }
  assert (H2 : Recipe.findById (db w) unknown B = Ok None).
  { apply findById_unmatched. now apply unknown_id_unmatched. }
  repeat split; try congruence.
  now rewrite !getRecipeById_absent.
Qed.

(** C3. For a recipe of account A and any other account B,
    [update] and [delete] with B's account return [false] and leave
    the database, the recipe's row included, exactly as it was. *)
Theorem update_delete_other_account_refused
    (db : Store) (r : recipe_row) (B : Z) (now : Z) (d : RecipeData) :
  integrity db ->
  In r (recipes db) ->
  B <> r_user_id r ->
  Recipe.update db now (r_id r) B d = Ok (false, db)
  /\ Recipe.delete db (r_id r) B = Ok (false, db)
  /\ In r (recipes db).
Proof.
  intros Hint Hr HB.
  assert (H : forall r', In r' (recipes db) -> owned_by (r_id r) B r' = false)
    by (apply foreign_recipe_unmatched; auto using pk_recipes).
  repeat split; auto using update_unmatched, delete_unmatched.
Qed.

(* ================================================================= *)
(** ** The schema's constraints hold in every reachable database *)

Lemma has_user_true (db : Store) (u : Z) :
  has_user db u = true <-> exists x, In x (users db) /\ u_id x = u.
Proof.
  unfold has_user. rewrite existsb_exists.
  split; intros [x [Hx E]]; exists x; split; auto; now apply Z.eqb_eq.
Qed.

Lemma has_recipe_true (db : Store) (id : string) :
  has_recipe db id = true <-> exists r, In r (recipes db) /\ r_id r = id.
Proof.
  unfold has_recipe. rewrite existsb_exists.
  split; intros [x [Hx E]]; exists x; split; auto; now apply String.eqb_eq.
Qed.

Lemma NoDup_map_filter {A K} (key : A -> K) (p : A -> bool) (l : list A) :
  NoDup (map key l) -> NoDup (map key (filter p l)).
Proof.
  induction l as [|a l IH]; simpl; intros H; [constructor|].
  inversion H as [|? ? Hnotin Hnd]; subst.
  destruct (p a); simpl; [constructor|]; auto.
  intros Hin. apply Hnotin.
  apply in_map_iff in Hin. destruct Hin as [x [E Hx]].
  apply filter_In in Hx. apply in_map_iff. exists x. tauto.
Qed.

Lemma NoDup_map_snoc {A K} (key : A -> K) (l : list A) (x : A) :
  NoDup (map key l) -> ~ In (key x) (map key l) ->
  NoDup (map key (l ++ [x])).
Proof.
  induction l as [|a l IH]; simpl; intros Hnd Hx.
  - constructor; [intros [] | constructor].
  - inversion Hnd as [|? ? Hnotin Hnd']; subst. constructor.
    + rewrite map_app, in_app_iff. simpl. intros [Hin|[E|[]]]; [tauto|].
      apply Hx. now left.
    + apply IH; tauto.
Qed.

Lemma map_key_preserved {A K} (key : A -> K) (f : A -> A) (l : list A) :
  (forall x, key (f x) = key x) -> map key (map f l) = map key l.
Proof.
  intros H. rewrite map_map. apply map_ext. exact H.
Qed.

Ltac inv H := inversion H; subst; clear H.

Lemma integrity_empty : integrity empty_store.
Proof.
  constructor; simpl;
    solve [constructor | intros ? [] | lia].
Qed.

Lemma INSERT_users_integrity db name email hash now id db' :
  INSERT_users db name email hash now = Ok (id, db') ->
  integrity db -> integrity db'.
Proof.
  unfold INSERT_users. intros H I.
  destruct (existsb _ (users db)) eqn:E; [discriminate|]. inv H.
  assert (Hmono : forall u, has_user db u = true ->
            has_user
              {| users := users db ++
                   [{| u_id := seq_users db + 1; u_name := name;
                       u_email := email; u_password_hash := hash;
                       u_created_at := now; u_updated_at := now |}];
                 recipes := recipes db; favorites := favorites db;
                 seq_users := seq_users db + 1;
                 seq_favorites := seq_favorites db |} u = true).
  { intros u Hu. unfold has_user in *. simpl.
    rewrite existsb_app, Hu. reflexivity. }
  destruct I as [pkr fkr uqf fkf uqu seq0 pku pkun].
  constructor; simpl; auto; try lia.
  - intros f Hf. destruct (fkf f Hf). split; auto.
  - apply NoDup_map_snoc; auto. simpl. intros Hin.
    apply in_map_iff in Hin. destruct Hin as [u [Eu Hu]].
    rewrite existsb_false_iff in E. specialize (E u Hu).
    apply String.eqb_neq in E. congruence.
  - intros u Hu. apply in_app_iff in Hu. destruct Hu as [Hu|[<-|[]]].
    + specialize (pku u Hu). lia.
    + simpl. lia.
  - apply NoDup_map_snoc; auto. simpl. intros Hin.
    apply in_map_iff in Hin. destruct Hin as [u [Eu Hu]].
    specialize (pku u Hu). lia.
Qed.

Lemma existsb_map_preserved {A} (p : A -> bool) (f : A -> A) (l : list A) :
  (forall x, p (f x) = p x) -> existsb p (map f l) = existsb p l.
Proof.
  intros H. induction l as [|a l IH]; simpl; [reflexivity|].
  now rewrite H, IH.
Qed.

Lemma updateActivity_integrity db now id :
  integrity db -> integrity (User.updateActivity db now id).
Proof.
  intros [pkr fkr uqf fkf uqu seq0 pku pkun].
  set (touch := fun u =>
         if u_id u =? id
         then {| u_id := u_id u; u_name := u_name u; u_email := u_email u;
                 u_password_hash := u_password_hash u;
                 u_created_at := u_created_at u; u_updated_at := now |}
         else u).
  assert (Hid : forall u, u_id (touch u) = u_id u)
    by (intros u; unfold touch; now destruct (u_id u =? id)).
  assert (Hem : forall u, u_email (touch u) = u_email u)
    by (intros u; unfold touch; now destruct (u_id u =? id)).
  assert (Hhas : forall u, has_user (User.updateActivity db now id) u
                           = has_user db u).
  { intros u. unfold has_user. simpl. fold touch.
    apply existsb_map_preserved. intros x. now rewrite Hid. }
  constructor; simpl; auto.
  - intros r Hr. rewrite Hhas. auto.
  - intros f Hf. rewrite Hhas. destruct (fkf f Hf). split; auto.
  - fold touch. now rewrite (map_key_preserved u_email touch).
  - fold touch. intros u Hu. apply in_map_iff in Hu.
    destruct Hu as [u0 [<- Hu0]]. rewrite Hid. auto.
  - fold touch. now rewrite (map_key_preserved u_id touch).
Qed.

Lemma has_recipe_snoc db rs id :
  has_recipe db id = true ->
  has_recipe (set_recipes db (recipes db ++ rs)) id = true.
Proof.
  unfold has_recipe. simpl. intros H. now rewrite existsb_app, H.
Qed.

Lemma create_integrity db uuid now userId d id db' :
  Recipe.create db uuid now userId d = Ok (id, db') ->
  integrity db -> integrity db'.
Proof.
  unfold Recipe.create, INSERT_recipes. intros H I.
  destruct (d_title d) as [t|]; [|discriminate].
  destruct (SQL.integer_column _) as [n|]; [|discriminate].
  destruct (has_recipe db uuid) eqn:Efresh; [discriminate|].
  destruct (has_user db userId) eqn:Euser; [|discriminate].
  simpl in H. inv H.
  destruct I as [pkr fkr uqf fkf uqu seq0 pku pkun].
  constructor; simpl; auto.
  - apply NoDup_map_snoc; auto. simpl. intros Hin.
    apply in_map_iff in Hin. destruct Hin as [r [Er Hr]].
    exact (proj1 (has_recipe_false db _) Efresh r Hr Er).
  - intros r Hr. apply in_app_iff in Hr. destruct Hr as [Hr|[<-|[]]].
    + exact (fkr r Hr).
    + exact Euser.
  - intros f Hf. destruct (fkf f Hf) as [Hu Hr]. split; [exact Hu|].
    now apply has_recipe_snoc.
Qed.

Lemma update_integrity db now id userId d b db' :
  Recipe.update db now id userId d = Ok (b, db') ->
  integrity db -> integrity db'.
Proof.
  unfold Recipe.update, UPDATE_recipes. intros H I.
  destruct (changes (owned_by id userId) (recipes db) =? 0);
    [simpl in H; inv H; exact I|].
  destruct (d_title d) as [t|]; [|discriminate].
  destruct (SQL.integer_column _) as [n|]; [|discriminate].
  simpl in H. inv H.
  match goal with
  | |- integrity (set_recipes db (map ?g _)) => set (upd := g)
  end.
  assert (Hid : forall r, r_id (upd r) = r_id r)
    by (intros r; unfold upd; now destruct (owned_by id userId r)).
  assert (Hu : forall r, r_user_id (upd r) = r_user_id r)
    by (intros r; unfold upd; now destruct (owned_by id userId r)).
  destruct I as [pkr fkr uqf fkf uqu seq0 pku pkun].
  constructor; simpl; auto.
  - now rewrite (map_key_preserved r_id upd).
  - intros r Hr. apply in_map_iff in Hr. destruct Hr as [r0 [<- Hr0]].
    rewrite Hu. exact (fkr r0 Hr0).
  - intros f Hf. destruct (fkf f Hf) as [Hfu Hfr]. split; [exact Hfu|].
    unfold has_recipe in *. simpl.
    rewrite existsb_map_preserved; [exact Hfr|].
    intros r. now rewrite Hid.
Qed.

Lemma delete_integrity db id userId b db' :
  Recipe.delete db id userId = Ok (b, db') ->
  integrity db -> integrity db'.
Proof.
  unfold Recipe.delete, DELETE_recipes. intros H I.
  destruct (changes (owned_by id userId) (recipes db) =? 0);
    [inv H; exact I|].
  inv H. destruct I as [pkr fkr uqf fkf uqu seq0 pku pkun].
  constructor; simpl; auto.
  - now apply NoDup_map_filter.
  - intros r Hr. apply filter_In in Hr. exact (fkr r (proj1 Hr)).
  - now apply NoDup_map_filter.
  - intros f Hf. apply filter_In in Hf. destruct Hf as [Hf Hne].
    destruct (fkf f Hf) as [Hfu Hfr]. split; [exact Hfu|].
    apply has_recipe_true in Hfr. destruct Hfr as [r [Hr Er]].
    apply has_recipe_true. exists r. split; [|exact Er]. simpl.
    apply filter_In. split; [exact Hr|].
    apply negb_true_iff in Hne. apply String.eqb_neq in Hne.
    unfold owned_by.
    destruct (String.eqb_spec (r_id r) id); [congruence | reflexivity].
Qed.

Lemma is_pair_true userId recipeId f :
  is_pair userId recipeId f = true
  <-> f_user_id f = userId /\ f_recipe_id f = recipeId.
Proof.
  unfold is_pair. rewrite andb_true_iff, Z.eqb_eq, String.eqb_eq.
  reflexivity.
Qed.

Lemma add_integrity db now userId recipeId b db' :
  Favorite.add db now userId recipeId = Ok (b, db') ->
  integrity db -> integrity db'.
Proof.
  unfold Favorite.add, INSERT_favorites. intros H I.
  destruct (existsb (is_pair userId recipeId) (favorites db)) eqn:Epair;
    [simpl in H; inv H; exact I|].
  destruct (has_user db userId && has_recipe db recipeId) eqn:Efk;
    [|discriminate].
  simpl in H. inv H. apply andb_true_iff in Efk. destruct Efk as [Hu Hr].
  destruct I as [pkr fkr uqf fkf uqu seq0 pku pkun].
  constructor; simpl; auto.
  - apply (NoDup_map_snoc (fun f => (f_user_id f, f_recipe_id f))); auto.
    simpl. intros Hin. apply in_map_iff in Hin.
    destruct Hin as [f [Ef Hf]]. inversion Ef.
    rewrite existsb_false_iff in Epair. specialize (Epair f Hf).
    assert (is_pair userId recipeId f = true)
      by (apply is_pair_true; split; assumption).
    congruence.
  - intros f Hf. apply in_app_iff in Hf. destruct Hf as [Hf|[<-|[]]].
    + exact (fkf f Hf).
    + split; assumption.
Qed.

Lemma remove_integrity db userId recipeId b db' :
  Favorite.remove db userId recipeId = Ok (b, db') ->
  integrity db -> integrity db'.
Proof.
  unfold Favorite.remove, DELETE_favorites. intros H I. inv H.
  destruct I as [pkr fkr uqf fkf uqu seq0 pku pkun].
  constructor; simpl; auto.
  - now apply NoDup_map_filter.
  - intros f Hf. apply filter_In in Hf. exact (fkf f (proj1 Hf)).
Qed.

Lemma step_integrity db db' : step db db' -> integrity db -> integrity db'.
Proof.
  intros [] I;
    eauto using INSERT_users_integrity, updateActivity_integrity,
      create_integrity, update_integrity, delete_integrity,
      add_integrity, remove_integrity.
Qed.

Lemma reachable_integrity db : reachable db -> integrity db.
Proof.
  induction 1; eauto using integrity_empty, step_integrity.
Qed.

(* ================================================================= *)
(** ** Defaulting *)

Lemma or_null_not_empty (v : option string) : not_empty (JS.or_null v) = true.
Proof.
  destruct v as [[|c s]|]; reflexivity.
Qed.

Lemma or_null_falsy (v : option string) :
  JS.falsy_string v = true -> JS.or_null v = None.
Proof.
  destruct v as [[|c s]|]; simpl; intros H; congruence.
Qed.

Lemma or_null_truthy (v : option string) :
  JS.falsy_string v = false -> JS.or_null v = v.
Proof.
  destruct v as [[|c s]|]; simpl; intros H; congruence.
Qed.



Lemma or_value_truthy (v : option js_value) (d : js_value) :
  ~ falsy_servings v -> Some (JS.or_value v d) = v.
Proof.
  unfold falsy_servings. intros H.
  destruct v as [[n| |[|c s]]|]; simpl; try reflexivity.
  - destruct (Z.eqb_spec n 0) as [->|E]; [|reflexivity].
    exfalso. apply H. auto.
  - exfalso. apply H. auto.
  - exfalso. apply H. auto.
Qed.

(** The column takes 2, and a number in its range as it is. *)
Lemma integer_column_two : SQL.integer_column (JNumber 2) = Some 2.
Proof.
  reflexivity.
Qed.



Lemma set_columns_no_empty_text (t : string) (d : RecipeData) (n : Z)
      (i s : string) (now : Z) (r : recipe_row) :
  no_empty_text
    (set_columns t (JS.or_null (d_time d)) n
       (JS.or_null (d_category d)) (JS.or_null (d_source_url d))
       (JS.or_null (d_image_url d)) (JS.or_null (d_image_path d))
       i s (JS.or_null (d_notes d)) now r) = true.
Proof.
  unfold no_empty_text. simpl. now rewrite !or_null_not_empty.
Qed.

Lemma written_empty : written_by_model empty_store.
Proof.
  constructor; intros r [].
Qed.

Lemma create_written db uuid now userId d id db' :
  Recipe.create db uuid now userId d = Ok (id, db') ->
  written_by_model db -> written_by_model db'.
Proof.
  unfold Recipe.create, INSERT_recipes. intros H [Hj Hd].
  destruct (d_title d) as [t|]; [|discriminate].
  destruct (SQL.integer_column _) as [n|]; [|discriminate].
  destruct (has_recipe db uuid); [discriminate|].
  destruct (has_user db userId); [|discriminate].
  simpl in H. inv H.
  constructor; simpl; intros r Hr; apply in_app_iff in Hr;
    destruct Hr as [Hr|[<-|[]]]; auto.
  - simpl. eauto.
  - unfold no_empty_text. simpl. rewrite !or_null_not_empty.
    split; [reflexivity | discriminate].
Qed.

Lemma update_written db now id userId d b db' :
  Recipe.update db now id userId d = Ok (b, db') ->
  written_by_model db -> written_by_model db'.
Proof.
  unfold Recipe.update, UPDATE_recipes. intros H W.
  destruct (changes (owned_by id userId) (recipes db) =? 0);
    [simpl in H; inv H; exact W|].
  destruct (d_title d) as [t|]; [|discriminate].
  destruct (SQL.integer_column _) as [n|]; [|discriminate].
  simpl in H. inv H. destruct W as [Hj Hd].
  constructor; simpl; intros r Hr; apply in_map_iff in Hr;
    destruct Hr as [r0 [<- Hr0]]; destruct (owned_by id userId r0); auto.
  - simpl. eauto.
  - split; [apply set_columns_no_empty_text | discriminate].
Qed.

Lemma delete_written db id userId b db' :
  Recipe.delete db id userId = Ok (b, db') ->
  written_by_model db -> written_by_model db'.
Proof.
  unfold Recipe.delete, DELETE_recipes. intros H W.
  destruct (changes (owned_by id userId) (recipes db) =? 0);
    [inv H; exact W|].
  inv H. destruct W as [Hj Hd].
  constructor; simpl; intros r Hr; apply filter_In in Hr;
    destruct Hr as [Hr _]; auto.
Qed.

Lemma same_recipes_written db db' :
  recipes db' = recipes db -> written_by_model db -> written_by_model db'.
Proof.
  intros E [Hj Hd]. constructor; rewrite E; assumption.
Qed.

Lemma INSERT_users_recipes db name email hash now id db' :
  INSERT_users db name email hash now = Ok (id, db') ->
  recipes db' = recipes db.
Proof.
  unfold INSERT_users. destruct (existsb _ (users db)); [discriminate|].
  intros H. now inv H.
Qed.

Lemma add_recipes db now userId recipeId b db' :
  Favorite.add db now userId recipeId = Ok (b, db') ->
  recipes db' = recipes db.
Proof.
  unfold Favorite.add, INSERT_favorites.
  destruct (existsb _ (favorites db)); [simpl; intros H; now inv H|].
  destruct (has_user db userId && has_recipe db recipeId);
    simpl; intros H; [now inv H | discriminate].
Qed.

Lemma remove_recipes db userId recipeId b db' :
  Favorite.remove db userId recipeId = Ok (b, db') ->
  recipes db' = recipes db.
Proof.
  unfold Favorite.remove, DELETE_favorites. intros H. now inv H.
Qed.

Lemma step_written db db' :
  step db db' -> written_by_model db -> written_by_model db'.
Proof.
  intros [] W;
    eauto using create_written, update_written, delete_written,
      same_recipes_written, INSERT_users_recipes, add_recipes,
      remove_recipes.
  now apply same_recipes_written with (db := db).
Qed.

Lemma reachable_written db : reachable db -> written_by_model db.
Proof.
  induction 1; eauto using written_empty, step_written.
Qed.

(* ================================================================= *)
(** ** Creating and reading back *)

Lemma find_snoc {A} (p : A -> bool) (l : list A) (y : A) :
  (forall x, In x l -> p x = false) -> p y = true ->
  find p (l ++ [y]) = Some y.
Proof.
  intros H Hy. induction l as [|a l IH]; simpl.
  - now rewrite Hy.
  - rewrite (H a (or_introl eq_refl)). apply IH.
    intros x Hx. apply H. now right.
Qed.

Lemma JSON_parse_stringify (l : list string) :
  JSON_parse (JSON.stringify l) = Ok l.
Proof.
  unfold JSON_parse. now rewrite parse_stringify.
Qed.

(** What [create] adds is a row of the account that called it. *)
Lemma create_row db uuid now A d id db' :
  Recipe.create db uuid now A d = Ok (id, db') ->
  exists r, In r (recipes db') /\ r_id r = id /\ r_user_id r = A.
Proof.
  unfold Recipe.create, INSERT_recipes. intros H.
  destruct (d_title d) as [t|]; [|discriminate].
  destruct (SQL.integer_column _) as [n|]; [|discriminate].
  destruct (has_recipe db uuid); [discriminate|].
  destruct (has_user db A); [|discriminate].
  simpl in H. inv H. eexists. split.
  - simpl. apply in_app_iff. right. left. reflexivity.
  - split; reflexivity.
Qed.



(* ================================================================= *)
(** ** Updating *)











(** The row [create] inserts. *)
Lemma create_inserts db uuid now A d id db' :
  Recipe.create db uuid now A d = Ok (id, db') ->
  exists n r,
    SQL.integer_column (JS.or_value (d_servings d) (JNumber 2)) = Some n
    /\ recipes db' = (recipes db ++ [r])%list
    /\ find (owned_by id A) (recipes db') = Some r
    /\ r_servings r = Some n
    /\ r_time r = JS.or_null (d_time d)
    /\ r_category r = JS.or_null (d_category d)
    /\ r_source_url r = JS.or_null (d_source_url d)
    /\ r_image_url r = JS.or_null (d_image_url d)
    /\ r_image_path r = JS.or_null (d_image_path d)
    /\ r_notes r = JS.or_null (d_notes d).
Proof.
  unfold Recipe.create, INSERT_recipes. intros H.
  destruct (d_title d) as [t|]; [|discriminate].
  destruct (SQL.integer_column _) as [n|] eqn:Hn; [|discriminate].
  destruct (has_recipe db uuid) eqn:Efresh; [discriminate|].
  destruct (has_user db A); [|discriminate].
  simpl in H. inv H. exists n. eexists.
  split; [reflexivity|]. split; [reflexivity|]. split.
  - simpl. apply find_snoc.
    + now apply unknown_id_unmatched.
    + apply owned_by_true. split; reflexivity.
  - repeat split.
Qed.







Lemma step_with_numbers_step db db' : step_with_numbers db db' -> step db db'.
Proof.
  intros []; eauto using step.
Qed.

Lemma numbers_reachable db : reachable_with_numbers db -> reachable db.
Proof.
  induction 1; eauto using reachable, step_with_numbers_step.
Qed.


(* ================================================================= *)
(** ** [LIKE] and the search *)

Lemma any_suffix_ext (f g : string -> bool) (t : string) :
  (forall s, f s = g s) -> SQL.any_suffix f t = SQL.any_suffix g t.
Proof.
  intros H. induction t as [|c t IH]; simpl; rewrite H; [reflexivity|].
  now rewrite IH.
Qed.

Lemma any_tail_true (f : list N -> bool) (t : list N) :
  (forall s, f s = true) -> SQL.any_tail f t = true.
Proof.
  intros H. destruct t; simpl; now rewrite H.
Qed.

Lemma any_tail_end (t : list N) :
  SQL.any_tail (SQL.like_characters []) t = true.
Proof.
  induction t as [|c t IH]; [reflexivity | exact IH].
Qed.

Lemma like_characters_percent (t : list N) :
  SQL.like_characters [37%N] t = true.
Proof.
  apply any_tail_end.
Qed.

(** The pattern of the empty query matches every title. *)
Lemma like_empty_query (t : string) :
  SQL.like (String "%" EmptyString ++ String "%" EmptyString) t = true.
Proof.
  unfold SQL.like.
  change (SQL.characters (String "%" EmptyString ++ String "%" EmptyString))
    with [37%N; 37%N].
  change (SQL.any_tail (SQL.like_characters [37%N]) (SQL.characters t) = true).
  apply any_tail_true. apply like_characters_percent.
Qed.

(** *** Texts of ASCII characters *)

Lemma ascii_eqb_code (a b : ascii) :
  (a =? b)%char = (N_of_ascii a =? N_of_ascii b)%N.
Proof.
  destruct (Ascii.eqb_spec a b) as [->|Hne].
  - now rewrite N.eqb_refl.
  - symmetry. apply N.eqb_neq. intros E. apply Hne.
    rewrite <- (ascii_N_embedding a), <- (ascii_N_embedding b).
    now rewrite E.
Qed.

Lemma tolower_code (c : ascii) :
  N_of_ascii (SQL.tolower c) = SQL.lower (N_of_ascii c).
Proof.
  destruct c as [[] [] [] [] [] [] [] []]; reflexivity.
Qed.

Lemma characters_ascii (s : string) :
  ascii_text s = true -> SQL.characters s = codes s.
Proof.
  unfold SQL.characters. induction s as [|c s IH]; [reflexivity|].
  simpl. intros H. apply andb_true_iff in H. destruct H as [Hc Hs].
  apply andb_true_iff in Hc. destruct Hc as [H0 H128].
  apply N.ltb_lt in H0, H128.
  destruct (N.eqb_spec (N_of_ascii c) 0) as [E|_]; [lia|].
  destruct (N.ltb_spec (N_of_ascii c) 192) as [_|E]; [|lia].
  now rewrite (IH Hs).
Qed.

Lemma ascii_text_app (a b : string) :
  ascii_text (a ++ b) = ascii_text a && ascii_text b.
Proof.
  induction a as [|c a IH]; simpl; [reflexivity|].
  now rewrite IH, andb_assoc.
Qed.

Lemma codes_app (a b : string) : codes (a ++ b) = (codes a ++ codes b)%list.
Proof.
  induction a as [|c a IH]; simpl; [reflexivity | now rewrite IH].
Qed.

(** One character of the pattern that is no wildcard against one
    character of the text, both ASCII. *)
Lemma like_one_character (c d : ascii) :
  (c =? "%")%char = false -> (c =? "_")%char = false ->
  (N_of_ascii c <? 128)%N = true -> (N_of_ascii d <? 128)%N = true ->
  ((N_of_ascii c =? 37)%N = false)
  /\ ((N_of_ascii c =? N_of_ascii d)%N
      || ((N_of_ascii c <? 128)%N && (N_of_ascii d <? 128)%N
          && (SQL.lower (N_of_ascii c) =? SQL.lower (N_of_ascii d))%N)
      || (N_of_ascii c =? 95)%N)
     = (SQL.tolower c =? SQL.tolower d)%char.
Proof.
  intros Hp Hu Hc Hd. rewrite ascii_eqb_code in Hp, Hu.
  change (N_of_ascii "%") with 37%N in Hp.
  change (N_of_ascii "_") with 95%N in Hu.
  split; [exact Hp|].
  rewrite Hc, Hd, Hu, orb_false_r, ascii_eqb_code, !tolower_code. simpl.
  destruct (N.eqb_spec (N_of_ascii c) (N_of_ascii d)) as [E|_];
    [|reflexivity].
  rewrite E. now rewrite N.eqb_refl.
Qed.

Lemma ascii_text_cons (c : ascii) (s : string) :
  ascii_text (String c s) = true ->
  (N_of_ascii c <? 128)%N = true /\ ascii_text s = true.
Proof.
  simpl. intros H. apply andb_true_iff in H. destruct H as [Hc Hs].
  apply andb_true_iff in Hc. tauto.
Qed.

(** A pattern of ASCII characters without wildcards, closed by [%],
    matches the ASCII texts it is a prefix of. *)
Lemma like_plain_prefix (q : string) :
  no_wildcard q = true -> ascii_text q = true ->
  forall t, ascii_text t = true ->
    SQL.like_characters (codes q ++ [37%N]) (codes t) = prefix_nocase q t.
Proof.
  induction q as [|c q IH]; intros Hq Ha t Ht.
  - apply like_characters_percent.
  - simpl in Hq. apply andb_true_iff in Hq. destruct Hq as [Hc Hq].
    apply andb_true_iff in Hc. destruct Hc as [Hpct Hund].
    apply negb_true_iff in Hpct, Hund.
    apply ascii_text_cons in Ha. destruct Ha as [Hc128 Ha].
    destruct t as [|d t].
    + simpl. destruct (N_of_ascii c =? 37)%N eqn:E; [|reflexivity].
      rewrite ascii_eqb_code in Hpct.
      change (N_of_ascii "%") with 37%N in Hpct. congruence.
    + apply ascii_text_cons in Ht. destruct Ht as [Hd128 Ht].
      destruct (like_one_character c d Hpct Hund Hc128 Hd128) as [E1 E2].
      cbn [codes prefix_nocase]. rewrite <- app_comm_cons.
      cbn [SQL.like_characters].
      rewrite E1, E2, (IH Hq Ha t Ht). reflexivity.
Qed.

Lemma any_tail_codes (f : list N -> bool) (g : string -> bool) (t : string) :
  (forall s, ascii_text s = true -> f (codes s) = g s) ->
  ascii_text t = true ->
  SQL.any_tail f (codes t) = SQL.any_suffix g t.
Proof.
  intros H. induction t as [|c t IH]; intros Ht.
  - pose proof (H EmptyString eq_refl) as E. simpl in *. now rewrite E.
  - cbn [codes SQL.any_tail SQL.any_suffix].
    rewrite <- (H (String c t) Ht).
    apply ascii_text_cons in Ht. now rewrite (IH (proj2 Ht)).
Qed.

(** For a query of ASCII characters without [%] and [_], the pattern
    of [search] is the substring test on every ASCII title. *)
Lemma like_plain_substring (q t : string) :
  no_wildcard q = true -> ascii_text q = true -> ascii_text t = true ->
  SQL.like (String "%" q ++ String "%" EmptyString) t = contains_nocase q t.
Proof.
  intros Hq Ha Ht. unfold SQL.like, contains_nocase.
  rewrite (characters_ascii t Ht), characters_ascii.
  - cbn [append codes]. rewrite codes_app.
    change (codes (String "%" EmptyString)) with [37%N].
    change (N_of_ascii "%") with 37%N.
    cbn [SQL.like_characters N.eqb Pos.eqb].
    apply any_tail_codes; [|exact Ht].
    intros s Hs. now apply like_plain_prefix.
  - cbn [append ascii_text]. rewrite ascii_text_app, Ha. reflexivity.
Qed.

(** The length of the pattern [search] builds. *)
Lemma length_append (a b : string) :
  String.length (a ++ b) = (String.length a + String.length b)%nat.
Proof.
  induction a as [|c a IH]; simpl; [reflexivity | now rewrite IH].
Qed.

Lemma too_complex_length (q : string) :
  SQL.too_complex (String "%" q ++ String "%" EmptyString)
  = (49998 <? Z.of_nat (String.length q)).
Proof.
  unfold SQL.too_complex, SQL.LIKE_PATTERN_LENGTH.
  cbn [append String.length]. rewrite length_append.
  cbn [String.length].
  destruct (Z.ltb_spec 50000 (Z.of_nat (S (String.length q + 1))));
    destruct (Z.ltb_spec 49998 (Z.of_nat (String.length q)));
    try reflexivity; lia.
Qed.

(** *** [ORDER BY created_at DESC] *)

Section OrderByFacts.
Context {A : Type} (key : A -> Z).

Lemma insert_desc_perm (x : A) (l : list A) :
  Permutation (SQL.insert_desc key x l) (x :: l).
Proof.
  induction l as [|y l IH]; simpl; [reflexivity|].
  destruct (key y <=? key x); [reflexivity|].
  rewrite IH. apply perm_swap.
Qed.

Lemma order_by_desc_perm (l : list A) :
  Permutation (SQL.order_by_desc key l) l.
Proof.
  induction l as [|x l IH]; simpl; [reflexivity|].
  rewrite insert_desc_perm. now constructor.
Qed.

Lemma order_by_desc_In (l : list A) (x : A) :
  In x (SQL.order_by_desc key l) <-> In x l.
Proof.
  split; apply Permutation_in;
    [|symmetry]; apply order_by_desc_perm.
Qed.

Lemma insert_desc_sorted (x : A) (l : list A) :
  StronglySorted (fun a b => key b <= key a) l ->
  StronglySorted (fun a b => key b <= key a) (SQL.insert_desc key x l).
Proof.
  induction 1 as [|y l Hs IH Hall]; simpl.
  - constructor; constructor.
  - destruct (key y <=? key x) eqn:E.
    + apply Z.leb_le in E. constructor; [now constructor|].
      constructor; [exact E|].
      eapply Forall_impl; [|exact Hall]. simpl. intros; lia.
    + apply Z.leb_gt in E. constructor; [exact IH|].
      eapply Permutation_Forall;
        [symmetry; apply insert_desc_perm|].
      constructor; [lia | exact Hall].
Qed.

Lemma order_by_desc_sorted (l : list A) :
  StronglySorted (fun a b => key b <= key a) (SQL.order_by_desc key l).
Proof.
  induction l as [|x l IH]; simpl; [constructor|].
  now apply insert_desc_sorted.
Qed.
End OrderByFacts.

(** *** Reading rows back *)

Lemma hydrate_written (r : recipe_row) :
  (exists i s, r_ingredients r = JSON.stringify i
               /\ r_steps r = JSON.stringify s) ->
  exists o, hydrate r = Ok o.
Proof.
  intros (i & s & Ei & Es). unfold hydrate.
  rewrite Ei, Es, !JSON_parse_stringify. simpl. eauto.
Qed.

Lemma hydrate_created_at (r : recipe_row) (o : recipe) :
  hydrate r = Ok o -> o_created_at o = r_created_at r.
Proof.
  unfold hydrate. destruct (JSON_parse (r_ingredients r)); [|discriminate].
  destruct (JSON_parse (r_steps r)); [|discriminate].
  simpl. intros H. now inv H.
Qed.

Lemma mapM_ok {A B} (f : A -> result B) (l : list A) :
  (forall x, In x l -> exists y, f x = Ok y) ->
  exists ys, mapM f l = Ok ys /\ Forall2 (fun x y => f x = Ok y) l ys.
Proof.
  induction l as [|a l IH]; intros H; simpl.
  - exists []. split; [reflexivity | constructor].
  - destruct (H a (or_introl eq_refl)) as [b Hb].
    destruct IH as (ys & Hys & Hall); [intros x Hx; apply H; now right|].
    exists (b :: ys). rewrite Hb, Hys. split; [reflexivity|].
    now constructor.
Qed.

Lemma mapM_In {A B} (f : A -> result B) (l : list A) :
  forall ys, mapM f l = Ok ys ->
  forall y, In y ys <-> exists x, In x l /\ f x = Ok y.
Proof.
  induction l as [|a l IH]; simpl; intros ys H y.
  - inv H. split; [intros [] | intros (x & [] & _)].
  - destruct (f a) as [b|] eqn:Eb; [|discriminate]. simpl in H.
    destruct (mapM f l) as [bs|] eqn:Ebs; [|discriminate]. simpl in H.
    inv H. simpl. rewrite (IH bs eq_refl y). split.
    + intros [<-|(x & Hx & Hy)]; eauto.
    + intros (x & [<-|Hx] & Hy); [left; congruence | eauto].
Qed.

Lemma StronglySorted_Forall2 {A B} (f : A -> result B)
      (P : A -> A -> Prop) (Q : B -> B -> Prop) (l : list A) (l' : list B) :
  (forall x x' y y', f x = Ok y -> f x' = Ok y' -> P x x' -> Q y y') ->
  Forall2 (fun x y => f x = Ok y) l l' ->
  StronglySorted P l -> StronglySorted Q l'.
Proof.
  intros HPQ H2. induction H2 as [|x y l l' Hxy Hall IH]; intros Hs.
  - constructor.
  - inversion Hs as [|? ? Hs' Hfa]; subst. constructor; [now apply IH|].
    clear IH Hs Hs'. induction Hall as [|x' y' l l' Hxy' Hall IH];
      [constructor|].
    inversion Hfa; subst. constructor; eauto.
Qed.

(** [search] runs its SELECT when the pattern is short enough, and
    when the account has no recipe to run [LIKE] on. *)
Lemma search_short (db : Store) (A : Z) (q : string) :
  Z.of_nat (String.length q) <= 49998 ->
  Recipe.search db A q
  = mapM hydrate
      (SQL.order_by_desc r_created_at
         (filter (fun r => (r_user_id r =? A)
                           && SQL.like (String "%" q ++ String "%" EmptyString)
                                       (r_title r))
                 (recipes db))).
Proof.
  intros Hq. unfold Recipe.search. rewrite too_complex_length.
  destruct (Z.ltb_spec 49998 (Z.of_nat (String.length q))); [lia|].
  reflexivity.
Qed.


(** What [search] returns, for a query of at most 49,998 bytes: the
    account's recipes whose title matches the pattern made of the
    query, newest first. *)
Lemma search_spec (db : Store) (A : Z) (q : string) :
  written_by_model db ->
  Z.of_nat (String.length q) <= 49998 ->
  exists rs,
    Recipe.search db A q = Ok rs
    /\ newest_first rs
    /\ forall o, In o rs <->
         exists r, In r (recipes db) /\ r_user_id r = A
                   /\ SQL.like (String "%" q ++ String "%" EmptyString)
                               (r_title r) = true
                   /\ hydrate r = Ok o.
Proof.
  intros W Hq. rewrite (search_short db A q Hq).
  set (p := fun r => (r_user_id r =? A)
                     && SQL.like (String "%" q ++ String "%" EmptyString)
                                 (r_title r)).
  set (rows := SQL.order_by_desc r_created_at (filter p (recipes db))).
  assert (Hrows : forall r, In r rows <-> In r (recipes db) /\ p r = true).
  { intros r. unfold rows. rewrite order_by_desc_In. apply filter_In. }
  destruct (mapM_ok hydrate rows) as (rs & Hrs & Hall).
  { intros r Hr. apply hydrate_written.
    apply (rows_json db W). now apply Hrows. }
  exists rs. split; [exact Hrs|]. split.
  - unfold newest_first.
    eapply StronglySorted_Forall2;
      [|exact Hall | apply (order_by_desc_sorted r_created_at)].
    simpl. intros x x' y y' Hy Hy' Hle.
    now rewrite (hydrate_created_at _ _ Hy), (hydrate_created_at _ _ Hy').
  - intros o. rewrite (mapM_In hydrate rows rs Hrs o). split.
    + intros (r & Hr & Ho). apply Hrows in Hr. destruct Hr as [Hr Hp].
      unfold p in Hp. apply andb_true_iff in Hp. destruct Hp as [Hu Hl].
      apply Z.eqb_eq in Hu. eauto 6.
    + intros (r & Hr & Hu & Hl & Ho). exists r. split; [|exact Ho].
      apply Hrows. split; [exact Hr|]. unfold p.
      apply andb_true_iff. split; [now apply Z.eqb_eq | exact Hl].
Qed.

(** The part of the search contract the code keeps, on ASCII texts:
    for a query with neither [%] nor [_], of at most 49,998
    characters, the result is exactly the account's recipes whose
    title contains the query up to ASCII case, newest first. *)
Lemma search_plain_query (db : Store) (A : Z) (q : string) :
  written_by_model db ->
  (forall r, In r (recipes db) -> ascii_text (r_title r) = true) ->
  no_wildcard q = true -> ascii_text q = true ->
  Z.of_nat (String.length q) <= 49998 ->
  exists rs,
    Recipe.search db A q = Ok rs
    /\ newest_first rs
    /\ forall o, In o rs <->
         exists r, In r (recipes db) /\ r_user_id r = A
                   /\ contains_nocase q (r_title r) = true
                   /\ hydrate r = Ok o.
Proof.
  intros W Ht Hq Ha Hlen.
  destruct (search_spec db A q W Hlen) as (rs & Hrs & Hs & Hin).
  exists rs. split; [exact Hrs|]. split; [exact Hs|].
  intros o. rewrite Hin. split; intros (r & Hr & Hu & Hl & Ho);
    exists r; repeat split; auto.
  - rewrite <- like_plain_substring; auto.
  - rewrite like_plain_substring; auto.
Qed.

(** The empty query applies no filter: [search] is [findByUserId]. *)
Lemma search_empty_query (db : Store) (A : Z) :
  Recipe.search db A EmptyString = Recipe.findByUserId db A.
Proof.
  rewrite search_short by (simpl; lia).
  unfold Recipe.findByUserId. do 2 f_equal.
  apply filter_ext. intros r.
  now rewrite like_empty_query, andb_true_r.
Qed.

(** A query that no title contains, and that has no wildcard, finds
    nothing. *)
Lemma search_no_match (db : Store) (A : Z) (q : string) :
  (forall r, In r (recipes db) -> ascii_text (r_title r) = true) ->
  no_wildcard q = true -> ascii_text q = true ->
  Z.of_nat (String.length q) <= 49998 ->
  (forall r, In r (recipes db) -> contains_nocase q (r_title r) = false) ->
  Recipe.search db A q = Ok [].
Proof.
  intros Ht Hq Ha Hlen Hnone. rewrite (search_short db A q Hlen).
  rewrite (proj2 (filter_nil_iff _ _)); [reflexivity|].
  intros r Hr. rewrite like_plain_substring by auto.
  rewrite (Hnone r Hr). apply andb_false_r.
Qed.

(** C5, where the code departs from it. The query is spliced into the
    [LIKE] pattern as it is, so its [_] and [%] act as wildcards:
    searching Ann's recipes for [_] returns her recipe titled Soup,
    which has no underscore in its title. *)
Theorem search_query_wildcards_match :
  Recipe.search kitchen 1 "_" = Ok [soup]
  /\ contains_nocase "_" (o_title soup) = false
  /\ Recipe.search kitchen 1 "%" = Ok [soup]
  /\ contains_nocase "%" (o_title soup) = false.
Proof.
  repeat split; reflexivity.
Qed.

(* ================================================================= *)
(** ** Favorites *)

Lemma existsb_find {A} (p : A -> bool) (l : list A) :
  existsb p l = match find p l with Some _ => true | None => false end.
Proof.
  induction l as [|a l IH]; simpl; [reflexivity|].
  destruct (p a); [reflexivity | exact IH].
Qed.

Lemma find_filter_negb {A} (p : A -> bool) (l : list A) :
  find p (filter (fun x => negb (p x)) l) = None.
Proof.
  apply find_none_iff. intros x Hx. apply filter_In in Hx.
  destruct Hx as [_ Hx]. now apply negb_true_iff in Hx.
Qed.

Lemma isFavorited_existsb db A rid :
  existsb (is_pair A rid) (favorites db) = Favorite.isFavorited db A rid.
Proof.
  unfold Favorite.isFavorited. apply existsb_find.
Qed.

Lemma has_user_ext db db' u :
  users db' = users db -> has_user db' u = has_user db u.
Proof.
  unfold has_user. now intros ->.
Qed.

Lemma has_recipe_ext db db' id :
  recipes db' = recipes db -> has_recipe db' id = has_recipe db id.
Proof.
  unfold has_recipe. now intros ->.
Qed.

(** [add] on a pair that is not there, with both parents present. *)
Lemma add_new db now A rid :
  Favorite.isFavorited db A rid = false ->
  has_user db A = true -> has_recipe db rid = true ->
  exists db',
    Favorite.add db now A rid = Ok (true, db')
    /\ Favorite.isFavorited db' A rid = true
    /\ favorites db'
       = (favorites db ++ [{| f_id := seq_favorites db + 1; f_user_id := A;
                              f_recipe_id := rid; f_created_at := now |}])%list
    /\ users db' = users db /\ recipes db' = recipes db.
Proof.
  intros Hf Hu Hr. unfold Favorite.add, INSERT_favorites.
  rewrite isFavorited_existsb, Hf, Hu, Hr. simpl.
  eexists. split; [reflexivity|]. simpl. split; [|repeat split].
  unfold Favorite.isFavorited. simpl.
  rewrite find_snoc; [reflexivity| |].
  - apply find_none_iff. unfold Favorite.isFavorited in Hf.
    destruct (find (is_pair A rid) (favorites db)); [discriminate|reflexivity].
  - apply is_pair_true. split; reflexivity.
Qed.

(** [add] on a pair that is there. *)
Lemma add_duplicate db now A rid :
  Favorite.isFavorited db A rid = true ->
  Favorite.add db now A rid = Ok (false, db).
Proof.
  intros Hf. unfold Favorite.add, INSERT_favorites.
  now rewrite isFavorited_existsb, Hf.
Qed.

Lemma remove_spec db A rid :
  exists db',
    Favorite.remove db A rid = Ok (Favorite.isFavorited db A rid, db')
    /\ Favorite.isFavorited db' A rid = false
    /\ users db' = users db /\ recipes db' = recipes db.
Proof.
  unfold Favorite.remove, DELETE_favorites.
  assert (Hn : (0 <? changes (is_pair A rid) (favorites db))
               = Favorite.isFavorited db A rid).
  { unfold Favorite.isFavorited.
    destruct (find (is_pair A rid) (favorites db)) as [f|] eqn:E.
    - apply find_some in E. destruct E as [Hin Hp].
      apply Z.ltb_lt. eapply changes_pos; eauto.
    - rewrite changes_zero; [reflexivity|]. now apply find_none_iff. }
  rewrite Hn. eexists. split; [reflexivity|].
  split; [|split; reflexivity].
  unfold Favorite.isFavorited. simpl. now rewrite find_filter_negb.
Qed.

(** C7. [Favorite.add] returns [true] when the pair was absent and is
    inserted, returns [false] and changes nothing when the pair is
    already there (the unique-constraint error is absorbed), and lets
    every other error through, the foreign-key error of an unknown
    account or recipe among them. *)
Theorem add_absorbs_only_the_duplicate
    (db : Store) (now A : Z) (rid : string) :
  (Favorite.isFavorited db A rid = false ->
   has_user db A = true -> has_recipe db rid = true ->
   exists db',
     Favorite.add db now A rid = Ok (true, db')
     /\ Favorite.isFavorited db' A rid = true
     /\ favorites db'
        = (favorites db ++ [{| f_id := seq_favorites db + 1; f_user_id := A;
                               f_recipe_id := rid; f_created_at := now |}])%list)
  /\ (Favorite.isFavorited db A rid = true ->
      INSERT_favorites db A rid now = Throw SQLITE_CONSTRAINT_UNIQUE
      /\ Favorite.add db now A rid = Ok (false, db))
  /\ (forall error, error <> SQLITE_CONSTRAINT_UNIQUE ->
      Favorite.catch_unique db (Throw error) = Throw error)
  /\ (Favorite.isFavorited db A rid = false ->
      has_user db A && has_recipe db rid = false ->
      Favorite.add db now A rid = Throw SQLITE_CONSTRAINT_FOREIGNKEY).
Proof.
  repeat split.
  - intros Hf Hu Hr.
    destruct (add_new db now A rid Hf Hu Hr) as (db' & H1 & H2 & H3 & _).
    eauto.
  - unfold INSERT_favorites. now rewrite isFavorited_existsb, H.
  - now apply add_duplicate.
  - intros error Hne. destruct error; simpl; congruence.
  - intros Hf Hfk. unfold Favorite.add, INSERT_favorites.
    now rewrite isFavorited_existsb, Hf, Hfk.
Qed.

(** *** The toggle *)

Lemma toggle_when_absent e req A rid w :
  b_recipeId (req_body req) = Some rid -> JS.is_empty rid = false ->
  Favorite.isFavorited (db w) A rid = false ->
  has_user (db w) A = true -> has_recipe (db w) rid = true ->
  exists db',
    toggleFavorite e req A w
    = ({| status := 200;
          json := JFavorited true "Recipe added to favorites" |},
       {| db := db'; session := session w;
          calls := (calls w ++ [Favorite_isFavorited]) ++ [Favorite_add] |})
    /\ Favorite.isFavorited db' A rid = true
    /\ users db' = users (db w) /\ recipes db' = recipes (db w).
Proof.
  intros Hid Hne Hf Hu Hr.
  destruct (add_new (db w) (unixepoch e) A rid Hf Hu Hr)
    as (db' & Hadd & Hf' & _ & Hu' & Hr').
  exists db'. split; [|auto].
  unfold toggleFavorite. rewrite Hid, Hne.
  cbv beta iota delta [try_catch bindC read call res ret bind].
  cbn [db session calls]. rewrite Hf. cbv beta iota.
  cbn [db session calls]. rewrite Hadd. reflexivity.
Qed.

Lemma toggle_when_present e req A rid w :
  b_recipeId (req_body req) = Some rid -> JS.is_empty rid = false ->
  Favorite.isFavorited (db w) A rid = true ->
  exists db',
    toggleFavorite e req A w
    = ({| status := 200;
          json := JFavorited false "Recipe removed from favorites" |},
       {| db := db'; session := session w;
          calls := (calls w ++ [Favorite_isFavorited]) ++ [Favorite_remove] |})
    /\ Favorite.isFavorited db' A rid = false
    /\ users db' = users (db w) /\ recipes db' = recipes (db w).
Proof.
  intros Hid Hne Hf.
  destruct (remove_spec (db w) A rid) as (db' & Hrem & Hf' & Hu' & Hr').
  exists db'. split; [|auto].
  rewrite Hf in Hrem. unfold toggleFavorite. rewrite Hid, Hne.
  cbv beta iota delta [try_catch bindC read call res ret bind].
  cbn [db session calls]. rewrite Hf. cbv beta iota.
  cbn [db session calls]. rewrite Hrem. reflexivity.
Qed.

(** C6. For an account and a recipe that exist, two toggles in a row
    bring the favorited state back: the first answers with the
    flipped flag and stores it, the second answers with the original
    flag and stores that. *)
Theorem toggle_twice_restores
    (e1 e2 : env) (req : request) (A : Z) (rid : string) (w : world) :
  b_recipeId (req_body req) = Some rid ->
  JS.is_empty rid = false ->
  has_user (db w) A = true ->
  has_recipe (db w) rid = true ->
  exists m1 w1 m2 w2,
    toggleFavorite e1 req A w
    = ({| status := 200;
          json := JFavorited (negb (Favorite.isFavorited (db w) A rid)) m1 |},
       w1)
    /\ Favorite.isFavorited (db w1) A rid
       = negb (Favorite.isFavorited (db w) A rid)
    /\ toggleFavorite e2 req A w1
       = ({| status := 200;
             json := JFavorited (Favorite.isFavorited (db w) A rid) m2 |},
          w2)
    /\ Favorite.isFavorited (db w2) A rid = Favorite.isFavorited (db w) A rid.
Proof.
  intros Hid Hne Hu Hr.
  destruct (Favorite.isFavorited (db w) A rid) eqn:Hf.
  - destruct (toggle_when_present e1 req A rid w Hid Hne Hf)
      as (db1 & H1 & Hf1 & Hu1 & Hr1).
    set (w1 := {| db := db1; session := session w;
                  calls := (calls w ++ [Favorite_isFavorited])
                             ++ [Favorite_remove] |}) in *.
    destruct (toggle_when_absent e2 req A rid w1 Hid Hne Hf1)
      as (db2 & H2 & Hf2 & _).
    + simpl. now rewrite (has_user_ext _ _ _ Hu1).
    + simpl. now rewrite (has_recipe_ext _ _ _ Hr1).
    + do 4 eexists. split; [exact H1|]. split; [exact Hf1|].
      split; [exact H2 | exact Hf2].
  - destruct (toggle_when_absent e1 req A rid w Hid Hne Hf Hu Hr)
      as (db1 & H1 & Hf1 & _).
    set (w1 := {| db := db1; session := session w;
                  calls := (calls w ++ [Favorite_isFavorited])
                             ++ [Favorite_add] |}) in *.
    destruct (toggle_when_present e2 req A rid w1 Hid Hne Hf1)
      as (db2 & H2 & Hf2 & _).
    do 4 eexists. split; [exact H1|]. split; [exact Hf1|].
    split; [exact H2 | exact Hf2].
Qed.

(* ================================================================= *)
(** ** Authentication in front of the routers *)

Lemma requireAuth_rejects (next : Z -> handler) (w : world) :
  JS.falsy_number (userId (session w)) = true ->
  requireAuth next w = (authentication_required, w).
Proof.
  intros H. unfold requireAuth. now rewrite H.
Qed.

Lemma requireAuth_passes (next : Z -> handler) (w : world) (uid : Z) :
  userId (session w) = Some uid -> uid <> 0 ->
  requireAuth next w = next uid w.
Proof.
  intros H Hne. unfold requireAuth. rewrite H. simpl.
  apply Z.eqb_neq in Hne. now rewrite Hne.
Qed.

Section Routers.
Context `{Platform}.

(** With a session, the routes do reach the models: the list of the
    account's recipes logs its call. *)
Lemma authenticated_list_reaches_model (e : env) (req : request)
      (w : world) (uid : Z) :
  userId (session w) = Some uid -> uid <> 0 ->
  method req = GET -> path req = [] ->
  calls (snd (recipeRoutes e req w)) = (calls w ++ [Recipe_findByUserId])%list.
Proof.
  intros Hs Hne Hm Hp. unfold recipeRoutes.
  rewrite (requireAuth_passes _ w uid Hs Hne), Hm, Hp.
  unfold getAllRecipes, try_catch, bindC, read, call.
  destruct (Recipe.findByUserId (db w) uid); reflexivity.
Qed.

(** C2. A request to a route of the recipe router or of the favorite
    router, whatever its method, path and body, that comes without
    an account in its session is answered with the 401
    authentication-required error, and the server is left as it
    was: no model method has been invoked (the log of calls is
    unchanged) and the database is untouched. *)
Theorem unauthenticated_request_rejected
    (e : env) (req : request) (w : world) :
  JS.falsy_number (userId (session w)) = true ->
  recipeRoutes e req w = (authentication_required, w)
  /\ favoriteRoutes e req w = (authentication_required, w)
  /\ (forall rest,
        api e (below req ("api" :: "recipes" :: rest)) w
        = (authentication_required, w))
  /\ (forall rest,
        api e (below req ("api" :: "favorites" :: rest)) w
        = (authentication_required, w))
  /\ status authentication_required = 401.
Proof.
  intros Hs. repeat split.
  - now apply requireAuth_rejects.
  - now apply requireAuth_rejects.
  - intros rest. unfold api. simpl. now apply requireAuth_rejects.
  - intros rest. unfold api. simpl. now apply requireAuth_rejects.
Qed.

(* =============================================================== *)
(** ** Login *)

Lemma login_unknown_email (e : env) (req : request) (w : world)
      (email : string) (password : js_value) :
  loginChain (req_body req) = Valid (email, password) ->
  User.findByEmail (db w) email = None ->
  login e req w
  = (invalid_credentials,
     {| db := db w; session := session w;
        calls := calls w ++ [User_findByEmail] |}).
Proof.
  intros Hv Hu. unfold login. rewrite Hv.
  unfold try_catch, bindC, read, call, ret. simpl. rewrite Hu.
  reflexivity.
Qed.

Lemma login_wrong_password (e : env) (req : request) (w : world)
      (email password : string) (u : user_row) :
  loginChain (req_body req) = Valid (email, JString password) ->
  User.findByEmail (db w) email = Some u ->
  bcrypt_compareSync password (u_password_hash u) = false ->
  login e req w
  = (invalid_credentials,
     {| db := db w; session := session w;
        calls := (calls w ++ [User_findByEmail]) ++ [User_verifyPassword] |}).
Proof.
  intros Hv Hu Hp. unfold login. rewrite Hv.
  unfold try_catch, bindC, read, call, ret. simpl. rewrite Hu.
  unfold User.verifyPassword, User.compareSync_of. simpl. rewrite Hp.
  reflexivity.
Qed.

(** A password that is not a string, for the email of an account:
    bcrypt throws and the [catch] of [login] answers 500. *)
Lemma login_password_not_a_string (e : env) (req : request) (w : world)
      (email : string) (password : js_value) (u : user_row) :
  loginChain (req_body req) = Valid (email, password) ->
  not_a_string password ->
  User.findByEmail (db w) email = Some u ->
  login e req w
  = (error500 "Login failed" "An error occurred during login",
     {| db := db w; session := session w;
        calls := (calls w ++ [User_findByEmail]) ++ [User_verifyPassword] |}).
Proof.
  intros Hv Hp Hu. unfold login. rewrite Hv.
  unfold try_catch, bindC, read, call, ret. simpl. rewrite Hu.
  destruct password; try contradiction; reflexivity.
Qed.

(** The part of C8 that the code keeps: when the password is a
    string, an unknown email and a password that does not match get
    the same response, and neither changes the session or the
    database. *)
Lemma login_failures_alike_with_a_text_password
    (e1 e2 : env) (req1 req2 : request) (w1 w2 : world)
    (email1 email2 password2 : string) (password1 : js_value)
    (u : user_row) :
  loginChain (req_body req1) = Valid (email1, password1) ->
  User.findByEmail (db w1) email1 = None ->
  loginChain (req_body req2) = Valid (email2, JString password2) ->
  User.findByEmail (db w2) email2 = Some u ->
  bcrypt_compareSync password2 (u_password_hash u) = false ->
  fst (login e1 req1 w1) = fst (login e2 req2 w2)
  /\ fst (login e1 req1 w1)
     = {| status := 401;
          json := JError "Invalid credentials"
                    (Some "Incorrect email or password") |}
  /\ session (snd (login e1 req1 w1)) = session w1
  /\ session (snd (login e2 req2 w2)) = session w2
  /\ db (snd (login e1 req1 w1)) = db w1
  /\ db (snd (login e2 req2 w2)) = db w2.
Proof.
  intros Hv1 Hu1 Hv2 Hu2 Hp.
  rewrite (login_unknown_email e1 req1 w1 _ _ Hv1 Hu1).
  rewrite (login_wrong_password e2 req2 w2 _ _ u Hv2 Hu2 Hp).
  repeat split.
Qed.

(** C8, where the code departs from it. A password that is not a
    string, a number say, passes the validation of [login], which
    only asks that it is not empty. With such a password the attempt
    fails in two ways that the client can tell apart: for an email
    that no account has the answer is the 401 [Invalid credentials];
    for the email of an account bcrypt throws and the answer is the
    500 [Login failed]. *)
Theorem login_failure_tells_whether_the_account_exists
    (e1 e2 : env) (req1 req2 : request) (w1 w2 : world)
    (email1 email2 : string) (password : js_value) (u : user_row) :
  not_a_string password ->
  loginChain (req_body req1) = Valid (email1, password) ->
  User.findByEmail (db w1) email1 = None ->
  loginChain (req_body req2) = Valid (email2, password) ->
  User.findByEmail (db w2) email2 = Some u ->
  fst (login e1 req1 w1)
  = {| status := 401;
       json := JError "Invalid credentials"
                 (Some "Incorrect email or password") |}
  /\ fst (login e2 req2 w2)
     = {| status := 500;
          json := JError "Login failed"
                    (Some "An error occurred during login") |}
  /\ fst (login e1 req1 w1) <> fst (login e2 req2 w2)
  /\ session (snd (login e1 req1 w1)) = session w1
  /\ session (snd (login e2 req2 w2)) = session w2.
Proof.
  intros Hp Hv1 Hu1 Hv2 Hu2.
  rewrite (login_unknown_email e1 req1 w1 _ _ Hv1 Hu1).
  rewrite (login_password_not_a_string e2 req2 w2 _ _ u Hv2 Hp Hu2).
  repeat split. discriminate.
Qed.
End Routers.

(* ================================================================= *)
(** ** The statements at work on a small database *)

Lemma registered_reachable : reachable registered.
Proof.
  eapply reachable_step.
  - eapply reachable_step; [apply reachable_empty|].
    eapply (step_User_create empty_store "Ann" "ann@x.com" "$2b$10$ann" 100).
    reflexivity.
  - eapply (step_User_create _ "Bob" "bob@x.com" "$2b$10$bob" 101).
    reflexivity.
Qed.

Lemma kitchen_reachable : reachable kitchen.
Proof.
  eapply reachable_step; [apply registered_reachable|].
  eapply (step_Recipe_create registered "r-soup" 110 1 soup_data).
  reflexivity.
Qed.


Lemma findById_other_account_absent_witness :
  integrity (db visitor)
  /\ In soup_row (recipes (db visitor))
  /\ 2 <> r_user_id soup_row
  /\ has_recipe (db visitor) "r-none" = false
  /\ Recipe.findById (db visitor) (r_id soup_row) 2 = Ok None
  /\ Recipe.findById (db visitor) "r-none" 2 = Ok None
  /\ Recipe.findById (db visitor) (r_id soup_row) 2
     = Recipe.findById (db visitor) "r-none" 2
  /\ getRecipeById (r_id soup_row) 2 visitor = getRecipeById "r-none" 2 visitor.
Proof.
  assert (I : integrity (db visitor))
    by exact (reachable_integrity kitchen kitchen_reachable).
  assert (Hin : In soup_row (recipes (db visitor))) by (simpl; auto).
  assert (Hne : 2 <> r_user_id soup_row) by (simpl; lia).
  assert (Hno : has_recipe (db visitor) "r-none" = false) by reflexivity.
  exact (conj I (conj Hin (conj Hne (conj Hno
           (findById_other_account_absent visitor soup_row 2 "r-none"
              I Hin Hne Hno))))).
Defined.

Lemma update_delete_other_account_refused_witness :
  integrity kitchen
  /\ In soup_row (recipes kitchen)
  /\ 2 <> r_user_id soup_row
  /\ Recipe.update kitchen 200 (r_id soup_row) 2 falsy_data
     = Ok (false, kitchen)
  /\ Recipe.delete kitchen (r_id soup_row) 2 = Ok (false, kitchen)
  /\ In soup_row (recipes kitchen).
Proof.
  assert (I : integrity kitchen)
    by exact (reachable_integrity kitchen kitchen_reachable).
  assert (Hin : In soup_row (recipes kitchen)) by (simpl; auto).
  assert (Hne : 2 <> r_user_id soup_row) by (simpl; lia).
  exact (conj I (conj Hin (conj Hne
           (update_delete_other_account_refused kitchen soup_row 2 200
              falsy_data I Hin Hne)))).
Defined.


(** A servings the INTEGER column cannot hold: with a title, [create]
    throws the datatype error, and so does [update] when it finds the
    row. *)
Lemma create_servings_refused db uuid now A d t :
  d_title d = Some t ->
  SQL.integer_column (JS.or_value (d_servings d) (JNumber 2)) = None ->
  Recipe.create db uuid now A d = Throw SQLITE_CONSTRAINT_DATATYPE.
Proof.
  intros Ht Hn. unfold Recipe.create, INSERT_recipes.
  now rewrite Ht, Hn.
Qed.

Lemma update_servings_refused db now id A d t old :
  d_title d = Some t ->
  find (owned_by id A) (recipes db) = Some old ->
  SQL.integer_column (JS.or_value (d_servings d) (JNumber 2)) = None ->
  Recipe.update db now id A d = Throw SQLITE_CONSTRAINT_DATATYPE.
Proof.
  intros Ht Hold Hn. unfold Recipe.update, UPDATE_recipes.
  rewrite Ht, Hn.
  destruct (changes (owned_by id A) (recipes db) =? 0) eqn:E;
    [|reflexivity].
  exfalso. apply Z.eqb_eq in E. unfold changes in E.
  apply find_some in Hold. destruct Hold as [Hin Hown].
  destruct (filter (owned_by id A) (recipes db)) as [|x l] eqn:F.
  - assert (Hf : In old (filter (owned_by id A) (recipes db)))
      by (apply filter_In; auto).
    rewrite F in Hf. contradiction.
  - simpl in E. lia.
Qed.

Example servings_the_column_holds :
  SQL.integer_column (JNumber 4) = Some 4
  /\ SQL.integer_column (JNumber (2 ^ 63 - 1)) = Some (2 ^ 63 - 1)
  /\ SQL.integer_column (JString "0") = Some 0
  /\ SQL.integer_column (JString " 12 ") = Some 12
  /\ SQL.integer_column (JString "-3") = Some (-3)
  /\ SQL.integer_column (JString "2.0") = Some 2
  /\ SQL.integer_column (JString "1e2") = Some 100.
Proof.
  repeat split.
Qed.

Example servings_the_column_refuses :
  SQL.integer_column (JNumber (2 ^ 63)) = None
  /\ SQL.integer_column (JNumber (10 ^ 19)) = None
  /\ SQL.integer_column JNonInteger = None
  /\ SQL.integer_column (JString "four") = None
  /\ SQL.integer_column (JString "2.5") = None
  /\ SQL.integer_column (JString "4 persons") = None
  /\ Recipe.create registered "r-soup" 110 1
       {| d_title := Some "Soup"; d_time := None;
          d_servings := Some (JNumber (10 ^ 19)); d_category := None;
          d_source_url := None; d_image_url := None; d_image_path := None;
          d_ingredients := None; d_steps := None; d_notes := None;
          d_is_scraped := None |}
     = Throw SQLITE_CONSTRAINT_DATATYPE
  /\ Recipe.update kitchen 200 "r-soup" 1
       {| d_title := Some "Soup"; d_time := None;
          d_servings := Some (JString "four"); d_category := None;
          d_source_url := None; d_image_url := None; d_image_path := None;
          d_ingredients := None; d_steps := None; d_notes := None;
          d_is_scraped := None |}
     = Throw SQLITE_CONSTRAINT_DATATYPE.
Proof.
  repeat split.
Qed.

Lemma toggle_twice_restores_witness :
  b_recipeId (req_body toggle_soup) = Some "r-soup"
  /\ JS.is_empty "r-soup" = false
  /\ has_user (db bob_logged_in) 2 = true
  /\ has_recipe (db bob_logged_in) "r-soup" = true
  /\ exists m1 w1 m2 w2,
       toggleFavorite sample_env toggle_soup 2 bob_logged_in
       = ({| status := 200;
             json := JFavorited
                       (negb (Favorite.isFavorited (db bob_logged_in) 2 "r-soup"))
                       m1 |}, w1)
       /\ Favorite.isFavorited (db w1) 2 "r-soup"
          = negb (Favorite.isFavorited (db bob_logged_in) 2 "r-soup")
       /\ toggleFavorite sample_env toggle_soup 2 w1
          = ({| status := 200;
                json := JFavorited
                          (Favorite.isFavorited (db bob_logged_in) 2 "r-soup")
                          m2 |}, w2)
       /\ Favorite.isFavorited (db w2) 2 "r-soup"
          = Favorite.isFavorited (db bob_logged_in) 2 "r-soup".
Proof.
  exact (conj eq_refl (conj eq_refl (conj eq_refl (conj eq_refl
           (toggle_twice_restores sample_env sample_env toggle_soup 2
              "r-soup" bob_logged_in eq_refl eq_refl eq_refl eq_refl))))).
Defined.

Lemma add_absorbs_only_the_duplicate_witness :
  (Favorite.isFavorited kitchen 2 "r-soup" = false
   /\ has_user kitchen 2 = true /\ has_recipe kitchen "r-soup" = true
   /\ exists db',
        Favorite.add kitchen 120 2 "r-soup" = Ok (true, db')
        /\ Favorite.isFavorited db' 2 "r-soup" = true
        /\ favorites db'
           = (favorites kitchen
                ++ [{| f_id := seq_favorites kitchen + 1; f_user_id := 2;
                       f_recipe_id := "r-soup"; f_created_at := 120 |}])%list)
  /\ (Favorite.isFavorited kitchen_with_favorite 2 "r-soup" = true
      /\ INSERT_favorites kitchen_with_favorite 2 "r-soup" 130
         = Throw SQLITE_CONSTRAINT_UNIQUE
      /\ Favorite.add kitchen_with_favorite 130 2 "r-soup"
         = Ok (false, kitchen_with_favorite))
  /\ (SQLITE_BUSY <> SQLITE_CONSTRAINT_UNIQUE
      /\ Favorite.catch_unique kitchen (Throw SQLITE_BUSY) = Throw SQLITE_BUSY)
  /\ (Favorite.isFavorited kitchen 2 "r-none" = false
      /\ has_user kitchen 2 && has_recipe kitchen "r-none" = false
      /\ Favorite.add kitchen 120 2 "r-none"
         = Throw SQLITE_CONSTRAINT_FOREIGNKEY).
Proof.
  assert (Hbusy : SQLITE_BUSY <> SQLITE_CONSTRAINT_UNIQUE) by discriminate.
  split; [|split; [|split]].
  - exact (conj eq_refl (conj eq_refl (conj eq_refl
             (proj1 (add_absorbs_only_the_duplicate kitchen 120 2 "r-soup")
                eq_refl eq_refl eq_refl)))).
  - exact (conj eq_refl
             (proj1 (proj2 (add_absorbs_only_the_duplicate
                              kitchen_with_favorite 130 2 "r-soup"))
                eq_refl)).
  - exact (conj Hbusy
             (proj1 (proj2 (proj2 (add_absorbs_only_the_duplicate
                                     kitchen 120 2 "r-soup")))
                SQLITE_BUSY Hbusy)).
  - exact (conj eq_refl (conj eq_refl
             (proj2 (proj2 (proj2 (add_absorbs_only_the_duplicate
                                     kitchen 120 2 "r-none")))
                eq_refl eq_refl))).
Defined.

Lemma unauthenticated_request_rejected_witness :
  JS.falsy_number (userId (session visitor)) = true
  /\ @recipeRoutes sample_platform sample_env delete_soup visitor
     = (authentication_required, visitor)
  /\ favoriteRoutes sample_env delete_soup visitor
     = (authentication_required, visitor)
  /\ (forall rest,
        @api sample_platform sample_env
          (below delete_soup ("api" :: "recipes" :: rest)) visitor
        = (authentication_required, visitor))
  /\ (forall rest,
        @api sample_platform sample_env
          (below delete_soup ("api" :: "favorites" :: rest)) visitor
        = (authentication_required, visitor))
  /\ status authentication_required = 401.
Proof.
  exact (conj eq_refl
           (@unauthenticated_request_rejected sample_platform sample_env
              delete_soup visitor eq_refl)).
Defined.

Lemma login_failure_tells_whether_the_account_exists_witness :
  not_a_string (JNumber 12345)
  /\ @loginChain sample_platform
    (req_body (credentials_of "zed@x.com" (JNumber 12345)))
  = Valid ("zed@x.com", JNumber 12345)
  /\ User.findByEmail (db visitor) "zed@x.com" = None
  /\ @loginChain sample_platform
       (req_body (credentials_of "ann@x.com" (JNumber 12345)))
     = Valid ("ann@x.com", JNumber 12345)
  /\ User.findByEmail (db visitor) "ann@x.com" = Some ann
  /\ fst (@login sample_platform sample_env
            (credentials_of "zed@x.com" (JNumber 12345)) visitor)
     = {| status := 401;
          json := JError "Invalid credentials"
                    (Some "Incorrect email or password") |}
  /\ fst (@login sample_platform sample_env
            (credentials_of "ann@x.com" (JNumber 12345)) visitor)
     = {| status := 500;
          json := JError "Login failed"
                    (Some "An error occurred during login") |}
  /\ fst (@login sample_platform sample_env
            (credentials_of "zed@x.com" (JNumber 12345)) visitor)
     <> fst (@login sample_platform sample_env
               (credentials_of "ann@x.com" (JNumber 12345)) visitor)
  /\ session (snd (@login sample_platform sample_env
                     (credentials_of "zed@x.com" (JNumber 12345)) visitor))
     = session visitor
  /\ session (snd (@login sample_platform sample_env
                     (credentials_of "ann@x.com" (JNumber 12345)) visitor))
     = session visitor.
Proof.
  exact (conj I (conj eq_refl (conj eq_refl (conj eq_refl (conj eq_refl
           (@login_failure_tells_whether_the_account_exists sample_platform
              sample_env sample_env
              (credentials_of "zed@x.com" (JNumber 12345))
              (credentials_of "ann@x.com" (JNumber 12345))
              visitor visitor "zed@x.com" "ann@x.com" (JNumber 12345) ann
              I eq_refl eq_refl eq_refl eq_refl)))))).
Defined.





(* ################################################################# *)
(** * More of the code *)

(* ================================================================= *)
(** ** The reading methods of the Recipe model *)

Lemma hydrate_columns (r : recipe_row) (o : recipe) :
  hydrate r = Ok o ->
  o_id o = r_id r /\ o_user_id o = r_user_id r /\ o_title o = r_title r
  /\ o_category o = r_category r /\ o_created_at o = r_created_at r.
Proof.
  unfold hydrate. destruct (JSON_parse (r_ingredients r)); [|discriminate].
  destruct (JSON_parse (r_steps r)); [|discriminate].
  simpl. intros H. inv H. simpl. repeat split.
Qed.

(** The rows a SELECT of the model returns come from the table and
    satisfy its WHERE clause. *)
Lemma select_sound (p : recipe_row -> bool) (db : Store) (rs : list recipe) :
  mapM hydrate (SQL.order_by_desc r_created_at (filter p (recipes db)))
  = Ok rs ->
  forall o, In o rs ->
    exists r, In r (recipes db) /\ p r = true /\ hydrate r = Ok o.
Proof.
  intros H o Ho. apply (mapM_In hydrate _ rs H o) in Ho.
  destruct Ho as (r & Hr & Hh). apply order_by_desc_In in Hr.
  apply filter_In in Hr. destruct Hr as [Hr Hp]. eauto.
Qed.

(** On rows the model has written, a SELECT returns, newest first,
    the rows of its WHERE clause and no others. *)
Lemma select_spec (p : recipe_row -> bool) (db : Store) :
  written_by_model db ->
  exists rs,
    mapM hydrate (SQL.order_by_desc r_created_at (filter p (recipes db)))
    = Ok rs
    /\ newest_first rs
    /\ forall o, In o rs <->
         exists r, In r (recipes db) /\ p r = true /\ hydrate r = Ok o.
Proof.
  intros W.
  set (rows := SQL.order_by_desc r_created_at (filter p (recipes db))).
  assert (Hrows : forall r, In r rows <-> In r (recipes db) /\ p r = true).
  { intros r. unfold rows. rewrite order_by_desc_In. apply filter_In. }
  destruct (mapM_ok hydrate rows) as (rs & Hrs & Hall).
  { intros r Hr. apply hydrate_written.
    apply (rows_json db W). now apply Hrows. }
  exists rs. split; [exact Hrs|]. split.
  - unfold newest_first.
    eapply StronglySorted_Forall2;
      [|exact Hall | apply (order_by_desc_sorted r_created_at)].
    simpl. intros x x' y y' Hy Hy' Hle.
    now rewrite (hydrate_created_at _ _ Hy), (hydrate_created_at _ _ Hy').
  - intros o. rewrite (mapM_In hydrate rows rs Hrs o). split.
    + intros (r & Hr & Ho). apply Hrows in Hr. destruct Hr. eauto.
    + intros (r & Hr & Hp & Ho). exists r. split; [|exact Ho].
      apply Hrows. now split.
Qed.

(** X1. On a database whose rows the model has written,
    [findByUserId] returns, newest first, the recipes of the account
    and no others. *)
Theorem findByUserId_lists_the_account
    (db : Store) (A : Z) :
  written_by_model db ->
  exists rs,
    Recipe.findByUserId db A = Ok rs
    /\ newest_first rs
    /\ forall o, In o rs <->
         exists r, In r (recipes db) /\ r_user_id r = A /\ hydrate r = Ok o.
Proof.
  intros W. unfold Recipe.findByUserId.
  destruct (select_spec (fun r => r_user_id r =? A) db W)
    as (rs & Hrs & Hs & Hin).
  exists rs. split; [exact Hrs|]. split; [exact Hs|].
  intros o. rewrite Hin.
  split; intros (r & Hr & Hp & Ho); exists r; repeat split; auto;
    now apply Z.eqb_eq.
Qed.

(** X2. Whatever the database holds, the four reading methods of the
    Recipe model return recipes of the account they are called for
    and of no other: [findById] the recipe with the id asked for,
    [findByCategory] recipes of the category asked for. *)
Theorem recipe_reads_stay_in_the_account (db : Store) (A : Z) :
  (forall id o, Recipe.findById db id A = Ok (Some o) ->
     o_id o = id /\ o_user_id o = A)
  /\ (forall rs, Recipe.findByUserId db A = Ok rs ->
        forall o, In o rs -> o_user_id o = A)
  /\ (forall q rs, Recipe.search db A q = Ok rs ->
        forall o, In o rs -> o_user_id o = A)
  /\ (forall c rs, Recipe.findByCategory db A c = Ok rs ->
        forall o, In o rs -> o_user_id o = A /\ o_category o = Some c).
Proof.
  split; [|split; [|split]].
  - intros id o H. unfold Recipe.findById in H.
    destruct (find (owned_by id A) (recipes db)) as [r|] eqn:E;
      [|discriminate].
    apply find_some in E. destruct E as [_ E]. apply owned_by_true in E.
    destruct (hydrate r) as [o'|] eqn:Eh; [|discriminate].
    simpl in H. inv H. destruct (hydrate_columns r o Eh) as (-> & -> & _).
    exact E.
  - intros rs H o Ho.
    destruct (select_sound _ db rs H o Ho) as (r & _ & Hp & Hh).
    apply Z.eqb_eq in Hp.
    destruct (hydrate_columns r o Hh) as (_ & -> & _). exact Hp.
  - intros q rs H o Ho. unfold Recipe.search in H.
    destruct (SQL.too_complex _ && existsb _ (recipes db));
      [discriminate|].
    destruct (select_sound _ db rs H o Ho) as (r & _ & Hp & Hh).
    apply andb_true_iff in Hp. destruct Hp as [Hp _].
    apply Z.eqb_eq in Hp.
    destruct (hydrate_columns r o Hh) as (_ & -> & _). exact Hp.
  - intros c rs H o Ho.
    destruct (select_sound _ db rs H o Ho) as (r & _ & Hp & Hh).
    apply andb_true_iff in Hp. destruct Hp as [Hp Hc].
    apply Z.eqb_eq in Hp.
    destruct (hydrate_columns r o Hh) as (_ & -> & _ & -> & _).
    split; [exact Hp|].
    destruct (r_category r) as [c'|]; [|discriminate].
    apply String.eqb_eq in Hc. now subst.
Qed.

(** X3. On a database whose rows the model has written,
    [findByCategory] returns, newest first, the recipes of the
    account whose category is exactly the one asked for (the
    comparison is case sensitive and a recipe without category never
    matches), and no others. *)
Theorem findByCategory_matches_exactly
    (db : Store) (A : Z) (c : string) :
  written_by_model db ->
  exists rs,
    Recipe.findByCategory db A c = Ok rs
    /\ newest_first rs
    /\ forall o, In o rs <->
         exists r, In r (recipes db) /\ r_user_id r = A
                   /\ r_category r = Some c /\ hydrate r = Ok o.
Proof.
  intros W. unfold Recipe.findByCategory.
  match goal with
  | |- context [filter ?p (recipes db)] =>
      destruct (select_spec p db W) as (rs & Hrs & Hs & Hin)
  end.
  exists rs. split; [exact Hrs|]. split; [exact Hs|].
  intros o. rewrite Hin. clear Hin Hrs.
  split.
  - intros (r & Hr & Hp & Ho). exists r.
    apply andb_true_iff in Hp. destruct Hp as [Hu Hc].
    apply Z.eqb_eq in Hu. destruct (r_category r) as [c'|]; [|discriminate].
    apply String.eqb_eq in Hc. subst. auto.
  - intros (r & Hr & Hu & Hc & Ho). exists r. repeat split; auto.
    rewrite Hc. apply andb_true_iff.
    split; [now apply Z.eqb_eq | apply String.eqb_refl].
Qed.


Lemma getFavoriteRecipes_returns (db : Store) (A : Z) :
  written_by_model db -> exists rs, Favorite.getFavoriteRecipes db A = Ok rs.
Proof.
  intros W. unfold Favorite.getFavoriteRecipes.
  match goal with
  | |- exists rs, mapM hydrate ?l = Ok rs =>
      destruct (mapM_ok hydrate l) as (rs & Hrs & _); [|eauto]
  end.
  intros r Hr. apply in_flat_map in Hr. destruct Hr as (f & _ & Hr).
  apply filter_In in Hr. destruct Hr as [Hr _].
  apply hydrate_written. exact (rows_json db W r Hr).
Qed.


(* ================================================================= *)
(** ** Deleting a recipe *)

Lemma owned_iff_same_row (db : Store) (r r' : recipe_row) :
  NoDup (map r_id (recipes db)) ->
  In r (recipes db) -> In r' (recipes db) ->
  (owned_by (r_id r) (r_user_id r) r' = true <-> r' = r).
Proof.
  intros Hpk Hr Hr'. rewrite owned_by_true. split.
  - intros [Hid _]. eapply key_identifies; eauto.
  - intros ->. split; reflexivity.
Qed.

Lemma find_filter_compat {A} (p q : A -> bool) (l : list A) :
  (forall x, p x = true -> q x = true) ->
  find p (filter q l) = find p l.
Proof.
  intros H. induction l as [|a l IH]; simpl; [reflexivity|].
  destruct (q a) eqn:Eq; simpl.
  - destruct (p a); [reflexivity | exact IH].
  - destruct (p a) eqn:Ep; [|exact IH].
    rewrite (H a Ep) in Eq. discriminate.
Qed.

(** The database after the owner's [delete]. *)
Lemma delete_own (db : Store) (r : recipe_row) :
  In r (recipes db) ->
  Recipe.delete db (r_id r) (r_user_id r)
  = Ok (true,
        {| users := users db;
           recipes := filter (fun x => negb (owned_by (r_id r) (r_user_id r) x))
                             (recipes db);
           favorites := filter (fun f => negb (f_recipe_id f =? r_id r)%string)
                               (favorites db);
           seq_users := seq_users db;
           seq_favorites := seq_favorites db |}).
Proof.
  intros Hr. unfold Recipe.delete, DELETE_recipes.
  assert (Hn : 0 < changes (owned_by (r_id r) (r_user_id r)) (recipes db)).
  { apply (changes_pos _ _ r Hr). apply owned_by_true. split; reflexivity. }
  destruct (changes (owned_by (r_id r) (r_user_id r)) (recipes db) =? 0) eqn:E.
  - apply Z.eqb_eq in E. lia.
  - apply Z.ltb_lt in Hn. now rewrite Hn.
Qed.

(** X5. When its owner deletes a recipe, [delete] returns [true]; the
    recipe is then absent for every account, every other recipe is
    still there, and a second [delete] returns [false] and changes
    nothing. *)
Theorem delete_removes_exactly_the_recipe (db : Store) (r : recipe_row) :
  integrity db ->
  In r (recipes db) ->
  exists db',
    Recipe.delete db (r_id r) (r_user_id r) = Ok (true, db')
    /\ (forall B, Recipe.findById db' (r_id r) B = Ok None)
    /\ (forall r', In r' (recipes db') <-> In r' (recipes db) /\ r' <> r)
    /\ users db' = users db
    /\ Recipe.delete db' (r_id r) (r_user_id r) = Ok (false, db').
Proof.
  intros I Hr. eexists. split; [exact (delete_own db r Hr)|].
  assert (Hmem : forall r',
            In r' (filter (fun x => negb (owned_by (r_id r) (r_user_id r) x))
                          (recipes db))
            <-> In r' (recipes db) /\ r' <> r).
  { intros r'. rewrite filter_In, negb_true_iff. split.
    - intros [Hin Hno]. split; [exact Hin|]. intros ->.
      rewrite (proj2 (owned_iff_same_row db r r (pk_recipes db I) Hr Hr)
                     eq_refl) in Hno.
      discriminate.
    - intros [Hin Hne]. split; [exact Hin|].
      destruct (owned_by (r_id r) (r_user_id r) r') eqn:E; [|reflexivity].
      apply (owned_iff_same_row db r r' (pk_recipes db I) Hr Hin) in E.
      contradiction. }
  assert (Hgone : forall B r',
            In r' (filter (fun x => negb (owned_by (r_id r) (r_user_id r) x))
                          (recipes db)) ->
            owned_by (r_id r) B r' = false).
  { intros B r' Hin. apply Hmem in Hin. destruct Hin as [Hin Hne].
    destruct (owned_by (r_id r) B r') eqn:E; [|reflexivity].
    apply owned_by_true in E. destruct E as [Hid _].
    exfalso. apply Hne.
    exact (key_identifies r_id _ (pk_recipes db I) r' r Hin Hr Hid). }
  split; [|split; [|split]].
  - intros B. apply findById_unmatched. simpl. apply Hgone.
  - exact Hmem.
  - reflexivity.
  - apply delete_unmatched. simpl. apply Hgone.
Qed.

(** X6. The owner's [delete] takes the recipe out of everybody's
    favorites (the cascade of the schema) and leaves the favorites of
    the other recipes as they were. *)
Theorem delete_cascades_to_favorites (db : Store) (r : recipe_row) :
  In r (recipes db) ->
  exists db',
    Recipe.delete db (r_id r) (r_user_id r) = Ok (true, db')
    /\ (forall u, Favorite.isFavorited db' u (r_id r) = false)
    /\ (forall u rid, rid <> r_id r ->
          Favorite.isFavorited db' u rid = Favorite.isFavorited db u rid)
    /\ (forall u, ~ In (r_id r) (Favorite.getFavoriteIds db' u)).
Proof.
  intros Hr. eexists. split; [exact (delete_own db r Hr)|].
  split; [|split].
  - intros u. unfold Favorite.isFavorited. simpl.
    rewrite (proj2 (find_none_iff _ _)); [reflexivity|].
    intros f Hf. apply filter_In in Hf. destruct Hf as [_ Hne].
    apply negb_true_iff in Hne. unfold is_pair. rewrite Hne.
    apply andb_false_r.
  - intros u rid Hne. unfold Favorite.isFavorited. simpl.
    rewrite find_filter_compat; [reflexivity|].
    intros f Hp. apply is_pair_true in Hp. destruct Hp as [_ Hp].
    apply negb_true_iff. apply String.eqb_neq. congruence.
  - intros u Hin. unfold Favorite.getFavoriteIds in Hin. simpl in Hin.
    apply in_map_iff in Hin. destruct Hin as (f & Hid & Hf).
    apply order_by_desc_In in Hf. apply filter_In in Hf.
    destruct Hf as [Hf _]. apply filter_In in Hf. destruct Hf as [_ Hne].
    apply negb_true_iff in Hne. apply String.eqb_neq in Hne. congruence.
Qed.

(* ================================================================= *)
(** ** What [create] and [update] leave alone *)

Lemma find_snoc_miss {A} (p : A -> bool) (l : list A) (y : A) :
  p y = false -> find p (l ++ [y]) = find p l.
Proof.
  intros Hy. induction l as [|a l IH]; simpl.
  - now rewrite Hy.
  - destruct (p a); [reflexivity | exact IH].
Qed.

Lemma filter_snoc_miss {A} (p : A -> bool) (l : list A) (y : A) :
  p y = false -> filter p (l ++ [y]) = filter p l.
Proof.
  intros Hy. rewrite filter_app. simpl. rewrite Hy. apply app_nil_r.
Qed.

(** The database after a successful [create]. *)
Lemma create_shape db uuid now A d id db' :
  Recipe.create db uuid now A d = Ok (id, db') ->
  id = uuid
  /\ d_title d <> None /\ has_recipe db uuid = false /\ has_user db A = true
  /\ exists row,
       db' = set_recipes db (recipes db ++ [row])
       /\ r_id row = uuid /\ r_user_id row = A.
Proof.
  unfold Recipe.create, INSERT_recipes. intros H.
  destruct (d_title d) as [t|]; [|discriminate].
  destruct (SQL.integer_column _) as [n|]; [|discriminate].
  destruct (has_recipe db uuid); [discriminate|].
  destruct (has_user db A); [|discriminate].
  simpl in H. inv H. repeat split; try discriminate.
  eexists. split; [reflexivity|]. split; reflexivity.
Qed.

(** [create] succeeds exactly when the data has a title, the servings
    it binds is one the INTEGER column takes, the generated id is not
    taken and the account exists; it then returns the generated id. *)
Lemma create_succeeds_exactly_when
    (db : Store) (uuid : string) (now A : Z) (d : RecipeData) :
  ((exists id db', Recipe.create db uuid now A d = Ok (id, db'))
   <-> d_title d <> None
       /\ SQL.integer_column (JS.or_value (d_servings d) (JNumber 2)) <> None
       /\ has_recipe db uuid = false
       /\ has_user db A = true)
  /\ (forall id db', Recipe.create db uuid now A d = Ok (id, db') ->
        id = uuid).
Proof.
  split.
  - split.
    + intros (id & db' & H). pose proof (create_shape _ _ _ _ _ _ _ H) as S.
      destruct (create_inserts _ _ _ _ _ _ _ H) as (n & _ & Hn & _).
      rewrite Hn. repeat split; try tauto. discriminate.
    + intros (Ht & Hs & Hfresh & Hu). unfold Recipe.create, INSERT_recipes.
      destruct (d_title d) as [t|]; [|congruence].
      destruct (SQL.integer_column _) as [n|]; [|congruence].
      rewrite Hfresh, Hu. simpl. eauto.
  - intros id db' H. apply create_shape in H. tauto.
Qed.

(** X7. A successful [create] adds one recipe and touches nothing
    else: accounts and favorites are unchanged, every other id reads
    as before, and the list of every other account is what it was. *)
Theorem create_leaves_the_rest
    (db : Store) (uuid : string) (now A : Z) (d : RecipeData)
    (id : string) (db' : Store) :
  Recipe.create db uuid now A d = Ok (id, db') ->
  users db' = users db
  /\ favorites db' = favorites db
  /\ (forall id' B, id' <> id ->
        Recipe.findById db' id' B = Recipe.findById db id' B)
  /\ (forall B, B <> A ->
        Recipe.findByUserId db' B = Recipe.findByUserId db B)
  /\ List.length (recipes db') = S (List.length (recipes db)).
Proof.
  intros H. apply create_shape in H.
  destruct H as (-> & _ & _ & _ & row & -> & Hid & Hu).
  split; [reflexivity|]. split; [reflexivity|].
  split; [|split].
  - intros id' B Hne. unfold Recipe.findById. simpl.
    rewrite find_snoc_miss; [reflexivity|].
    unfold owned_by. rewrite Hid.
    destruct (String.eqb_spec uuid id'); [congruence | reflexivity].
  - intros B Hne. unfold Recipe.findByUserId. simpl.
    rewrite filter_snoc_miss; [reflexivity|].
    rewrite Hu. now apply Z.eqb_neq.
  - simpl. rewrite length_app. simpl. lia.
Qed.



Lemma find_map_untouched {A} (p q : A -> bool) (g : A -> A) (l : list A) :
  (forall x, q x = true -> p x = false /\ p (g x) = false) ->
  find p (map (fun x => if q x then g x else x) l) = find p l.
Proof.
  intros H. induction l as [|a l IH]; simpl; [reflexivity|].
  destruct (q a) eqn:Eq.
  - destruct (H a Eq) as [E1 E2]. now rewrite E1, E2.
  - destruct (p a); [reflexivity | exact IH].
Qed.

Lemma filter_map_untouched {A} (p q : A -> bool) (g : A -> A) (l : list A) :
  (forall x, q x = true -> p x = false /\ p (g x) = false) ->
  filter p (map (fun x => if q x then g x else x) l) = filter p l.
Proof.
  intros H. induction l as [|a l IH]; simpl; [reflexivity|].
  destruct (q a) eqn:Eq.
  - destruct (H a Eq) as [E1 E2]. now rewrite E1, E2.
  - destruct (p a); [now rewrite IH | exact IH].
Qed.

(** The database after an [update], whatever it returns. *)
Lemma update_shape db now id A d b db' :
  Recipe.update db now id A d = Ok (b, db') ->
  db' = db
  \/ exists g,
       (forall r, r_id (g r) = r_id r /\ r_user_id (g r) = r_user_id r
                  /\ r_created_at (g r) = r_created_at r)
       /\ db' = set_recipes db
                  (map (fun r => if owned_by id A r then g r else r)
                       (recipes db)).
Proof.
  unfold Recipe.update, UPDATE_recipes. intros H.
  destruct (changes (owned_by id A) (recipes db) =? 0);
    [simpl in H; inv H; now left|].
  destruct (d_title d) as [t|]; [|discriminate].
  destruct (SQL.integer_column _) as [n|]; [|discriminate].
  simpl in H. inv H. right. eexists. split; [|reflexivity].
  intros r. simpl. repeat split.
Qed.

(** X9. Whatever [update] returns, it adds and removes no recipe and
    touches no account and no favorite; every other id reads as
    before, and so does everything another account reads. *)
Theorem update_leaves_the_rest
    (db : Store) (now : Z) (id : string) (A : Z) (d : RecipeData)
    (b : bool) (db' : Store) :
  Recipe.update db now id A d = Ok (b, db') ->
  users db' = users db
  /\ favorites db' = favorites db
  /\ map r_id (recipes db') = map r_id (recipes db)
  /\ (forall id' B, id' <> id ->
        Recipe.findById db' id' B = Recipe.findById db id' B)
  /\ (forall B, B <> A ->
        Recipe.findByUserId db' B = Recipe.findByUserId db B
        /\ forall id', Recipe.findById db' id' B = Recipe.findById db id' B).
Proof.
  intros H. destruct (update_shape _ _ _ _ _ _ _ H) as [->|(g & Hg & ->)].
  - repeat split.
  - assert (Hmiss : forall id' B, id' <> id \/ B <> A ->
              forall x, owned_by id A x = true ->
                owned_by id' B x = false /\ owned_by id' B (g x) = false).
    { intros id' B Hne x Hx. apply owned_by_true in Hx.
      destruct Hx as [Hxi Hxu]. destruct (Hg x) as (Hgi & Hgu & _).
      unfold owned_by. rewrite Hgi, Hgu, Hxi, Hxu.
      destruct Hne as [Hne|Hne].
      - destruct (String.eqb_spec id id'); [congruence | now split].
      - apply not_eq_sym in Hne. apply Z.eqb_neq in Hne. rewrite Hne.
        now rewrite andb_false_r. }
    split; [reflexivity|]. split; [reflexivity|]. split; [|split].
    + simpl. rewrite map_map. apply map_ext. intros r.
      destruct (owned_by id A r); [apply Hg | reflexivity].
    + intros id' B Hne. unfold Recipe.findById. simpl.
      rewrite find_map_untouched; [reflexivity|]. apply Hmiss. now left.
    + intros B Hne. split.
      * unfold Recipe.findByUserId. simpl.
        rewrite filter_map_untouched; [reflexivity|].
        intros x Hx. apply owned_by_true in Hx. destruct Hx as [_ Hxu].
        destruct (Hg x) as (_ & Hgu & _). rewrite Hgu, Hxu.
        apply not_eq_sym in Hne. apply Z.eqb_neq in Hne. now rewrite Hne.
      * intros id'. unfold Recipe.findById. simpl.
        rewrite find_map_untouched; [reflexivity|]. apply Hmiss. now right.
Qed.

Section OrderByMap.
Context {A : Type} (key : A -> Z) (f : A -> A).
Hypothesis key_kept : forall x, key (f x) = key x.

Lemma insert_desc_map (x : A) (l : list A) :
  SQL.insert_desc key (f x) (map f l) = map f (SQL.insert_desc key x l).
Proof.
  induction l as [|y l IH]; simpl; [reflexivity|].
  rewrite !key_kept. destruct (key y <=? key x); simpl; [reflexivity|].
  now rewrite IH.
Qed.

Lemma order_by_desc_map (l : list A) :
  SQL.order_by_desc key (map f l) = map f (SQL.order_by_desc key l).
Proof.
  induction l as [|x l IH]; [reflexivity|].
  change (SQL.insert_desc key (f x) (SQL.order_by_desc key (map f l))
          = map f (SQL.insert_desc key x (SQL.order_by_desc key l))).
  rewrite IH. apply insert_desc_map.
Qed.
End OrderByMap.

Lemma filter_map_kept {A} (p : A -> bool) (f : A -> A) (l : list A) :
  (forall x, p (f x) = p x) -> filter p (map f l) = map f (filter p l).
Proof.
  intros H. induction l as [|a l IH]; simpl; [reflexivity|].
  rewrite H. destruct (p a); simpl; now rewrite IH.
Qed.

Lemma mapM_hydrate_ids (l : list recipe_row) :
  forall rs, mapM hydrate l = Ok rs ->
    map o_id rs = map r_id l
    /\ map o_created_at rs = map r_created_at l.
Proof.
  induction l as [|a l IH]; simpl; intros rs H.
  - inv H. split; reflexivity.
  - destruct (hydrate a) as [o|] eqn:Eo; [|discriminate]. simpl in H.
    destruct (mapM hydrate l) as [os|] eqn:Eos; [|discriminate]. simpl in H.
    inv H. destruct (IH os eq_refl) as [H1 H2].
    destruct (hydrate_columns a o Eo) as (Hi & _ & _ & _ & Hc).
    simpl. now rewrite H1, H2, Hi, Hc.
Qed.

(** X10. An update does not move a recipe in its owner's list: on a
    database whose rows the model has written, [findByUserId] returns
    the same ids with the same creation timestamps, in the same
    order, before and after a successful [update]. *)
Theorem update_keeps_the_list_order
    (db : Store) (now : Z) (id : string) (A : Z) (d : RecipeData)
    (db' : Store) :
  written_by_model db ->
  Recipe.update db now id A d = Ok (true, db') ->
  exists rs rs',
    Recipe.findByUserId db A = Ok rs
    /\ Recipe.findByUserId db' A = Ok rs'
    /\ map o_id rs' = map o_id rs
    /\ map o_created_at rs' = map o_created_at rs.
Proof.
  intros W H.
  pose proof (update_written _ _ _ _ _ _ _ H W) as W'.
  unfold Recipe.findByUserId.
  destruct (select_spec (fun r => r_user_id r =? A) db W) as (rs & Hrs & _).
  destruct (select_spec (fun r => r_user_id r =? A) db' W')
    as (rs' & Hrs' & _).
  exists rs, rs'. split; [exact Hrs|]. split; [exact Hrs'|].
  destruct (mapM_hydrate_ids _ rs Hrs) as [Hi Hc].
  destruct (mapM_hydrate_ids _ rs' Hrs') as [Hi' Hc'].
  rewrite Hi, Hc, Hi', Hc'.
  destruct (update_shape _ _ _ _ _ _ _ H) as [->|(g & Hg & ->)];
    [split; reflexivity|].
  simpl. set (upd := fun r => if owned_by id A r then g r else r).
  assert (Hupd : forall r, r_id (upd r) = r_id r
                           /\ r_user_id (upd r) = r_user_id r
                           /\ r_created_at (upd r) = r_created_at r).
  { intros r. unfold upd. destruct (owned_by id A r); [apply Hg|].
    repeat split. }
  rewrite (filter_map_kept (fun r => r_user_id r =? A) upd).
  - rewrite (order_by_desc_map r_created_at upd).
    + rewrite !map_map. split; apply map_ext; intros r; apply Hupd.
    + intros r. apply Hupd.
  - intros r. destruct (Hupd r) as (_ & -> & _). reflexivity.
Qed.

(* ================================================================= *)
(** ** The Favorite model *)

Lemma is_pair_other (u : Z) (rid : string) (A : Z) (rid' : string)
      (f : favorite_row) :
  (u, rid) <> (A, rid') ->
  is_pair u rid f = true -> is_pair A rid' f = false.
Proof.
  intros Hne Hp. apply is_pair_true in Hp. destruct Hp as [Hu Hr].
  destruct (is_pair A rid' f) eqn:E; [|reflexivity].
  apply is_pair_true in E. destruct E as [Hu' Hr'].
  exfalso. apply Hne. congruence.
Qed.

(** X11. [remove] returns whether the pair was there; afterwards the
    pair is not a favorite, and every other pair, every recipe and
    every account is as before. *)
Theorem remove_takes_out_one_pair (db : Store) (A : Z) (rid : string) :
  exists db',
    Favorite.remove db A rid = Ok (Favorite.isFavorited db A rid, db')
    /\ Favorite.isFavorited db' A rid = false
    /\ (forall u rid', (u, rid') <> (A, rid) ->
          Favorite.isFavorited db' u rid' = Favorite.isFavorited db u rid')
    /\ users db' = users db /\ recipes db' = recipes db.
Proof.
  destruct (remove_spec db A rid) as (db' & H & Hf & Hu & Hr).
  exists db'. split; [exact H|]. split; [exact Hf|].
  split; [|split; assumption].
  intros u rid' Hne.
  unfold Favorite.remove, DELETE_favorites in H. inv H.
  unfold Favorite.isFavorited. simpl.
  rewrite find_filter_compat; [reflexivity|].
  intros f Hp. apply negb_true_iff. eapply is_pair_other; eauto.
Qed.

(** X12. Whatever [add] returns, the pair is a favorite afterwards and
    every other pair, every recipe and every account is as before;
    when it returns [false] the database is unchanged. The recipe
    need not belong to the account. *)
Theorem add_puts_in_one_pair
    (db : Store) (now A : Z) (rid : string) (b : bool) (db' : Store) :
  Favorite.add db now A rid = Ok (b, db') ->
  Favorite.isFavorited db' A rid = true
  /\ (forall u rid', (u, rid') <> (A, rid) ->
        Favorite.isFavorited db' u rid' = Favorite.isFavorited db u rid')
  /\ users db' = users db /\ recipes db' = recipes db
  /\ (b = false -> db' = db)
  /\ (b = true -> Favorite.isFavorited db A rid = false).
Proof.
  unfold Favorite.add, INSERT_favorites. rewrite isFavorited_existsb.
  destruct (Favorite.isFavorited db A rid) eqn:Hf; simpl.
  - intros H. inv H. repeat split; auto.
  - destruct (has_user db A && has_recipe db rid); simpl; [|discriminate].
    intros H. inv H.
    split; [|split; [|split; [|split; [|split]]]];
      try reflexivity; try discriminate.
    + unfold Favorite.isFavorited. simpl. rewrite find_snoc; [reflexivity| |].
      * apply find_none_iff. unfold Favorite.isFavorited in Hf.
        destruct (find (is_pair A rid) (favorites db));
          [discriminate | reflexivity].
      * apply is_pair_true. split; reflexivity.
    + intros u rid' Hne. unfold Favorite.isFavorited. simpl.
      rewrite find_snoc_miss; [reflexivity|].
      destruct (is_pair u rid' _) eqn:E; [|reflexivity].
      apply is_pair_true in E. simpl in E. destruct E as [<- <-].
      exfalso. now apply Hne.
Qed.

Lemma getFavoriteIds_In (db : Store) (A : Z) (rid : string) :
  In rid (Favorite.getFavoriteIds db A) <-> Favorite.isFavorited db A rid = true.
Proof.
  unfold Favorite.getFavoriteIds. rewrite <- isFavorited_existsb.
  rewrite in_map_iff, existsb_exists. split.
  - intros (f & Hid & Hf). apply order_by_desc_In in Hf.
    apply filter_In in Hf. destruct Hf as [Hf Hu]. exists f.
    split; [exact Hf|]. apply is_pair_true. apply Z.eqb_eq in Hu. now split.
  - intros (f & Hf & Hp). apply is_pair_true in Hp. destruct Hp as [Hu Hr].
    exists f. split; [exact Hr|]. apply order_by_desc_In.
    apply filter_In. split; [exact Hf | now apply Z.eqb_eq].
Qed.

Lemma NoDup_recipe_ids_of_user (A : Z) (l : list favorite_row) :
  NoDup (map (fun f => (f_user_id f, f_recipe_id f)) l) ->
  NoDup (map f_recipe_id (filter (fun f => f_user_id f =? A) l)).
Proof.
  induction l as [|a l IH]; simpl; intros H; [constructor|].
  inversion H as [|? ? Hnotin Hnd]; subst.
  destruct (f_user_id a =? A) eqn:Ea; simpl; [|now apply IH].
  constructor; [|now apply IH].
  intros Hin. apply Hnotin. apply in_map_iff in Hin.
  destruct Hin as (f & Hid & Hf). apply filter_In in Hf.
  destruct Hf as [Hf Hu]. apply in_map_iff. exists f.
  split; [|exact Hf]. apply Z.eqb_eq in Ea, Hu. congruence.
Qed.

(** X13. [getFavoriteIds] returns the ids the account has among its
    favorites, those for which [isFavorited] holds, and under the
    schema's unique constraint each of them once. *)
Theorem getFavoriteIds_are_the_favorites (db : Store) (A : Z) :
  (forall rid, In rid (Favorite.getFavoriteIds db A)
               <-> Favorite.isFavorited db A rid = true)
  /\ (integrity db -> NoDup (Favorite.getFavoriteIds db A)).
Proof.
  split; [intros rid; apply getFavoriteIds_In|].
  intros I. unfold Favorite.getFavoriteIds.
  eapply Permutation_NoDup.
  - apply Permutation_map. symmetry. apply order_by_desc_perm.
  - apply NoDup_recipe_ids_of_user. exact (uq_favorites db I).
Qed.

Lemma filter_key_singleton (l : list recipe_row) (r : recipe_row) :
  NoDup (map r_id l) -> In r l ->
  filter (fun x => (r_id x =? r_id r)%string) l = [r].
Proof.
  induction l as [|a l IH]; intros Hnd Hin; [destruct Hin|].
  simpl in Hnd. inversion Hnd as [|? ? Hnotin Hnd']; subst.
  simpl. destruct Hin as [->|Hin].
  - rewrite String.eqb_refl. f_equal. apply filter_nil_iff.
    intros x Hx. apply String.eqb_neq. intros E. apply Hnotin.
    rewrite <- E. now apply in_map.
  - destruct (String.eqb_spec (r_id a) (r_id r)) as [E|E].
    + exfalso. apply Hnotin. rewrite E. now apply in_map.
    + now apply IH.
Qed.

Lemma join_ids (db : Store) (fs : list favorite_row) :
  NoDup (map r_id (recipes db)) ->
  (forall f, In f fs -> has_recipe db (f_recipe_id f) = true) ->
  map r_id
      (flat_map (fun f => filter (fun r => (r_id r =? f_recipe_id f)%string)
                                 (recipes db)) fs)
  = map f_recipe_id fs.
Proof.
  intros Hpk. induction fs as [|f fs IH]; intros Hfk; [reflexivity|].
  simpl. rewrite map_app, IH by (intros g Hg; apply Hfk; now right).
  destruct (proj1 (has_recipe_true db _) (Hfk f (or_introl eq_refl)))
    as (r & Hr & Hid).
  rewrite <- Hid, (filter_key_singleton _ r Hpk Hr). reflexivity.
Qed.

(** X14. Under the schema's constraints and on rows the model has
    written, [getFavoriteRecipes] returns one recipe for each id of
    [getFavoriteIds], in the same order. *)
Theorem getFavoriteRecipes_follow_the_ids (db : Store) (A : Z) :
  integrity db ->
  written_by_model db ->
  exists rs,
    Favorite.getFavoriteRecipes db A = Ok rs
    /\ map o_id rs = Favorite.getFavoriteIds db A.
Proof.
  intros I W. destruct (getFavoriteRecipes_returns db A W) as (rs & Hrs).
  exists rs. split; [exact Hrs|].
  unfold Favorite.getFavoriteRecipes in Hrs.
  destruct (mapM_hydrate_ids _ rs Hrs) as [Hids _]. rewrite Hids.
  unfold Favorite.getFavoriteIds. apply join_ids; [exact (pk_recipes db I)|].
  intros f Hf. apply order_by_desc_In in Hf. apply filter_In in Hf.
  destruct Hf as [Hf _]. exact (proj2 (fk_favorites db I f Hf)).
Qed.

(** X15. Favorites are not tied to ownership when they are read: a
    recipe that an account has among its favorites is returned in
    full by [getFavoriteRecipes], owner's account id included, also
    when it belongs to another account, for which [findById] of the
    same id returns nothing. *)
Theorem favorites_show_recipes_of_others
    (db : Store) (r : recipe_row) (B : Z) :
  integrity db ->
  written_by_model db ->
  In r (recipes db) ->
  Favorite.isFavorited db B (r_id r) = true ->
  exists rs o,
    Favorite.getFavoriteRecipes db B = Ok rs
    /\ In o rs
    /\ hydrate r = Ok o
    /\ o_user_id o = r_user_id r
    /\ (B <> r_user_id r -> Recipe.findById db (r_id r) B = Ok None).
Proof.
  intros I W Hr Hf.
  destruct (getFavoriteRecipes_returns db B W) as (rs & Hrs).
  destruct (hydrate_written r (rows_json db W r Hr)) as (o & Ho).
  exists rs, o. split; [exact Hrs|]. split; [|split; [exact Ho|split]].
  - unfold Favorite.getFavoriteRecipes in Hrs.
    apply (mapM_In hydrate _ rs Hrs o). exists r. split; [|exact Ho].
    rewrite <- isFavorited_existsb in Hf. apply existsb_exists in Hf.
    destruct Hf as (f & Hfin & Hp). apply is_pair_true in Hp.
    destruct Hp as [Hu Hid].
    apply in_flat_map. exists f. split.
    + apply order_by_desc_In. apply filter_In.
      split; [exact Hfin | now apply Z.eqb_eq].
    + apply filter_In. split; [exact Hr|]. rewrite Hid.
      apply String.eqb_refl.
  - now destruct (hydrate_columns r o Ho) as (_ & -> & _).
  - intros HB. apply findById_unmatched.
    apply foreign_recipe_unmatched; auto using pk_recipes.
Qed.

(* ================================================================= *)
(** ** The User model *)

Lemma find_by_key {A K} (key : A -> K) (eqb : K -> K -> bool)
      (l : list A) (x : A) :
  (forall a b, eqb a b = true <-> a = b) ->
  NoDup (map key l) -> In x l ->
  find (fun y => eqb (key y) (key x)) l = Some x.
Proof.
  intros Heq. induction l as [|a l IH]; intros Hnd Hin; [destruct Hin|].
  simpl in Hnd. inversion Hnd as [|? ? Hnotin Hnd']; subst. simpl.
  destruct Hin as [->|Hin].
  - now rewrite (proj2 (Heq (key x) (key x)) eq_refl).
  - destruct (eqb (key a) (key x)) eqn:E; [|now apply IH].
    apply Heq in E. exfalso. apply Hnotin. rewrite E. now apply in_map.
Qed.

Lemma find_map_kept {A} (p : A -> bool) (f : A -> A) (l : list A) :
  (forall x, p (f x) = p x) -> find p (map f l) = option_map f (find p l).
Proof.
  intros H. induction l as [|a l IH]; simpl; [reflexivity|].
  rewrite H. destruct (p a); [reflexivity | exact IH].
Qed.

Lemma findByEmail_none (db : Store) (e : string) :
  User.findByEmail db e = None
  <-> existsb (fun u => (u_email u =? e)%string) (users db) = false.
Proof.
  unfold User.findByEmail. rewrite existsb_find.
  destruct (find _ (users db)); split; congruence.
Qed.

(** X16. [User.create] stores the bcrypt hash, not the password, under
    a fresh id that is larger than every id in use; the new account is
    then found by its email and by its id, and every other email
    finds what it found before. Recipes and favorites are untouched. *)
Theorem create_user_then_find
    (hashSync : string -> string -> string) (db : Store)
    (salt : string) (now : Z) (name email password : string)
    (id : Z) (db' : Store) :
  integrity db ->
  User.create hashSync db salt now name email (JString password)
  = Ok (id, db') ->
  User.findByEmail db' email
  = Some {| u_id := id; u_name := name; u_email := email;
            u_password_hash := hashSync password salt;
            u_created_at := now; u_updated_at := now |}
  /\ User.findById db' id = User.findByEmail db' email
  /\ id = seq_users db + 1
  /\ 0 < id
  /\ (forall u, In u (users db) -> u_id u < id)
  /\ (forall e, e <> email -> User.findByEmail db' e = User.findByEmail db e)
  /\ recipes db' = recipes db /\ favorites db' = favorites db.
Proof.
  intros I. unfold User.create, User.hashSync_of. cbn [bind].
  unfold INSERT_users.
  destruct (existsb _ (users db)) eqn:E; [discriminate|].
  intros H. inv H.
  pose proof (seq_users_nonneg db I) as Hseq.
  assert (Hsmall : forall u, In u (users db) -> u_id u < seq_users db + 1).
  { intros u Hu. pose proof (pk_users db I u Hu). lia. }
  assert (Hmail : User.findByEmail
                    {| users := users db ++
                         [{| u_id := seq_users db + 1; u_name := name;
                             u_email := email;
                             u_password_hash := hashSync password salt;
                             u_created_at := now; u_updated_at := now |}];
                       recipes := recipes db; favorites := favorites db;
                       seq_users := seq_users db + 1;
                       seq_favorites := seq_favorites db |} email
                  = Some {| u_id := seq_users db + 1; u_name := name;
                            u_email := email;
                            u_password_hash := hashSync password salt;
                            u_created_at := now; u_updated_at := now |}).
  { unfold User.findByEmail. simpl. apply find_snoc.
    - now apply existsb_false_iff.
    - simpl. apply String.eqb_refl. }
  split; [exact Hmail|]. split; [|split; [reflexivity|split; [lia|split]]].
  - rewrite Hmail. unfold User.findById. simpl. apply find_snoc.
    + intros u Hu. apply Z.eqb_neq. specialize (Hsmall u Hu). lia.
    + simpl. apply Z.eqb_refl.
  - exact Hsmall.
  - split; [|split; reflexivity].
    intros e Hne. unfold User.findByEmail. simpl.
    apply find_snoc_miss. simpl. now apply String.eqb_neq.
Qed.

(** X17. [User.create] throws the unique-constraint error exactly when
    the email is taken, and succeeds exactly when it is free. *)
Theorem create_user_needs_a_free_email
    (hashSync : string -> string -> string) (db : Store)
    (salt : string) (now : Z) (name email password : string) :
  (User.create hashSync db salt now name email (JString password)
   = Throw SQLITE_CONSTRAINT_UNIQUE
   <-> User.findByEmail db email <> None)
  /\ ((exists id db',
         User.create hashSync db salt now name email (JString password)
         = Ok (id, db'))
      <-> User.findByEmail db email = None).
Proof.
  unfold User.create, User.hashSync_of. cbn [bind]. unfold INSERT_users.
  pose proof (findByEmail_none db email) as Hnone.
  destruct (existsb _ (users db)) eqn:E.
  - assert (Htaken : User.findByEmail db email <> None)
      by (intros Hn; apply Hnone in Hn; discriminate).
    split; split.
    + intros _. exact Htaken.
    + reflexivity.
    + intros (id & db' & H). discriminate.
    + intros Hn. contradiction.
  - assert (Hfree : User.findByEmail db email = None)
      by (now apply Hnone).
    split; split.
    + discriminate.
    + intros Hn. contradiction.
    + intros _. exact Hfree.
    + intros _. eauto.
Qed.

(** X18. [updateActivity] writes one column of one row: every lookup,
    by id or by email, finds the account it found before, with its
    update timestamp set to the time of the call when it is the
    account named and untouched otherwise. *)
Theorem updateActivity_writes_one_timestamp (db : Store) (now i : Z) :
  (forall j, User.findById (User.updateActivity db now i) j
             = option_map (fun u => if j =? i then touch now u else u)
                          (User.findById db j))
  /\ (forall e, User.findByEmail (User.updateActivity db now i) e
                = option_map (fun u => if u_id u =? i then touch now u else u)
                             (User.findByEmail db e))
  /\ recipes (User.updateActivity db now i) = recipes db
  /\ favorites (User.updateActivity db now i) = favorites db.
Proof.
  split; [|split; [|split; reflexivity]].
  - intros j. unfold User.findById. simpl.
    change (fun u : user_row =>
              if u_id u =? i
              then {| u_id := u_id u; u_name := u_name u;
                      u_email := u_email u;
                      u_password_hash := u_password_hash u;
                      u_created_at := u_created_at u; u_updated_at := now |}
              else u)
      with (fun u => if u_id u =? i then touch now u else u).
    rewrite find_map_kept
      by (intros u; destruct (u_id u =? i); reflexivity).
    destruct (find (fun u => u_id u =? j) (users db)) as [u|] eqn:E;
      [|reflexivity].
    apply find_some in E. destruct E as [_ E]. apply Z.eqb_eq in E.
    simpl. now rewrite E.
  - intros e. unfold User.findByEmail. simpl.
    change (fun u : user_row =>
              if u_id u =? i
              then {| u_id := u_id u; u_name := u_name u;
                      u_email := u_email u;
                      u_password_hash := u_password_hash u;
                      u_created_at := u_created_at u; u_updated_at := now |}
              else u)
      with (fun u => if u_id u =? i then touch now u else u).
    apply find_map_kept. intros u. destruct (u_id u =? i); reflexivity.
Qed.

Lemma findByEmail_findById (db : Store) (e : string) (u : user_row) :
  integrity db ->
  User.findByEmail db e = Some u -> User.findById db (u_id u) = Some u.
Proof.
  intros I H. unfold User.findByEmail in H. apply find_some in H.
  destruct H as [Hin _]. unfold User.findById.
  apply (find_by_key u_id Z.eqb (users db) u Z.eqb_eq
           (pk_users_nodup db I) Hin).
Qed.

(** X19. Under the schema's constraints the two lookups of the User
    model agree: the account found by an email is the one found by its
    id, and the account found by an id is the one found by its
    email. *)
Theorem user_lookups_agree (db : Store) (u : user_row) :
  integrity db ->
  (forall e, User.findByEmail db e = Some u ->
     u_email u = e /\ User.findById db (u_id u) = Some u)
  /\ (forall i, User.findById db i = Some u ->
        u_id u = i /\ User.findByEmail db (u_email u) = Some u).
Proof.
  intros I. split.
  - intros e H. split; [|now apply (findByEmail_findById db e)].
    unfold User.findByEmail in H. apply find_some in H.
    destruct H as [_ H]. now apply String.eqb_eq in H.
  - intros i H. unfold User.findById in H. apply find_some in H.
    destruct H as [Hin H]. apply Z.eqb_eq in H. split; [exact H|].
    unfold User.findByEmail.
    apply (find_by_key u_email String.eqb (users db) u String.eqb_eq
             (uq_users db I) Hin).
Qed.

Lemma users_updateActivity (db : Store) (now i : Z) :
  users (User.updateActivity db now i)
  = map (fun u => if u_id u =? i then touch now u else u) (users db).
Proof.
  reflexivity.
Qed.

Lemma findById_updateActivity (db : Store) (now : Z) (u : user_row) :
  User.findById db (u_id u) = Some u ->
  User.findById (User.updateActivity db now (u_id u)) (u_id u)
  = Some (touch now u).
Proof.
  intros H. unfold User.findById in *. rewrite users_updateActivity.
  rewrite find_map_kept.
  - rewrite H. simpl. now rewrite Z.eqb_refl.
  - intros x. destruct (u_id x =? u_id u) eqn:E; simpl; auto.
Qed.

(** X20. In every database the application can build the constraints
    of the schema hold: recipe ids, account ids, emails and
    (account, recipe) favorite pairs are unique, every recipe has its
    account, and every favorite has its account and its recipe (no
    favorite outlives its recipe). *)
Theorem reachable_databases_keep_the_schema (db : Store) :
  reachable db ->
  NoDup (map r_id (recipes db))
  /\ NoDup (map u_id (users db))
  /\ NoDup (map u_email (users db))
  /\ NoDup (map (fun f => (f_user_id f, f_recipe_id f)) (favorites db))
  /\ (forall r, In r (recipes db) -> has_user db (r_user_id r) = true)
  /\ (forall f, In f (favorites db) ->
        has_user db (f_user_id f) = true
        /\ has_recipe db (f_recipe_id f) = true).
Proof.
  intros R. destruct (reachable_integrity db R).
  repeat split; auto; now apply fk_favorites0.
Qed.

(* ================================================================= *)
(** ** The controllers and the pages *)

Section MoreControllers.
Context `{Platform}.

Lemma register_new (e : env) (req : request) (w : world) (n em p : string) :
  registerChain (req_body req) = Valid (n, em, JString p) ->
  User.findByEmail (db w) em = None ->
  register e req w
  = ({| status := 200;
        json := JUser (Some "Account created successfully")
                      (seq_users (db w) + 1) n em |},
     {| db := {| users := users (db w) ++
                   [{| u_id := seq_users (db w) + 1; u_name := n;
                       u_email := em;
                       u_password_hash := bcrypt_hashSync p (genSalt e);
                       u_created_at := unixepoch e;
                       u_updated_at := unixepoch e |}];
                 recipes := recipes (db w); favorites := favorites (db w);
                 seq_users := seq_users (db w) + 1;
                 seq_favorites := seq_favorites (db w) |};
        session := {| userId := Some (seq_users (db w) + 1);
                      email := Some em; name := Some n |};
        calls := (calls w ++ [User_findByEmail]) ++ [User_create] |}).
Proof.
  intros Hv Hfree. unfold register. rewrite Hv.
  cbv beta iota delta [try_catch bindC read call res ret bind set_session].
  cbn [db session calls]. rewrite Hfree. cbv beta iota.
  cbn [db session calls]. unfold User.create, User.hashSync_of.
  cbn [bind]. unfold INSERT_users.
  rewrite (proj1 (findByEmail_none (db w) em) Hfree). reflexivity.
Qed.

Lemma register_taken (e : env) (req : request) (w : world) (n em : string)
      (p : js_value) (u : user_row) :
  registerChain (req_body req) = Valid (n, em, p) ->
  User.findByEmail (db w) em = Some u ->
  register e req w
  = ({| status := 400;
        json := JError "Email already exists"
                  (Some "An account with this email already exists") |},
     {| db := db w; session := session w;
        calls := calls w ++ [User_findByEmail] |}).
Proof.
  intros Hv Hu. unfold register. rewrite Hv.
  cbv beta iota delta [try_catch bindC read call res ret bind].
  cbn [db session calls]. rewrite Hu. reflexivity.
Qed.

(** X21. A registration that passes validation: with an email no
    account has it creates the account, answers 200 with its id and
    binds the session to it, so that the next request passes
    [requireAuth] with the new account's id; with an email that an
    account has it answers the 400 email-exists error, creates
    nothing and leaves the session as it was. *)
Theorem register_by_email
    (e : env) (req : request) (w : world) (n em p : string) :
  integrity (db w) ->
  registerChain (req_body req) = Valid (n, em, JString p) ->
  (User.findByEmail (db w) em = None ->
   fst (register e req w)
   = {| status := 200;
        json := JUser (Some "Account created successfully")
                      (seq_users (db w) + 1) n em |}
   /\ session (snd (register e req w))
      = {| userId := Some (seq_users (db w) + 1);
           email := Some em; name := Some n |}
   /\ User.findByEmail (db (snd (register e req w))) em
      = Some {| u_id := seq_users (db w) + 1; u_name := n; u_email := em;
                u_password_hash := bcrypt_hashSync p (genSalt e);
                u_created_at := unixepoch e; u_updated_at := unixepoch e |}
   /\ forall next,
        requireAuth next (snd (register e req w))
        = next (seq_users (db w) + 1) (snd (register e req w)))
  /\ (forall u, User.findByEmail (db w) em = Some u ->
      register e req w
      = ({| status := 400;
            json := JError "Email already exists"
                      (Some "An account with this email already exists") |},
         {| db := db w; session := session w;
            calls := calls w ++ [User_findByEmail] |})).
Proof.
  intros I Hv. split.
  - intros Hfree. rewrite (register_new e req w n em p Hv Hfree).
    cbn [fst snd db session]. split; [reflexivity|]. split; [reflexivity|].
    split.
    + unfold User.findByEmail. cbn [users]. apply find_snoc.
      * apply existsb_false_iff. now apply findByEmail_none.
      * simpl. apply String.eqb_refl.
    + intros next. apply requireAuth_passes; [reflexivity|].
      pose proof (seq_users_nonneg (db w) I). lia.
  - intros u Hu. now apply (register_taken e req w n em (JString p) u).
Qed.

Lemma login_success (e : env) (req : request) (w : world)
      (em p : string) (u : user_row) :
  loginChain (req_body req) = Valid (em, JString p) ->
  User.findByEmail (db w) em = Some u ->
  bcrypt_compareSync p (u_password_hash u) = true ->
  login e req w
  = ({| status := 200;
        json := JUser (Some "Login successful")
                      (u_id u) (u_name u) (u_email u) |},
     {| db := User.updateActivity (db w) (unixepoch e) (u_id u);
        session := {| userId := Some (u_id u); email := Some (u_email u);
                      name := Some (u_name u) |};
        calls := ((calls w ++ [User_findByEmail]) ++ [User_verifyPassword])
                   ++ [User_updateActivity] |}).
Proof.
  intros Hv Hu Hp. unfold login. rewrite Hv.
  cbv beta iota delta [try_catch bindC read call res ret bind set_session].
  cbn [db session calls]. rewrite Hu. cbv beta iota.
  unfold User.verifyPassword, User.compareSync_of. rewrite Hp. reflexivity.
Qed.

(** X22. A login with the email of an account and the password that
    bcrypt accepts for its hash answers 200 with the account, binds
    the session to it and refreshes its activity timestamp; recipes
    and favorites are untouched. *)
Theorem login_opens_a_session
    (e : env) (req : request) (w : world) (em p : string) (u : user_row) :
  loginChain (req_body req) = Valid (em, JString p) ->
  User.findByEmail (db w) em = Some u ->
  bcrypt_compareSync p (u_password_hash u) = true ->
  fst (login e req w)
  = {| status := 200;
       json := JUser (Some "Login successful")
                     (u_id u) (u_name u) (u_email u) |}
  /\ session (snd (login e req w))
     = {| userId := Some (u_id u); email := Some (u_email u);
          name := Some (u_name u) |}
  /\ db (snd (login e req w))
     = User.updateActivity (db w) (unixepoch e) (u_id u)
  /\ recipes (db (snd (login e req w))) = recipes (db w)
  /\ favorites (db (snd (login e req w))) = favorites (db w).
Proof.
  intros Hv Hu Hp. rewrite (login_success e req w em p u Hv Hu Hp).
  repeat split.
Qed.

(** X23. After a successful login, [GET /api/auth/me] passes
    [requireAuth] and answers 200 with the id, name and email of the
    account that logged in. *)
Theorem login_then_me
    (e e' : env) (req req' : request) (w : world) (em p : string)
    (u : user_row) :
  integrity (db w) ->
  loginChain (req_body req) = Valid (em, JString p) ->
  User.findByEmail (db w) em = Some u ->
  bcrypt_compareSync p (u_password_hash u) = true ->
  method req' = GET -> path req' = ["me"] ->
  fst (authRoutes e' req' (snd (login e req w)))
  = {| status := 200;
       json := JUser None (u_id u) (u_name u) (u_email u) |}.
Proof.
  intros I Hv Hu Hp Hm Hpath.
  rewrite (login_success e req w em p u Hv Hu Hp). cbn [snd].
  pose proof (findByEmail_findById (db w) em u I Hu) as Hid.
  assert (Hpos : u_id u <> 0).
  { unfold User.findByEmail in Hu. apply find_some in Hu.
    pose proof (pk_users (db w) I u (proj1 Hu)). lia. }
  unfold authRoutes. rewrite Hm, Hpath. cbv beta iota.
  change (is_route "me" "me") with true. cbv beta iota.
  rewrite (requireAuth_passes _ _ (u_id u)); [|reflexivity|exact Hpos].
  unfold getCurrentUser. cbn [db session calls userId JS.falsy_number].
  apply Z.eqb_neq in Hpos. rewrite Hpos.
  cbv beta iota delta [try_catch bindC read call res ret bind].
  cbn [db session calls].
  rewrite (findById_updateActivity (db w) (unixepoch e) u Hid).
  reflexivity.
Qed.

(** X24. [logout] answers 200, empties the session and touches no
    data; afterwards every route of the recipe and favorite routers
    answers 401, the cook page redirects to the login page, and a
    second logout answers the same and changes nothing more. *)
Theorem logout_closes_the_routes
    (e : env) (req : request) (id : string) (w : world) :
  fst (logout w) = {| status := 200; json := JMessage "Logout successful" |}
  /\ session (snd (logout w)) = no_session
  /\ db (snd (logout w)) = db w
  /\ calls (snd (logout w)) = calls w
  /\ recipeRoutes e req (snd (logout w))
     = (authentication_required, snd (logout w))
  /\ favoriteRoutes e req (snd (logout w))
     = (authentication_required, snd (logout w))
  /\ get_recipes_cook id (snd (logout w))
     = (Redirect "/login", snd (logout w))
  /\ logout (snd (logout w)) = logout w.
Proof.
  repeat split.
Qed.

(** X26. [deleteRecipe] and [updateRecipe] answer a request for a
    recipe of another account with the 404 they give for an unknown
    id and leave the database as it was; the owner's [deleteRecipe]
    answers 200, after which [getRecipeById] answers 404 to the
    owner as well. *)
Theorem recipe_writes_answer_by_ownership
    (e : env) (req : request) (b : body) (w : world) (r : recipe_row) :
  integrity (db w) ->
  In r (recipes (db w)) ->
  updateRecipeChain (req_body req) = Valid b ->
  (forall B, B <> r_user_id r ->
     deleteRecipe (r_id r) B w
     = ({| status := 404;
           json := JError "Recipe not found"
             (Some "Recipe does not exist or you don't have permission to delete it") |},
        {| db := db w; session := session w;
           calls := calls w ++ [Recipe_delete] |})
     /\ updateRecipe e (r_id r) req B w
        = ({| status := 404;
              json := JError "Recipe not found"
                (Some "Recipe does not exist or you don't have permission to update it") |},
           {| db := db w; session := session w;
              calls := calls w ++ [Recipe_update] |}))
  /\ exists w',
       deleteRecipe (r_id r) (r_user_id r) w
       = ({| status := 200; json := JMessage "Recipe deleted successfully" |},
          w')
       /\ fst (getRecipeById (r_id r) (r_user_id r) w')
          = {| status := 404;
               json := JError "Recipe not found"
                 (Some "Recipe does not exist or you don't have permission to view it") |}.
Proof.
  intros I Hr Hv. split.
  - intros B HB.
    assert (Hun : forall r', In r' (recipes (db w)) ->
                    owned_by (r_id r) B r' = false)
      by (apply foreign_recipe_unmatched; auto using pk_recipes).
    split.
    + unfold deleteRecipe.
      cbv beta iota delta [try_catch bindC read call res ret bind].
      rewrite (delete_unmatched (db w) (r_id r) B Hun). reflexivity.
    + unfold updateRecipe. rewrite Hv.
      cbv beta iota delta [try_catch bindC read call res ret bind].
      rewrite (update_unmatched (db w) (unixepoch e) (r_id r) B _ Hun).
      reflexivity.
  - eexists. split.
    + unfold deleteRecipe.
      cbv beta iota delta [try_catch bindC read call res ret bind].
      rewrite (delete_own (db w) r Hr). reflexivity.
    + rewrite getRecipeById_absent; [reflexivity|].
      cbn [db]. apply findById_unmatched. simpl. intros r' Hr'.
      apply filter_In in Hr'. destruct Hr' as [_ Hno].
      now apply negb_true_iff in Hno.
Qed.

(** X27. On a database whose rows the model has written, a search
    without query text, or with an empty one, answers 200 with the
    list that the route of all recipes answers with. *)
Theorem search_without_query_lists_all
    (req : request) (A : Z) (w : world) :
  written_by_model (db w) ->
  JS.falsy_string (query_q req) = true ->
  exists rs,
    Recipe.findByUserId (db w) A = Ok rs
    /\ fst (searchRecipes req A w) = {| status := 200; json := JRecipes rs |}
    /\ fst (getAllRecipes A w) = {| status := 200; json := JRecipes rs |}
    /\ db (snd (searchRecipes req A w)) = db w.
Proof.
  intros W Hq.
  assert (Hrs : exists rs, Recipe.findByUserId (db w) A = Ok rs).
  { unfold Recipe.findByUserId.
    destruct (select_spec (fun r => r_user_id r =? A) (db w) W)
      as (rs & Hrs & _).
    eauto. }
  destruct Hrs as (rs & Hrs). exists rs. split; [exact Hrs|].
  unfold searchRecipes, getAllRecipes.
  rewrite (or_null_falsy _ Hq).
  cbv beta iota delta [try_catch bindC read call res ret bind].
  rewrite search_empty_query, Hrs. repeat split.
Qed.

(** X28. Toggling a recipe id that no recipe has: under the schema's
    constraints the pair is not a favorite, the INSERT fails on the
    foreign key, and the controller answers 500 and stores nothing. *)
Theorem toggle_unknown_recipe_fails
    (e : env) (req : request) (A : Z) (rid : string) (w : world) :
  integrity (db w) ->
  b_recipeId (req_body req) = Some rid ->
  JS.is_empty rid = false ->
  has_recipe (db w) rid = false ->
  toggleFavorite e req A w
  = (error500 "Failed to toggle favorite"
              "An error occurred while updating favorites",
     {| db := db w; session := session w;
        calls := (calls w ++ [Favorite_isFavorited]) ++ [Favorite_add] |}).
Proof.
  intros I Hid Hne Hno.
  assert (Hf : Favorite.isFavorited (db w) A rid = false).
  { rewrite <- isFavorited_existsb. apply existsb_false_iff.
    intros f Hin. destruct (is_pair A rid f) eqn:E; [|reflexivity].
    apply is_pair_true in E. destruct E as [_ E].
    destruct (fk_favorites (db w) I f Hin) as [_ Hhas].
    rewrite E in Hhas. congruence. }
  assert (Hadd : Favorite.add (db w) (unixepoch e) A rid
                 = Throw SQLITE_CONSTRAINT_FOREIGNKEY).
  { unfold Favorite.add, INSERT_favorites.
    now rewrite isFavorited_existsb, Hf, Hno, andb_false_r. }
  unfold toggleFavorite. rewrite Hid, Hne.
  cbv beta iota delta [try_catch bindC read call res ret bind].
  cbn [db session calls]. rewrite Hf. cbv beta iota.
  cbn [db session calls]. rewrite Hadd. reflexivity.
Qed.

End MoreControllers.

(* ================================================================= *)
(** ** The pages, and the application as a whole *)

Lemma findById_owned (db : Store) (id : string) (A : Z) (o : recipe) :
  Recipe.findById db id A = Ok (Some o) -> o_id o = id /\ o_user_id o = A.
Proof.
  intros H. unfold Recipe.findById in H.
  destruct (find (owned_by id A) (recipes db)) as [r|] eqn:E; [|discriminate].
  apply find_some in E. destruct E as [_ E]. apply owned_by_true in E.
  destruct (hydrate r) as [o'|] eqn:Eh; [|discriminate].
  simpl in H. inv H. destruct (hydrate_columns r o Eh) as (-> & -> & _).
  exact E.
Qed.

(** X29. The cook page: without a session it redirects to the login
    page and reads nothing; a recipe it renders has the id of the
    path and belongs to the account of the session; and for the id of
    another account's recipe it answers 404 [Recipe not found]. *)
Theorem cook_page_shows_own_recipes_only (id : string) (w : world) :
  (JS.falsy_number (userId (session w)) = true ->
   get_recipes_cook id w = (Redirect "/login", w))
  /\ (forall view user title r w',
        get_recipes_cook id w = (Render view user title (Some r), w') ->
        o_id r = id /\ userId (session w) = Some (o_user_id r)
        /\ db w' = db w)
  /\ (forall uid row,
        integrity (db w) ->
        userId (session w) = Some uid -> uid <> 0 ->
        In row (recipes (db w)) -> r_id row = id -> uid <> r_user_id row ->
        fst (get_recipes_cook id w) = Send 404 "Recipe not found").
Proof.
  split; [|split].
  - intros Hs. unfold get_recipes_cook. now rewrite Hs.
  - intros view user title r w' H. unfold get_recipes_cook in H.
    destruct (JS.falsy_number (userId (session w))); [discriminate|].
    destruct (userId (session w)) as [uid|]; [|discriminate].
    cbv beta iota delta [read call bind] in H.
    destruct (Recipe.findById (db w) id uid) as [[o|]|] eqn:E;
      try discriminate.
    inversion H; subst. destruct (findById_owned _ _ _ _ E) as [Hi Hu].
    cbn [db]. rewrite Hu. repeat split; auto.
  - intros uid row I Hs Hne Hin Hid HB. unfold get_recipes_cook.
    rewrite Hs. cbn [JS.falsy_number]. apply Z.eqb_neq in Hne.
    rewrite Hne. cbv beta iota delta [read call bind].
    rewrite <- Hid. rewrite findById_unmatched; [reflexivity|].
    apply foreign_recipe_unmatched; auto using pk_recipes.
Qed.

Lemma only_user_ops_refl (w : world) : only_user_ops w w.
Proof.
  exists []. rewrite app_nil_r. repeat split.
Qed.

Lemma snd_json (x : response * world) :
  snd (let (r, w') := x in (Json r, w')) = snd x.
Proof.
  now destruct x.
Qed.

Section Application.
Context `{Platform}.

Lemma register_only_user_ops (e : env) (req : request) (w : world) :
  only_user_ops w (snd (register e req w)).
Proof.
  unfold register.
  destruct (registerChain (req_body req)) as [errors|[[n em] p]];
    [apply only_user_ops_refl|].
  cbv beta iota delta [try_catch bindC read call res ret bind set_session].
  cbn [db session calls].
  destruct (User.findByEmail (db w) em) as [u|].
  - exists [User_findByEmail]. repeat split.
  - cbv beta iota. cbn [db session calls].
    destruct (User.create bcrypt_hashSync (db w) (genSalt e) (unixepoch e)
                n em p) as [[id db']|err] eqn:Hc.
    + exists [User_findByEmail; User_create]. cbn [snd db calls].
      rewrite <- app_assoc. split; [reflexivity|]. split; [reflexivity|].
      unfold User.create in Hc.
      destruct (User.hashSync_of bcrypt_hashSync p (genSalt e)) as [h|];
        [|discriminate].
      cbn [bind] in Hc. unfold INSERT_users in Hc.
      destruct (existsb _ (users (db w))); [discriminate|]. inv Hc.
      split; reflexivity.
    + exists [User_findByEmail; User_create]. cbn [snd db calls].
      rewrite <- app_assoc. repeat split.
Qed.

Lemma login_only_user_ops (e : env) (req : request) (w : world) :
  only_user_ops w (snd (login e req w)).
Proof.
  unfold login.
  destruct (loginChain (req_body req)) as [errors|[em p]];
    [apply only_user_ops_refl|].
  cbv beta iota delta [try_catch bindC read call res ret bind set_session].
  cbn [db session calls].
  destruct (User.findByEmail (db w) em) as [u|].
  - cbv beta iota. cbn [db session calls].
    destruct (User.verifyPassword bcrypt_compareSync u p) as [[|]|err].
    + exists [User_findByEmail; User_verifyPassword; User_updateActivity].
      cbn [negb snd db calls]. rewrite <- !app_assoc. repeat split.
    + exists [User_findByEmail; User_verifyPassword].
      cbn [negb snd db calls]. rewrite <- !app_assoc. repeat split.
    + exists [User_findByEmail; User_verifyPassword].
      cbn [snd db calls]. rewrite <- !app_assoc. repeat split.
  - exists [User_findByEmail]. repeat split.
Qed.

Lemma authRoutes_only_user_ops (e : env) (req : request) (w : world) :
  JS.falsy_number (userId (session w)) = true ->
  only_user_ops w (snd (authRoutes e req w)).
Proof.
  intros Hs. unfold authRoutes.
  destruct (method req); destruct (path req) as [|seg [|? ?]];
    try apply only_user_ops_refl.
  - destruct (is_route seg "me"); [|apply only_user_ops_refl].
    rewrite requireAuth_rejects by exact Hs. apply only_user_ops_refl.
  - destruct (is_route seg "register"); [apply register_only_user_ops|].
    destruct (is_route seg "login"); [apply login_only_user_ops|].
    destruct (is_route seg "logout"); [|apply only_user_ops_refl].
    exists []. cbn. rewrite app_nil_r. repeat split.
Qed.

Lemma pages_unchanged (req : request) (w : world) :
  JS.falsy_number (userId (session w)) = true ->
  snd (pages req w) = w.
Proof.
  intros Hs. unfold pages.
  destruct (method req); try reflexivity.
  destruct (path req) as [|a [|b [|c [|? ?]]]]; try reflexivity.
  - unfold get_root. now rewrite Hs.
  - destruct (is_route a "login"); [unfold get_login; now rewrite Hs|].
    destruct (is_route a "recipes"); [unfold get_recipes; now rewrite Hs|].
    reflexivity.
  - destruct (is_route a "recipes" && is_route c "cook");
      [|reflexivity].
    unfold get_recipes_cook. now rewrite Hs.
Qed.

(** X30. Without an account in the session, no request to the
    application, whatever its method, path and body, reads or writes
    a recipe or a favorite: the only model methods it can invoke are
    those of the User model (through register and login), and the
    recipes and favorites tables stay as they are. *)
Theorem without_session_only_accounts_are_touched
    (e : env) (req : request) (w : world) :
  JS.falsy_number (userId (session w)) = true ->
  only_user_ops w (snd (app e req w)).
Proof.
  intros Hs. unfold app.
  assert (Hpages : only_user_ops w (snd (pages req w))).
  { rewrite (pages_unchanged req w Hs). apply only_user_ops_refl. }
  destruct (path req) as [|a rest] eqn:Hpath; [exact Hpages|].
  destruct (is_route a "api") eqn:Ha; [|exact Hpages].
  rewrite snd_json. unfold api. rewrite Hpath, Ha.
  destruct rest as [|m rest]; [apply only_user_ops_refl|].
  destruct (is_route m "auth"); [now apply authRoutes_only_user_ops|].
  destruct (is_route m "recipes").
  { unfold recipeRoutes. rewrite requireAuth_rejects by exact Hs.
    apply only_user_ops_refl. }
  destruct (is_route m "favorites"); [|apply only_user_ops_refl].
  unfold favoriteRoutes. rewrite requireAuth_rejects by exact Hs.
  apply only_user_ops_refl.
Qed.

End Application.

(* ================================================================= *)
(** ** The additional statements at work on the small database *)

Lemma kitchen_favorited_reachable : reachable kitchen_favorited.
Proof.
  eapply reachable_step; [apply kitchen_reachable|].
  eapply (step_Favorite_add kitchen 120 2 "r-soup"). reflexivity.
Qed.

Lemma kitchen_written : written_by_model kitchen.
Proof.
  exact (reachable_written kitchen kitchen_reachable).
Qed.

Lemma kitchen_integrity : integrity kitchen.
Proof.
  exact (reachable_integrity kitchen kitchen_reachable).
Qed.

Lemma kitchen_favorited_written : written_by_model kitchen_favorited.
Proof.
  exact (reachable_written _ kitchen_favorited_reachable).
Qed.

Lemma kitchen_favorited_integrity : integrity kitchen_favorited.
Proof.
  exact (reachable_integrity _ kitchen_favorited_reachable).
Qed.

Lemma registered_integrity : integrity registered.
Proof.
  exact (reachable_integrity _ registered_reachable).
Qed.

Lemma soup_in_kitchen : In soup_row (recipes kitchen).
Proof.
  simpl. auto.
Qed.

Lemma findByUserId_lists_the_account_witness :
  written_by_model kitchen
  /\ exists rs,
       Recipe.findByUserId kitchen 1 = Ok rs
       /\ newest_first rs
       /\ forall o, In o rs <->
            exists r, In r (recipes kitchen) /\ r_user_id r = 1
                      /\ hydrate r = Ok o.
Proof.
  exact (conj kitchen_written
           (findByUserId_lists_the_account kitchen 1 kitchen_written)).
Defined.

Lemma recipe_reads_stay_in_the_account_witness :
  (Recipe.findById kitchen "r-soup" 1 = Ok (Some soup)
   /\ o_id soup = "r-soup" /\ o_user_id soup = 1)
  /\ (Recipe.findByUserId kitchen 1 = Ok [soup]
      /\ forall o, In o [soup] -> o_user_id o = 1)
  /\ (Recipe.search kitchen 1 "ou" = Ok [soup]
      /\ forall o, In o [soup] -> o_user_id o = 1)
  /\ (Recipe.findByCategory pantry 1 "Stoofpot" = Ok [anns_stew]
      /\ forall o, In o [anns_stew] ->
           o_user_id o = 1 /\ o_category o = Some "Stoofpot").
Proof.
  pose proof (recipe_reads_stay_in_the_account kitchen 1)
    as (H1 & H2 & H3 & _).
  pose proof (recipe_reads_stay_in_the_account pantry 1)
    as (_ & _ & _ & H4).
  split; [exact (conj eq_refl (H1 "r-soup" soup eq_refl))|].
  split; [exact (conj eq_refl (H2 [soup] eq_refl))|].
  split; [exact (conj eq_refl (H3 "ou" [soup] eq_refl))|].
  exact (conj eq_refl (H4 "Stoofpot" [anns_stew] eq_refl)).
Defined.

Lemma pantry_reachable : reachable pantry.
Proof.
  eapply reachable_step.
  - eapply reachable_step.
    + eapply reachable_step; [apply kitchen_reachable|].
      eapply (step_Recipe_create kitchen "r-stew" 140 1 stew_data).
      reflexivity.
    + eapply (step_Recipe_create _ "r-hash" 150 1 hash_data). reflexivity.
  - eapply (step_Recipe_create _ "r-bob" 160 2 stew_data). reflexivity.
Qed.

Lemma pantry_written : written_by_model pantry.
Proof.
  exact (reachable_written pantry pantry_reachable).
Qed.

Lemma findByCategory_matches_exactly_witness :
  written_by_model pantry
  /\ Recipe.findByCategory pantry 1 "Stoofpot" = Ok [anns_stew]
  /\ map r_category (recipes pantry)
     = [None; Some "Stoofpot"; Some "stoofpot"; Some "Stoofpot"]
  /\ map r_user_id (recipes pantry) = [1; 1; 1; 2]
  /\ exists rs,
       Recipe.findByCategory pantry 1 "Stoofpot" = Ok rs
       /\ newest_first rs
       /\ forall o, In o rs <->
            exists r, In r (recipes pantry) /\ r_user_id r = 1
                      /\ r_category r = Some "Stoofpot" /\ hydrate r = Ok o.
Proof.
  exact (conj pantry_written (conj eq_refl (conj eq_refl (conj eq_refl
           (findByCategory_matches_exactly pantry 1 "Stoofpot"
              pantry_written))))).
Defined.


Lemma delete_removes_exactly_the_recipe_witness :
  integrity kitchen
  /\ In soup_row (recipes kitchen)
  /\ exists db',
       Recipe.delete kitchen (r_id soup_row) (r_user_id soup_row)
       = Ok (true, db')
       /\ (forall B, Recipe.findById db' (r_id soup_row) B = Ok None)
       /\ (forall r', In r' (recipes db')
                      <-> In r' (recipes kitchen) /\ r' <> soup_row)
       /\ users db' = users kitchen
       /\ Recipe.delete db' (r_id soup_row) (r_user_id soup_row)
          = Ok (false, db').
Proof.
  exact (conj kitchen_integrity (conj soup_in_kitchen
           (delete_removes_exactly_the_recipe kitchen soup_row
              kitchen_integrity soup_in_kitchen))).
Defined.

Lemma delete_cascades_to_favorites_witness :
  In soup_row (recipes kitchen_favorited)
  /\ Favorite.isFavorited kitchen_favorited 2 "r-soup" = true
  /\ exists db',
       Recipe.delete kitchen_favorited (r_id soup_row) (r_user_id soup_row)
       = Ok (true, db')
       /\ (forall u, Favorite.isFavorited db' u (r_id soup_row) = false)
       /\ (forall u rid, rid <> r_id soup_row ->
             Favorite.isFavorited db' u rid
             = Favorite.isFavorited kitchen_favorited u rid)
       /\ (forall u, ~ In (r_id soup_row) (Favorite.getFavoriteIds db' u)).
Proof.
  exact (conj soup_in_kitchen (conj eq_refl
           (delete_cascades_to_favorites kitchen_favorited soup_row
              soup_in_kitchen))).
Defined.

Lemma create_leaves_the_rest_witness :
  Recipe.create kitchen "r-broth" 130 2 falsy_data = Ok ("r-broth", two_recipes)
  /\ users two_recipes = users kitchen
  /\ favorites two_recipes = favorites kitchen
  /\ (forall id' B, id' <> "r-broth" ->
        Recipe.findById two_recipes id' B = Recipe.findById kitchen id' B)
  /\ (forall B, B <> 2 ->
        Recipe.findByUserId two_recipes B = Recipe.findByUserId kitchen B)
  /\ List.length (recipes two_recipes) = S (List.length (recipes kitchen)).
Proof.
  exact (conj eq_refl
           (create_leaves_the_rest kitchen "r-broth" 130 2 falsy_data
              "r-broth" two_recipes eq_refl)).
Defined.


Lemma update_leaves_the_rest_witness :
  Recipe.update kitchen 200 "r-soup" 1 falsy_data = Ok (true, broth_kitchen)
  /\ users broth_kitchen = users kitchen
  /\ favorites broth_kitchen = favorites kitchen
  /\ map r_id (recipes broth_kitchen) = map r_id (recipes kitchen)
  /\ (forall id' B, id' <> "r-soup" ->
        Recipe.findById broth_kitchen id' B = Recipe.findById kitchen id' B)
  /\ (forall B, B <> 1 ->
        Recipe.findByUserId broth_kitchen B = Recipe.findByUserId kitchen B
        /\ forall id',
             Recipe.findById broth_kitchen id' B
             = Recipe.findById kitchen id' B).
Proof.
  exact (conj eq_refl
           (update_leaves_the_rest kitchen 200 "r-soup" 1 falsy_data true
              broth_kitchen eq_refl)).
Defined.

Lemma update_keeps_the_list_order_witness :
  written_by_model kitchen
  /\ Recipe.update kitchen 200 "r-soup" 1 falsy_data = Ok (true, broth_kitchen)
  /\ exists rs rs',
       Recipe.findByUserId kitchen 1 = Ok rs
       /\ Recipe.findByUserId broth_kitchen 1 = Ok rs'
       /\ map o_id rs' = map o_id rs
       /\ map o_created_at rs' = map o_created_at rs.
Proof.
  exact (conj kitchen_written (conj eq_refl
           (update_keeps_the_list_order kitchen 200 "r-soup" 1 falsy_data
              broth_kitchen kitchen_written eq_refl))).
Defined.

Lemma remove_takes_out_one_pair_witness :
  (1, "r-soup") <> (2, "r-soup")
  /\ exists db',
       Favorite.remove kitchen_favorited 2 "r-soup"
       = Ok (Favorite.isFavorited kitchen_favorited 2 "r-soup", db')
       /\ Favorite.isFavorited db' 2 "r-soup" = false
       /\ (forall u rid', (u, rid') <> (2, "r-soup") ->
             Favorite.isFavorited db' u rid'
             = Favorite.isFavorited kitchen_favorited u rid')
       /\ users db' = users kitchen_favorited
       /\ recipes db' = recipes kitchen_favorited.
Proof.
  assert (Hne : (1, "r-soup") <> (2, "r-soup")) by discriminate.
  exact (conj Hne (remove_takes_out_one_pair kitchen_favorited 2 "r-soup")).
Defined.

Lemma add_puts_in_one_pair_witness :
  Favorite.add kitchen 120 2 "r-soup" = Ok (true, kitchen_favorited)
  /\ Favorite.isFavorited kitchen_favorited 2 "r-soup" = true
  /\ (forall u rid', (u, rid') <> (2, "r-soup") ->
        Favorite.isFavorited kitchen_favorited u rid'
        = Favorite.isFavorited kitchen u rid')
  /\ users kitchen_favorited = users kitchen
  /\ recipes kitchen_favorited = recipes kitchen
  /\ (true = false -> kitchen_favorited = kitchen)
  /\ (true = true -> Favorite.isFavorited kitchen 2 "r-soup" = false).
Proof.
  exact (conj eq_refl
           (add_puts_in_one_pair kitchen 120 2 "r-soup" true
              kitchen_favorited eq_refl)).
Defined.

Lemma getFavoriteIds_are_the_favorites_witness :
  integrity kitchen_favorited
  /\ (forall rid, In rid (Favorite.getFavoriteIds kitchen_favorited 2)
                  <-> Favorite.isFavorited kitchen_favorited 2 rid = true)
  /\ NoDup (Favorite.getFavoriteIds kitchen_favorited 2).
Proof.
  pose proof (getFavoriteIds_are_the_favorites kitchen_favorited 2)
    as (Hin & Hnd).
  exact (conj kitchen_favorited_integrity
           (conj Hin (Hnd kitchen_favorited_integrity))).
Defined.

Lemma getFavoriteRecipes_follow_the_ids_witness :
  integrity kitchen_favorited
  /\ written_by_model kitchen_favorited
  /\ exists rs,
       Favorite.getFavoriteRecipes kitchen_favorited 2 = Ok rs
       /\ map o_id rs = Favorite.getFavoriteIds kitchen_favorited 2.
Proof.
  exact (conj kitchen_favorited_integrity (conj kitchen_favorited_written
           (getFavoriteRecipes_follow_the_ids kitchen_favorited 2
              kitchen_favorited_integrity kitchen_favorited_written))).
Defined.

Lemma favorites_show_recipes_of_others_witness :
  integrity kitchen_favorited
  /\ written_by_model kitchen_favorited
  /\ In soup_row (recipes kitchen_favorited)
  /\ Favorite.isFavorited kitchen_favorited 2 (r_id soup_row) = true
  /\ exists rs o,
       Favorite.getFavoriteRecipes kitchen_favorited 2 = Ok rs
       /\ In o rs
       /\ hydrate soup_row = Ok o
       /\ o_user_id o = r_user_id soup_row
       /\ (2 <> r_user_id soup_row ->
           Recipe.findById kitchen_favorited (r_id soup_row) 2 = Ok None).
Proof.
  exact (conj kitchen_favorited_integrity (conj kitchen_favorited_written
           (conj soup_in_kitchen (conj eq_refl
              (favorites_show_recipes_of_others kitchen_favorited soup_row 2
                 kitchen_favorited_integrity kitchen_favorited_written
                 soup_in_kitchen eq_refl))))).
Defined.

Lemma create_user_then_find_witness :
  integrity registered
  /\ User.create (@bcrypt_hashSync sample_platform) registered "$2b$10$" 105
                 "Cas" "cas@x.com" (JString "pw") = Ok (3, three_users)
  /\ User.findByEmail three_users "cas@x.com"
     = Some {| u_id := 3; u_name := "Cas"; u_email := "cas@x.com";
               u_password_hash :=
                 @bcrypt_hashSync sample_platform "pw" "$2b$10$";
               u_created_at := 105; u_updated_at := 105 |}
  /\ User.findById three_users 3 = User.findByEmail three_users "cas@x.com"
  /\ 3 = seq_users registered + 1
  /\ 0 < 3
  /\ (forall u, In u (users registered) -> u_id u < 3)
  /\ (forall e, e <> "cas@x.com" ->
        User.findByEmail three_users e = User.findByEmail registered e)
  /\ recipes three_users = recipes registered
  /\ favorites three_users = favorites registered.
Proof.
  exact (conj registered_integrity (conj eq_refl
           (create_user_then_find (@bcrypt_hashSync sample_platform)
              registered "$2b$10$" 105 "Cas" "cas@x.com" "pw" 3 three_users
              registered_integrity eq_refl))).
Defined.

Lemma create_user_needs_a_free_email_witness :
  (User.create (@bcrypt_hashSync sample_platform) registered "$2b$10$" 105
               "Ann" "ann@x.com" (JString "pw") = Throw SQLITE_CONSTRAINT_UNIQUE
   <-> User.findByEmail registered "ann@x.com" <> None)
  /\ ((exists id db',
         User.create (@bcrypt_hashSync sample_platform) registered "$2b$10$"
                     105 "Ann" "ann@x.com" (JString "pw") = Ok (id, db'))
      <-> User.findByEmail registered "ann@x.com" = None).
Proof.
  exact (create_user_needs_a_free_email (@bcrypt_hashSync sample_platform)
           registered "$2b$10$" 105 "Ann" "ann@x.com" "pw").
Defined.

Lemma user_lookups_agree_witness :
  integrity kitchen
  /\ (forall e, User.findByEmail kitchen e = Some bob ->
        u_email bob = e /\ User.findById kitchen (u_id bob) = Some bob)
  /\ (forall i, User.findById kitchen i = Some bob ->
        u_id bob = i /\ User.findByEmail kitchen (u_email bob) = Some bob).
Proof.
  exact (conj kitchen_integrity
           (user_lookups_agree kitchen bob kitchen_integrity)).
Defined.

Lemma reachable_databases_keep_the_schema_witness :
  reachable kitchen_favorited
  /\ NoDup (map r_id (recipes kitchen_favorited))
  /\ NoDup (map u_id (users kitchen_favorited))
  /\ NoDup (map u_email (users kitchen_favorited))
  /\ NoDup (map (fun f => (f_user_id f, f_recipe_id f))
                (favorites kitchen_favorited))
  /\ (forall r, In r (recipes kitchen_favorited) ->
        has_user kitchen_favorited (r_user_id r) = true)
  /\ (forall f, In f (favorites kitchen_favorited) ->
        has_user kitchen_favorited (f_user_id f) = true
        /\ has_recipe kitchen_favorited (f_recipe_id f) = true).
Proof.
  exact (conj kitchen_favorited_reachable
           (reachable_databases_keep_the_schema kitchen_favorited
              kitchen_favorited_reachable)).
Defined.

Lemma register_by_email_witness :
  integrity (db visitor)
  /\ @registerChain sample_platform (req_body (registration "Cas" "cas@x.com" "pw"))
     = Valid ("Cas", "cas@x.com", JString "pw")
  /\ User.findByEmail (db visitor) "cas@x.com" = None
  /\ fst (@register sample_platform sample_env
            (registration "Cas" "cas@x.com" "pw") visitor)
     = {| status := 200;
          json := JUser (Some "Account created successfully")
                        (seq_users (db visitor) + 1) "Cas" "cas@x.com" |}
  /\ session (snd (@register sample_platform sample_env
                     (registration "Cas" "cas@x.com" "pw") visitor))
     = {| userId := Some (seq_users (db visitor) + 1);
          email := Some "cas@x.com"; name := Some "Cas" |}
  /\ User.findByEmail
       (db (snd (@register sample_platform sample_env
                   (registration "Cas" "cas@x.com" "pw") visitor)))
       "cas@x.com"
     = Some {| u_id := seq_users (db visitor) + 1; u_name := "Cas";
               u_email := "cas@x.com";
               u_password_hash :=
                 @bcrypt_hashSync sample_platform "pw" (genSalt sample_env);
               u_created_at := unixepoch sample_env;
               u_updated_at := unixepoch sample_env |}
  /\ forall next,
       requireAuth next
         (snd (@register sample_platform sample_env
                 (registration "Cas" "cas@x.com" "pw") visitor))
       = next (seq_users (db visitor) + 1)
           (snd (@register sample_platform sample_env
                   (registration "Cas" "cas@x.com" "pw") visitor)).
Proof.
  exact (conj kitchen_integrity (conj eq_refl (conj eq_refl
           (proj1 (@register_by_email sample_platform sample_env
                     (registration "Cas" "cas@x.com" "pw") visitor
                     "Cas" "cas@x.com" "pw" kitchen_integrity eq_refl)
              eq_refl)))).
Defined.

Lemma login_opens_a_session_witness :
  @loginChain sample_platform (req_body (credentials "ann@x.com" "ann"))
  = Valid ("ann@x.com", JString "ann")
  /\ User.findByEmail (db visitor) "ann@x.com" = Some ann
  /\ @bcrypt_compareSync sample_platform "ann" (u_password_hash ann) = true
  /\ fst (@login sample_platform sample_env
            (credentials "ann@x.com" "ann") visitor)
     = {| status := 200;
          json := JUser (Some "Login successful")
                        (u_id ann) (u_name ann) (u_email ann) |}
  /\ session (snd (@login sample_platform sample_env
                     (credentials "ann@x.com" "ann") visitor))
     = {| userId := Some (u_id ann); email := Some (u_email ann);
          name := Some (u_name ann) |}
  /\ db (snd (@login sample_platform sample_env
                (credentials "ann@x.com" "ann") visitor))
     = User.updateActivity (db visitor) (unixepoch sample_env) (u_id ann)
  /\ recipes (db (snd (@login sample_platform sample_env
                         (credentials "ann@x.com" "ann") visitor)))
     = recipes (db visitor)
  /\ favorites (db (snd (@login sample_platform sample_env
                           (credentials "ann@x.com" "ann") visitor)))
     = favorites (db visitor).
Proof.
  exact (conj eq_refl (conj eq_refl (conj eq_refl
           (@login_opens_a_session sample_platform sample_env
              (credentials "ann@x.com" "ann") visitor "ann@x.com" "ann" ann
              eq_refl eq_refl eq_refl)))).
Defined.

Lemma login_then_me_witness :
  integrity (db visitor)
  /\ @loginChain sample_platform (req_body (credentials "ann@x.com" "ann"))
     = Valid ("ann@x.com", JString "ann")
  /\ User.findByEmail (db visitor) "ann@x.com" = Some ann
  /\ @bcrypt_compareSync sample_platform "ann" (u_password_hash ann) = true
  /\ method (plain_get ["me"]) = GET
  /\ path (plain_get ["me"]) = ["me"]
  /\ fst (@authRoutes sample_platform sample_env (plain_get ["me"])
            (snd (@login sample_platform sample_env
                    (credentials "ann@x.com" "ann") visitor)))
     = {| status := 200;
          json := JUser None (u_id ann) (u_name ann) (u_email ann) |}.
Proof.
  exact (conj kitchen_integrity (conj eq_refl (conj eq_refl (conj eq_refl
           (conj eq_refl (conj eq_refl
              (@login_then_me sample_platform sample_env sample_env
                 (credentials "ann@x.com" "ann") (plain_get ["me"]) visitor
                 "ann@x.com" "ann" ann kitchen_integrity
                 eq_refl eq_refl eq_refl eq_refl eq_refl))))))).
Defined.

Lemma recipe_writes_answer_by_ownership_witness :
  integrity (db visitor)
  /\ In soup_row (recipes (db visitor))
  /\ @updateRecipeChain sample_platform (req_body put_broth)
     = Valid (req_body put_broth)
  /\ (forall B, B <> r_user_id soup_row ->
        deleteRecipe (r_id soup_row) B visitor
        = ({| status := 404;
              json := JError "Recipe not found"
                (Some "Recipe does not exist or you don't have permission to delete it") |},
           {| db := db visitor; session := session visitor;
              calls := calls visitor ++ [Recipe_delete] |})
        /\ @updateRecipe sample_platform sample_env (r_id soup_row) put_broth
             B visitor
           = ({| status := 404;
                 json := JError "Recipe not found"
                   (Some "Recipe does not exist or you don't have permission to update it") |},
              {| db := db visitor; session := session visitor;
                 calls := calls visitor ++ [Recipe_update] |}))
  /\ exists w',
       deleteRecipe (r_id soup_row) (r_user_id soup_row) visitor
       = ({| status := 200; json := JMessage "Recipe deleted successfully" |},
          w')
       /\ fst (getRecipeById (r_id soup_row) (r_user_id soup_row) w')
          = {| status := 404;
               json := JError "Recipe not found"
                 (Some "Recipe does not exist or you don't have permission to view it") |}.
Proof.
  exact (conj kitchen_integrity (conj soup_in_kitchen (conj eq_refl
           (@recipe_writes_answer_by_ownership sample_platform sample_env
              put_broth (req_body put_broth) visitor soup_row
              kitchen_integrity soup_in_kitchen eq_refl)))).
Defined.

Lemma search_without_query_lists_all_witness :
  written_by_model (db visitor)
  /\ JS.falsy_string (query_q (plain_get ["search"])) = true
  /\ exists rs,
       Recipe.findByUserId (db visitor) 1 = Ok rs
       /\ fst (searchRecipes (plain_get ["search"]) 1 visitor)
          = {| status := 200; json := JRecipes rs |}
       /\ fst (getAllRecipes 1 visitor)
          = {| status := 200; json := JRecipes rs |}
       /\ db (snd (searchRecipes (plain_get ["search"]) 1 visitor))
          = db visitor.
Proof.
  exact (conj kitchen_written (conj eq_refl
           (search_without_query_lists_all (plain_get ["search"]) 1 visitor
              kitchen_written eq_refl))).
Defined.

Lemma toggle_unknown_recipe_fails_witness :
  integrity (db bob_logged_in)
  /\ b_recipeId (req_body (toggle_of "r-none")) = Some "r-none"
  /\ JS.is_empty "r-none" = false
  /\ has_recipe (db bob_logged_in) "r-none" = false
  /\ toggleFavorite sample_env (toggle_of "r-none") 2 bob_logged_in
     = (error500 "Failed to toggle favorite"
                 "An error occurred while updating favorites",
        {| db := db bob_logged_in; session := session bob_logged_in;
           calls := (calls bob_logged_in ++ [Favorite_isFavorited])
                      ++ [Favorite_add] |}).
Proof.
  exact (conj kitchen_integrity (conj eq_refl (conj eq_refl (conj eq_refl
           (toggle_unknown_recipe_fails sample_env (toggle_of "r-none") 2
              "r-none" bob_logged_in kitchen_integrity
              eq_refl eq_refl eq_refl))))).
Defined.

Lemma cook_page_shows_own_recipes_only_witness :
  (JS.falsy_number (userId (session visitor)) = true
   /\ get_recipes_cook "r-soup" visitor = (Redirect "/login", visitor))
  /\ (get_recipes_cook "r-soup" ann_logged_in
      = (Render "cook" (session_user 1 ann_logged_in) (page_title "Soup")
                (Some soup),
         {| db := db ann_logged_in; session := session ann_logged_in;
            calls := calls ann_logged_in ++ [Recipe_findById] |})
      /\ o_id soup = "r-soup"
      /\ userId (session ann_logged_in) = Some (o_user_id soup)
      /\ db {| db := db ann_logged_in; session := session ann_logged_in;
               calls := calls ann_logged_in ++ [Recipe_findById] |}
         = db ann_logged_in)
  /\ (integrity (db bob_with_favorite)
      /\ userId (session bob_with_favorite) = Some 2
      /\ 2 <> 0
      /\ In soup_row (recipes (db bob_with_favorite))
      /\ r_id soup_row = "r-soup"
      /\ 2 <> r_user_id soup_row
      /\ fst (get_recipes_cook "r-soup" bob_with_favorite)
         = Send 404 "Recipe not found").
Proof.
  assert (H20 : 2 <> 0) by lia.
  assert (H21 : 2 <> r_user_id soup_row) by (simpl; lia).
  split; [|split].
  - exact (conj eq_refl
             (proj1 (cook_page_shows_own_recipes_only "r-soup" visitor)
                eq_refl)).
  - exact (conj eq_refl
             (proj1 (proj2 (cook_page_shows_own_recipes_only "r-soup"
                              ann_logged_in))
                "cook" (session_user 1 ann_logged_in) (page_title "Soup")
                soup _ eq_refl)).
  - exact (conj kitchen_favorited_integrity (conj eq_refl (conj H20
             (conj soup_in_kitchen (conj eq_refl (conj H21
                (proj2 (proj2 (cook_page_shows_own_recipes_only "r-soup"
                                 bob_with_favorite))
                   2 soup_row kitchen_favorited_integrity eq_refl H20
                   soup_in_kitchen eq_refl H21))))))).
Defined.

Lemma without_session_only_accounts_are_touched_witness :
  JS.falsy_number (userId (session visitor)) = true
  /\ only_user_ops visitor
       (snd (@app sample_platform sample_env
               (below (credentials "ann@x.com" "ann")
                      ["api"; "auth"; "login"]) visitor))
  /\ only_user_ops visitor
       (snd (@app sample_platform sample_env
               (below delete_soup ["api"; "recipes"; "r-soup"]) visitor)).
Proof.
  exact (conj eq_refl
           (conj (@without_session_only_accounts_are_touched sample_platform
                    sample_env
                    (below (credentials "ann@x.com" "ann")
                           ["api"; "auth"; "login"]) visitor eq_refl)
                 (@without_session_only_accounts_are_touched sample_platform
                    sample_env
                    (below delete_soup ["api"; "recipes"; "r-soup"]) visitor
                    eq_refl))).
Defined.
